(** * Foroactivo Discord monitor: cursor store, change detector, orchestrator

    A shallow embedding of [src/state_manager.py] (the [StateManager]
    class), of the persistence boundary it uses ([json.dump] to and
    [json.load] from the state file), and of the per-monitor pipelines of
    [src/monitor.py], followed by the properties of the specification that
    are settled on it.

    Conventions.
    - A Python value that can live in the cursor store is a [pyval]; the
      store is loaded from a JSON document, so its shape is whatever that
      document holds.  A Python [dict] is an association list in insertion
      order with pairwise distinct keys: [json.dump] writes the keys in that
      order, so the order is observable in the state file.
    - A Python [str] is a [string]; a character beyond ASCII stands for the
      bytes of its UTF-8 form, which [json.dump(..., ensure_ascii=False)]
      and [json.load] both pass through untouched.
    - [print] appends a [line] to the output; a raised exception is the
      [Raise] case of [result].  Functions that print return their output
      first and their result second.
    - [datetime.utcnow()], the file system, the forum and the webhook are
      inputs of the model. *)

From Stdlib Require Import String Ascii List ZArith Lia Bool Arith.
From Stdlib Require DecimalString DecimalZ DecimalN DecimalPos DecimalFacts.
Import ListNotations.
Local Open Scope string_scope.
Local Open Scope list_scope.

Set Implicit Arguments.
Set Warnings "-register-all".
Set Warnings "-automation".


(** ** Python values *)

Inductive pyval : Type :=
| PNone
| PBool (b : bool)
| PInt (z : Z)
| PFloat (lit : string)      (* a float, kept as its literal *)
| PStr (s : string)
| PList (xs : list pyval)
| PDict (kvs : list (string * pyval)).

(** The exception classes the modelled code can meet. *)
Inductive exn : Type :=
| AttributeError
| TypeError
| IndexError
| ValueError
| JSONDecodeError
| OSError
| RequestException
| RuntimeError
| OverflowError.

Inductive result (A : Type) : Type :=
| Ok (a : A)
| Raise (e : exn).
Arguments Ok {A} a.
Arguments Raise {A} e.

(** Snapshot records, as the forum client builds them
    ([_parse_thread_from_custom_theme], [_parse_post]): every field is a
    [str]. *)
Record ThreadRecord : Type := mkThread {
  t_id : string;
  t_title : string;
  t_author : string;
  t_url : string;
  t_last_post_date : string
}.

Record PostRecord : Type := mkPost {
  p_id : string;
  p_author : string;
  p_content : string;
  p_timestamp : string;
  p_url : string
}.

(** ** Output lines

    One constructor per [print] statement of the modelled code, carrying
    the interpolated values; [line_text] gives the literal text up to the
    first interpolation. *)
Inductive line : Type :=
| LStateFileNotFound
| LLoadedState (n : nat)
| LErrorReadingState (e : exn)
| LStartingEmpty
| LUnexpectedLoadError (e : exn)
| LStateSaved
| LErrorSaving (e : exn)
| LUpdatedThread (thread_id last_post_id : string) (total : Z)
| LFoundNewThreads (n : nat) (forum_id : string)
| LNoNewThreads (forum_id : string)
| LUpdatedForum (forum_id : string) (n : nat)
| LFirstTime (thread_id : string)
| LLastPostNotFound (last_post_id : pyval)
| LStructureChanged
| LFoundNewPosts (n : nat) (thread_id : string)
| LNoNewPosts (thread_id : string)
| LMonitor (text : string).

Definition line_text (l : line) : string :=
  match l with
  | LStateFileNotFound => "State file not found, creating new state: "
  | LLoadedState _ => "Loaded state for "
  | LErrorReadingState _ => "Error reading state file: "
  | LStartingEmpty => "Starting with empty state"
  | LUnexpectedLoadError _ => "Unexpected error loading state: "
  | LStateSaved => "State saved successfully: "
  | LErrorSaving _ => "Error saving state: "
  | LUpdatedThread _ _ _ => "Updated state for thread "
  | LFoundNewThreads _ _ => "Found "
  | LNoNewThreads _ => "No new threads in forum "
  | LUpdatedForum _ _ => "Updated state for forum "
  | LFirstTime _ => "First time tracking thread "
  | LLastPostNotFound _ => "Warning: Last post ID "
  | LStructureChanged =>
      "Thread structure may have changed. Returning only the latest post."
  | LFoundNewPosts _ _ => "Found "
  | LNoNewPosts _ => "No new posts in thread "
  | LMonitor text => text
  end.

(** A line whose text starts with [Warning]. *)
Definition is_warning (l : line) : bool :=
  String.prefix "Warning" (line_text l).

(** ** The output-and-exception monad *)

Definition Out (A : Type) : Type := (list line * result A)%type.

Definition ret {A} (a : A) : Out A := ([], Ok a).
Definition raise {A} (e : exn) : Out A := ([], Raise e).
Definition print (l : line) : Out unit := ([l], Ok tt).
Definition lift {A} (r : result A) : Out A := ([], r).

Definition bind {A B} (m : Out A) (f : A -> Out B) : Out B :=
  match m with
  | (o1, Ok a) => let (o2, r) := f a in (o1 ++ o2, r)
  | (o1, Raise e) => (o1, Raise e)
  end.

Declare Scope out_scope.
Delimit Scope out_scope with out.
Notation "x <- m ;; k" := (bind m (fun x => k))
  (at level 61, m at next level, right associativity) : out_scope.
Notation "m ;;; k" := (bind m (fun _ => k))
  (at level 61, right associativity) : out_scope.
Local Open Scope out_scope.

Definition output {A} (m : Out A) : list line := fst m.
Definition outcome {A} (m : Out A) : result A := snd m.

(** ** Python dictionaries and the built-ins the code calls *)

Fixpoint dict_get (d : list (string * pyval)) (k : string) : option pyval :=
  match d with
  | [] => None
  | (k', v) :: d' => if String.eqb k k' then Some v else dict_get d' k
  end.

(** [d[k] = v]: an existing key keeps its position, a new key goes last. *)
Fixpoint dict_set (d : list (string * pyval)) (k : string) (v : pyval)
  : list (string * pyval) :=
  match d with
  | [] => [(k, v)]
  | (k', v') :: d' =>
      if String.eqb k k' then (k', v) :: d' else (k', v') :: dict_set d' k v
  end.

(** [x.get(k, default)]: only a dict has [get]. *)
Definition py_get (x : pyval) (k : string) (default : pyval) : result pyval :=
  match x with
  | PDict d => Ok (match dict_get d k with Some v => v | None => default end)
  | _ => Raise AttributeError
  end.

(** [x[k] = v] for a [str] key [k]. *)
Definition py_setitem (x : pyval) (k : string) (v : pyval) : result pyval :=
  match x with
  | PDict d => Ok (PDict (dict_set d k v))
  | _ => Raise TypeError
  end.

Definition hashable (v : pyval) : bool :=
  match v with
  | PList _ | PDict _ => false
  | _ => true
  end.

(** A byte that continues a character in UTF-8. *)
Definition is_continuation (c : ascii) : bool :=
  (128 <=? N_of_ascii c)%N && (N_of_ascii c <? 192)%N.

(** The characters of a text in UTF-8: a byte that is not a continuation
    byte, with the continuation bytes that follow it. *)
Fixpoint utf8_chars (cs : list ascii) : list (list ascii) :=
  match cs with
  | [] => []
  | c :: rest =>
      let following := utf8_chars rest in
      match rest, following with
      | c' :: _, g :: gs =>
          if is_continuation c' then (c :: g) :: gs else [c] :: following
      | _, _ => [c] :: following
      end
  end.

(** The characters of a [str], each a [str] of length one. *)
Definition chars (s : string) : list pyval :=
  map (fun c => PStr (string_of_list_ascii c))
      (utf8_chars (list_ascii_of_string s)).

(** [set(x)], as the list of its elements. *)
Definition py_set (x : pyval) : result (list pyval) :=
  match x with
  | PList xs => if forallb hashable xs then Ok xs else Raise TypeError
  | PStr s => Ok (chars s)
  | PDict d => Ok (map (fun kv => PStr (fst kv)) d)
  | _ => Raise TypeError
  end.

(** [s == v] for a [str] [s]: a string equals only an equal string. *)
Definition py_eq_str (s : string) (v : pyval) : bool :=
  match v with
  | PStr s' => String.eqb s s'
  | _ => false
  end.

(** [s in xs] for a [str] [s] and the elements [xs] of a set. *)
Definition py_in (s : string) (xs : list pyval) : bool :=
  existsb (py_eq_str s) xs.

(** [xs[-1]]. *)
Definition py_last {A} (xs : list A) : result A :=
  match rev xs with
  | [] => Raise IndexError
  | x :: _ => Ok x
  end.

(** [xs[start:]]: a negative [start] counts from the end. *)
Definition py_slice_from {A} (xs : list A) (start : Z) : list A :=
  if (start <? 0)%Z
  then skipn (Z.to_nat (Z.max 0 (Z.of_nat (length xs) + start))) xs
  else skipn (Z.to_nat start) xs.

(** [len(x)]; the length of a [str] counts characters, not bytes. *)
Definition py_len (x : pyval) : result nat :=
  match x with
  | PStr s =>
      Ok (length (filter (fun c => negb (is_continuation c))
                         (list_ascii_of_string s)))
  | PList xs => Ok (length xs)
  | PDict d => Ok (length d)
  | _ => Raise TypeError
  end.

(** [try: m except Exception as e: handler e] *)
Definition try_except {A} (m : Out A) (handler : exn -> Out A) : Out A :=
  match m with
  | (o, Ok a) => (o, Ok a)
  | (o, Raise e) => let (o', r) := handler e in (o ++ o', r)
  end.

(** ** The state file *)

(** What the path of the state file holds: nothing, something that cannot
    be opened or decoded as UTF-8 text ([open] or [read] raises [e]), or a
    text. *)
Inductive file : Type :=
| Missing
| Unreadable (e : exn)
| Contents (data : string).

(** How an attempt to write the file ends: the text is written, creating
    the directory or opening the file raises, or writing raises after
    [written] characters. *)
Inductive write_outcome : Type :=
| Written
| OpenFails (e : exn)
| WriteFails (e : exn) (written : nat).

(** ** The [json] module

    [json.dump(obj, f, indent=2, ensure_ascii=False)] and [json.load(f)],
    over the text of the file as a list of characters.  The interpreter's
    resource limits (recursion depth, length of an integer literal) are
    not modelled. *)

Module Json.

Definition text : Type := list ascii.

Local Open Scope char_scope.

Definition quote : ascii := "034".
Definition backslash : ascii := "\".
Definition tab : ascii := "009".
Definition newline : ascii := "010".
Definition carriage_return : ascii := "013".
Definition backspace : ascii := "008".
Definition formfeed : ascii := "012".

(** *** Encoder *)

Definition hex_digit (n : N) : ascii :=
  if (n <? 10)%N then ascii_of_N (48 + n) else ascii_of_N (87 + n).

(** [ESCAPE_DCT]: the replacement of a character of a string. *)
Definition escape_char (c : ascii) : text :=
  if (c =? backslash) then [backslash; backslash]
  else if (c =? quote) then [backslash; quote]
  else if (c =? backspace) then [backslash; "b"]
  else if (c =? formfeed) then [backslash; "f"]
  else if (c =? newline) then [backslash; "n"]
  else if (c =? carriage_return) then [backslash; "r"]
  else if (c =? tab) then [backslash; "t"]
  else if (N_of_ascii c <? 32)%N then
    [backslash; "u"; "0"; "0";
     hex_digit (N_of_ascii c / 16); hex_digit (N_of_ascii c mod 16)]
  else [c].

(** [encode_basestring] *)
Definition encode_basestring (s : string) : text :=
  quote :: flat_map escape_char (list_ascii_of_string s) ++ [quote].

(** [int.__repr__] *)
Definition int_repr (z : Z) : text :=
  list_ascii_of_string (DecimalString.NilZero.string_of_int (Z.to_int z)).

(** ['\n' + _indent * level] with [_indent] two spaces. *)
Definition newline_indent (level : nat) : text :=
  newline :: repeat " " (2 * level).

(** [separator.join(chunks)] *)
Fixpoint join (separator : text) (chunks : list text) : text :=
  match chunks with
  | [] => []
  | [chunk] => chunk
  | chunk :: rest => chunk ++ separator ++ join separator rest
  end.

(** [_iterencode], with the item separator [","] and the key separator
    [": "] that [indent=2] selects.  A float is written as the literal it
    is kept as, which is what [float.__repr__] writes only for a literal
    that has that form already: what is stated of a written text leaves
    floats out ([json_shaped]). *)
Fixpoint iterencode (level : nat) (o : pyval) : text :=
  match o with
  | PNone => list_ascii_of_string "null"
  | PBool true => list_ascii_of_string "true"
  | PBool false => list_ascii_of_string "false"
  | PInt z => int_repr z
  | PFloat lit => list_ascii_of_string lit
  | PStr s => encode_basestring s
  | PList [] => list_ascii_of_string "[]"
  | PList xs =>
      "[" :: newline_indent (S level)
        ++ join ("," :: newline_indent (S level))
                (map (iterencode (S level)) xs)
        ++ newline_indent level ++ ["]"]
  | PDict [] => list_ascii_of_string "{}"
  | PDict kvs =>
      "{" :: newline_indent (S level)
        ++ join ("," :: newline_indent (S level))
                (map (fun kv => encode_basestring (fst kv) ++ [":"; " "]
                                  ++ iterencode (S level) (snd kv)) kvs)
        ++ newline_indent level ++ ["}"]
  end.

(** [json.dumps(obj, indent=2, ensure_ascii=False)] *)
Definition dumps (obj : pyval) : string :=
  string_of_list_ascii (iterencode 0 obj).

(** *** Decoder *)

(** The outcome of scanning a prefix of a text: the value and the text
    left, a syntax error, or a scan that ran out of fuel. *)
Inductive scan (A : Type) : Type :=
| Scanned (a : A) (rest : text)
| Invalid
| Exhausted.
Arguments Scanned {A} a rest.
Arguments Invalid {A}.
Arguments Exhausted {A}.

Definition scan_map {A B} (f : A -> B) (r : scan A) : scan B :=
  match r with
  | Scanned a rest => Scanned (f a) rest
  | Invalid => Invalid
  | Exhausted => Exhausted
  end.

(** [WHITESPACE] *)
Definition is_ws (c : ascii) : bool :=
  (c =? " ") || (c =? tab) || (c =? newline) || (c =? carriage_return).

Fixpoint skip_ws (s : text) : text :=
  match s with
  | c :: s' => if is_ws c then skip_ws s' else s
  | [] => []
  end.

Definition is_digit (c : ascii) : bool :=
  (48 <=? N_of_ascii c)%N && (N_of_ascii c <=? 57)%N.

Definition hex_value (c : ascii) : option N :=
  let n := N_of_ascii c in
  if (48 <=? n)%N && (n <=? 57)%N then Some (n - 48)%N
  else if (97 <=? n)%N && (n <=? 102)%N then Some (n - 87)%N
  else if (65 <=? n)%N && (n <=? 70)%N then Some (n - 55)%N
  else None.

(** The four hexadecimal digits of a [\uXXXX] escape. *)
Definition decode_uXXXX (h1 h2 h3 h4 : ascii) : option N :=
  match hex_value h1, hex_value h2, hex_value h3, hex_value h4 with
  | Some a, Some b, Some c, Some d =>
      Some (((a * 16 + b) * 16 + c) * 16 + d)%N
  | _, _, _, _ => None
  end.

(** [chr(uni)], as the bytes of its UTF-8 form. *)
Definition chr (uni : N) : text :=
  if (uni <? 128)%N then [ascii_of_N uni]
  else if (uni <? 2048)%N then
    [ascii_of_N (192 + uni / 64); ascii_of_N (128 + uni mod 64)]
  else if (uni <? 65536)%N then
    [ascii_of_N (224 + uni / 4096); ascii_of_N (128 + (uni / 64) mod 64);
     ascii_of_N (128 + uni mod 64)]
  else
    [ascii_of_N (240 + uni / 262144); ascii_of_N (128 + (uni / 4096) mod 64);
     ascii_of_N (128 + (uni / 64) mod 64); ascii_of_N (128 + uni mod 64)].

(** [BACKSLASH]: the one-letter escapes. *)
Definition unescape (esc : ascii) : option ascii :=
  if (esc =? quote) then Some quote
  else if (esc =? backslash) then Some backslash
  else if (esc =? "/") then Some "/"
  else if (esc =? "b") then Some backspace
  else if (esc =? "f") then Some formfeed
  else if (esc =? "n") then Some newline
  else if (esc =? "r") then Some carriage_return
  else if (esc =? "t") then Some tab
  else None.

Definition prepend (cs : text) (r : scan text) : scan text :=
  scan_map (fun str => cs ++ str) r.

(** [scanstring(s, end, strict=True)], from the character after the
    opening quote. *)
Fixpoint scanstring (s : text) : scan text :=
  match s with
  | [] => Invalid
  | c :: s1 =>
      if (c =? quote) then Scanned [] s1
      else if (c =? backslash) then
        match s1 with
        | [] => Invalid
        | esc :: s2 =>
            if (esc =? "u") then
              match s2 with
              | h1 :: h2 :: h3 :: h4 :: s3 =>
                  match decode_uXXXX h1 h2 h3 h4 with
                  | None => Invalid
                  | Some uni =>
                      let single := prepend (chr uni) (scanstring s3) in
                      if (55296 <=? uni)%N && (uni <=? 56319)%N then
                        match s3 with
                        | b :: u :: l1 :: l2 :: l3 :: l4 :: s4 =>
                            if (b =? backslash) && (u =? "u") then
                              match decode_uXXXX l1 l2 l3 l4 with
                              | None => Invalid
                              | Some uni2 =>
                                  if (56320 <=? uni2)%N && (uni2 <=? 57343)%N
                                  then
                                    prepend
                                      (chr (65536 + ((uni - 55296) * 1024
                                                     + (uni2 - 56320))))
                                      (scanstring s4)
                                  else single
                              end
                            else single
                        | _ => single
                        end
                      else single
                  end
              | _ => Invalid
              end
            else
              match unescape esc with
              | Some c' => prepend [c'] (scanstring s2)
              | None => Invalid
              end
        end
      else if (N_of_ascii c <? 32)%N then Invalid
      else prepend [c] (scanstring s1)
  end.

Fixpoint take_digits (s : text) : text * text :=
  match s with
  | c :: s' =>
      if is_digit c then let (ds, rest) := take_digits s' in (c :: ds, rest)
      else ([], s)
  | [] => ([], [])
  end.

(** The integer part of [NUMBER_RE]: an optional minus sign, then either
    a single zero or a non-zero digit followed by any digits. *)
Definition match_integer (s : text) : option (text * text) :=
  let (sign, s1) :=
    match s with
    | c :: s' => if (c =? "-") then (["-"], s') else ([], s)
    | [] => ([], s)
    end in
  match s1 with
  | c :: s2 =>
      if (c =? "0") then Some (sign ++ ["0"], s2)
      else if is_digit c then
        let (ds, rest) := take_digits s2 in Some (sign ++ c :: ds, rest)
      else None
  | [] => None
  end.

(** The optional fraction of [NUMBER_RE]: a dot and at least one digit. *)
Definition match_frac (s : text) : text * text :=
  match s with
  | c :: s' =>
      if (c =? ".") then
        match take_digits s' with
        | ([], _) => ([], s)
        | (ds, rest) => (c :: ds, rest)
        end
      else ([], s)
  | [] => ([], s)
  end.

(** The optional exponent of [NUMBER_RE]: [e] or [E], an optional sign
    and at least one digit. *)
Definition match_exp (s : text) : text * text :=
  match s with
  | e :: s' =>
      if (e =? "e") || (e =? "E") then
        let (sign, s1) :=
          match s' with
          | c :: s'' => if (c =? "-") || (c =? "+") then ([c], s'') else ([], s')
          | [] => ([], s')
          end in
        match take_digits s1 with
        | ([], _) => ([], s)
        | (ds, rest) => (e :: sign ++ ds, rest)
        end
      else ([], s)
  | [] => ([], s)
  end.

(** [int(integer)] for a match of the integer part. *)
Definition int_of_text (integer : text) : Z :=
  match DecimalString.NilZero.int_of_string (string_of_list_ascii integer) with
  | Some d => Z.of_int d
  | None => 0%Z
  end.

(** [match_number] and the conversion of the match. *)
Definition scan_number (s : text) : option (pyval * text) :=
  match match_integer s with
  | None => None
  | Some (integer, s1) =>
      let (frac, s2) := match_frac s1 in
      let (exp, s3) := match_exp s2 in
      match frac, exp with
      | [], [] => Some (PInt (int_of_text integer), s3)
      | _, _ => Some (PFloat (string_of_list_ascii (integer ++ frac ++ exp)), s3)
      end
  end.

(** [s[idx:idx + len(word)] == word] *)
Fixpoint starts_with (word : text) (s : text) : option text :=
  match word, s with
  | [], _ => Some s
  | w :: word', c :: s' => if (w =? c) then starts_with word' s' else None
  | _ :: _, [] => None
  end.

(** [dict(pairs)] *)
Definition dict_of_pairs (pairs : list (string * pyval))
  : list (string * pyval) :=
  fold_left (fun d kv => dict_set d (fst kv) (snd kv)) pairs [].

(** The loop of [JSONArray], from the first value. *)
Fixpoint array_items (scan_value : text -> scan pyval) (fuel : nat) (s : text)
  : scan (list pyval) :=
  match fuel with
  | O => Exhausted
  | S fuel' =>
      match scan_value s with
      | Scanned value rest =>
          match skip_ws rest with
          | c :: rest' =>
              if (c =? "]") then Scanned [value] rest'
              else if (c =? ",") then
                scan_map (cons value)
                         (array_items scan_value fuel' (skip_ws rest'))
              else Invalid
          | [] => Invalid
          end
      | Invalid => Invalid
      | Exhausted => Exhausted
      end
  end.

(** [JSONArray], from the character after the opening bracket. *)
Definition parse_array (scan_value : text -> scan pyval) (fuel : nat)
    (s : text) : scan pyval :=
  match skip_ws s with
  | c :: rest =>
      if (c =? "]") then Scanned (PList []) rest
      else scan_map PList (array_items scan_value fuel (skip_ws s))
  | [] => Invalid
  end.

(** The loop of [JSONObject], from the opening quote of a key. *)
Fixpoint object_items (scan_value : text -> scan pyval) (fuel : nat) (s : text)
  : scan (list (string * pyval)) :=
  match fuel with
  | O => Exhausted
  | S fuel' =>
      match s with
      | q :: s1 =>
          if (q =? quote) then
            match scanstring s1 with
            | Scanned key s2 =>
                match skip_ws s2 with
                | colon :: s3 =>
                    if (colon =? ":") then
                      match scan_value (skip_ws s3) with
                      | Scanned value s4 =>
                          let pair := (string_of_list_ascii key, value) in
                          match skip_ws s4 with
                          | c :: s5 =>
                              if (c =? "}") then Scanned [pair] s5
                              else if (c =? ",") then
                                scan_map (cons pair)
                                  (object_items scan_value fuel' (skip_ws s5))
                              else Invalid
                          | [] => Invalid
                          end
                      | Invalid => Invalid
                      | Exhausted => Exhausted
                      end
                    else Invalid
                | [] => Invalid
                end
            | Invalid => Invalid
            | Exhausted => Exhausted
            end
          else Invalid
      | [] => Invalid
      end
  end.

(** [JSONObject], from the character after the opening brace. *)
Definition parse_object (scan_value : text -> scan pyval) (fuel : nat)
    (s : text) : scan pyval :=
  match skip_ws s with
  | c :: rest =>
      if (c =? "}") then Scanned (PDict []) rest
      else
        scan_map (fun pairs => PDict (dict_of_pairs pairs))
                 (object_items scan_value fuel (skip_ws s))
  | [] => Invalid
  end.

Definition scan_word (word : string) (value : pyval) (s : text)
  : option (pyval * text) :=
  match starts_with (list_ascii_of_string word) s with
  | Some rest => Some (value, rest)
  | None => None
  end.

Definition or_else {A} (a b : option A) : option A :=
  match a with Some _ => a | None => b end.

(** [scan_once] *)
Fixpoint scan_once (fuel : nat) (s : text) : scan pyval :=
  match fuel with
  | O => Exhausted
  | S fuel' =>
      match s with
      | [] => Invalid
      | c :: s' =>
          if (c =? quote) then
            scan_map (fun str => PStr (string_of_list_ascii str)) (scanstring s')
          else if (c =? "{") then parse_object (scan_once fuel') fuel' s'
          else if (c =? "[") then parse_array (scan_once fuel') fuel' s'
          else
            match or_else (scan_word "null" PNone s)
                   (or_else (scan_word "true" (PBool true) s)
                   (or_else (scan_word "false" (PBool false) s)
                   (or_else (scan_number s)
                   (or_else (scan_word "NaN" (PFloat "NaN") s)
                   (or_else (scan_word "Infinity" (PFloat "Infinity") s)
                            (scan_word "-Infinity" (PFloat "-Infinity") s))))))
            with
            | Some (value, rest) => Scanned value rest
            | None => Invalid
            end
      end
  end.

(** [json.loads(s)]: one value between optional whitespace; anything else
    raises [JSONDecodeError]. *)
Definition loads (s : string) : result pyval :=
  let t := skip_ws (list_ascii_of_string s) in
  match scan_once (S (length t)) t with
  | Scanned obj rest =>
      match skip_ws rest with
      | [] => Ok obj
      | _ :: _ => Raise JSONDecodeError
      end
  | Invalid => Raise JSONDecodeError
  | Exhausted => Raise RuntimeError
  end.

End Json.

(** ** StateManager *)

Module StateManager.

(** [load_state()]: the new [self.state], which is also the value
    returned. *)
Definition load_state (f : file) : Out pyval :=
  match f with
  | Missing =>
      print LStateFileNotFound ;;;
      ret (PDict [])
  | _ =>
      try_except
        (data <- lift (match f with
                       | Contents data => Ok data
                       | Unreadable e => Raise e
                       | Missing => Raise OSError
                       end) ;;
         state <- lift (Json.loads data) ;;
         n <- lift (py_len state) ;;
         print (LLoadedState n) ;;;
         ret state)
        (fun e =>
           match e with
           | JSONDecodeError =>
               print (LErrorReadingState e) ;;;
               print LStartingEmpty ;;;
               ret (PDict [])
           | _ =>
               print (LUnexpectedLoadError e) ;;;
               ret (PDict [])
           end)
  end.

(** [save_state()]: the value returned and what the file holds
    afterwards.  Every [pyval] is serializable, so only the file system
    can make the attempt fail. *)
Definition save_state (io : write_outcome) (state : pyval) (f : file)
  : Out bool * file :=
  match io with
  | Written =>
      (print LStateSaved ;;; ret true, Contents (Json.dumps state))
  | OpenFails e =>
      (print (LErrorSaving e) ;;; ret false, f)
  | WriteFails e written =>
      (print (LErrorSaving e) ;;; ret false,
       Contents (String.substring 0 written (Json.dumps state)))
  end.

(** [get_last_post_id(thread_id)] *)
Definition get_last_post_id (state : pyval) (thread_id : string)
  : result pyval :=
  match py_get state thread_id (PDict []) with
  | Ok thread_state => py_get thread_state "last_post_id" PNone
  | Raise e => Raise e
  end.

(** [update_thread_state(thread_id, last_post_id, total_posts)];
    [now] is [datetime.utcnow().isoformat() + "Z"]. *)
Definition update_thread_state (now : string) (state : pyval)
    (thread_id last_post_id : string) (total_posts : Z) : Out pyval :=
  state' <- lift (py_setitem state thread_id
      (PDict [("last_post_id", PStr last_post_id);
              ("last_checked_at", PStr now);
              ("total_posts_seen", PInt total_posts)])) ;;
  print (LUpdatedThread thread_id last_post_id total_posts) ;;;
  ret state'.

(** [get_new_threads(forum_id, all_threads)] *)
Definition get_new_threads (state : pyval) (forum_id : string)
    (all_threads : list ThreadRecord) : Out (list ThreadRecord) :=
  match all_threads with
  | [] => ret []
  | _ =>
      forum_state <- lift (py_get state forum_id (PDict [])) ;;
      seen <- lift (py_get forum_state "seen_thread_ids" (PList [])) ;;
      seen_thread_ids <- lift (py_set seen) ;;
      let new_threads :=
        filter (fun thread => negb (py_in (t_id thread) seen_thread_ids))
               all_threads in
      match new_threads with
      | _ :: _ => print (LFoundNewThreads (length new_threads) forum_id)
      | [] => print (LNoNewThreads forum_id)
      end ;;;
      ret new_threads
  end.

(** [update_forum_state(forum_id, thread_ids)] *)
Definition update_forum_state (now : string) (state : pyval)
    (forum_id : string) (thread_ids : list string) : Out pyval :=
  state' <- lift (py_setitem state forum_id
      (PDict [("seen_thread_ids", PList (map PStr thread_ids));
              ("last_checked_at", PStr now);
              ("total_threads", PInt (Z.of_nat (length thread_ids)))])) ;;
  print (LUpdatedForum forum_id (length thread_ids)) ;;;
  ret state'.

(** The loop of [get_new_posts] that looks for the stored id: the index of
    the first post whose id equals it, [-1] when the loop ends without
    [break]. *)
Fixpoint find_last_post_index (last_post_id : pyval) (i : Z)
    (posts : list PostRecord) : Z :=
  match posts with
  | [] => (-1)%Z
  | post :: rest =>
      if py_eq_str (p_id post) last_post_id then i
      else find_last_post_index last_post_id (i + 1)%Z rest
  end.

(** [get_new_posts(thread_id, all_posts)] *)
Definition get_new_posts (state : pyval) (thread_id : string)
    (all_posts : list PostRecord) : Out (list PostRecord) :=
  match all_posts with
  | [] => ret []
  | _ =>
      last_post_id <- lift (get_last_post_id state thread_id) ;;
      match last_post_id with
      | PNone =>
          print (LFirstTime thread_id) ;;;
          latest <- lift (py_last all_posts) ;;
          ret [latest]
      | _ =>
          let last_post_index :=
            find_last_post_index last_post_id 0%Z all_posts in
          if (last_post_index =? -1)%Z then
            print (LLastPostNotFound last_post_id) ;;;
            print LStructureChanged ;;;
            latest <- lift (py_last all_posts) ;;
            ret [latest]
          else
            let new_posts :=
              py_slice_from all_posts (last_post_index + 1)%Z in
            match new_posts with
            | _ :: _ => print (LFoundNewPosts (length new_posts) thread_id)
            | [] => print (LNoNewPosts thread_id)
            end ;;;
            ret new_posts
      end
  end.

(** The summary of one entry in [get_state_summary]: three [data.get]. *)
Definition summary_of (data : pyval) : result pyval :=
  match py_get data "last_post_id" PNone with
  | Raise e => Raise e
  | Ok last_post =>
      match py_get data "last_checked_at" PNone with
      | Raise e => Raise e
      | Ok last_checked =>
          match py_get data "total_posts_seen" PNone with
          | Raise e => Raise e
          | Ok total_posts =>
              Ok (PDict [("last_post", last_post);
                         ("last_checked", last_checked);
                         ("total_posts", total_posts)])
          end
      end
  end.

(** The dict comprehension of [get_state_summary] over
    [self.state.items()]. *)
Fixpoint summaries (items : list (string * pyval))
  : result (list (string * pyval)) :=
  match items with
  | [] => Ok []
  | (thread_id, data) :: rest =>
      match summary_of data with
      | Raise e => Raise e
      | Ok summary =>
          match summaries rest with
          | Raise e => Raise e
          | Ok others => Ok ((thread_id, summary) :: others)
          end
      end
  end.

(** [get_state_summary()] *)
Definition get_state_summary (state : pyval) : result pyval :=
  match py_len state with
  | Raise e => Raise e
  | Ok total_threads =>
      match state with
      | PDict items =>
          match summaries items with
          | Raise e => Raise e
          | Ok threads =>
              Ok (PDict [("total_threads", PInt (Z.of_nat total_threads));
                         ("threads", PDict threads)])
          end
      | _ => Raise AttributeError
      end
  end.

End StateManager.

Import StateManager.

(** ** The configuration file *)

Module Configuration.

(** [key in x] for a [str] key: a key of a dict, an element of a list, a
    part of a string; nothing else can be searched. *)
Definition py_contains (key : string) (x : pyval) : result bool :=
  match x with
  | PDict d =>
      Ok (match dict_get d key with Some _ => true | None => false end)
  | PList xs => Ok (py_in key xs)
  | PStr s =>
      Ok (match String.index 0 key s with Some _ => true | None => false end)
  | _ => Raise TypeError
  end.

(** [x[key]] for a [str] key of which [key in x] holds: the value under
    the key of a dict; a list and a string take integers only. *)
Definition py_getitem (x : pyval) (key : string) : result pyval :=
  match x with
  | PDict _ => py_get x key PNone
  | _ => Raise TypeError
  end.

(** [_load_config()]: the configuration returned.  [FileNotFoundError] is
    an [OSError], and a [JSONDecodeError] leaves as a [ValueError]. *)
Definition _load_config (f : file) : Out pyval :=
  match f with
  | Missing => raise OSError
  | _ =>
      try_except
        (data <- lift (match f with
                       | Contents data => Ok data
                       | Unreadable e => Raise e
                       | Missing => Raise OSError
                       end) ;;
         config <- lift (Json.loads data) ;;
         has_monitors <- lift (py_contains "monitors" config) ;;
         if negb has_monitors then raise ValueError
         else
           monitors <- lift (py_getitem config "monitors") ;;
           n <- lift (py_len monitors) ;;
           print (LMonitor "Loaded configuration with ") ;;;
           ret config)
        (fun e =>
           match e with
           | JSONDecodeError => raise ValueError
           | _ => raise e
           end)
  end.

End Configuration.

(** ** The stored cursors, read the way the specification names them *)

(** The seen-set of [forum_id]: the ids of the stored ForumCursor, empty
    when no cursor (or no id list) is stored. *)
Definition stored_seen_thread_ids (d : list (string * pyval))
    (forum_id : string) : list pyval :=
  match dict_get d forum_id with
  | Some (PDict c) =>
      match dict_get c "seen_thread_ids" with
      | Some (PList xs) => xs
      | _ => []
      end
  | _ => []
  end.

(** The entry of [forum_id], when there is one, is a cursor record whose
    id list, when there is one, is a list of hashable values. *)
Definition forum_cursor_ok (d : list (string * pyval)) (forum_id : string)
  : Prop :=
  match dict_get d forum_id with
  | None => True
  | Some (PDict c) =>
      match dict_get c "seen_thread_ids" with
      | None => True
      | Some (PList xs) => forallb hashable xs = true
      | Some _ => False
      end
  | Some _ => False
  end.



(** ** Values a JSON document can carry back

    A value made of [None], booleans, integers, strings, lists and dicts
    whose keys are pairwise distinct at every level.  A float is left out:
    how the interpreter prints one is not modelled. *)

Fixpoint distinct (keys : list string) : bool :=
  match keys with
  | [] => true
  | k :: rest => negb (existsb (String.eqb k) rest) && distinct rest
  end.

Fixpoint json_shaped (v : pyval) : bool :=
  match v with
  | PFloat _ => false
  | PList xs => forallb json_shaped xs
  | PDict kvs =>
      distinct (map fst kvs) && forallb (fun kv => json_shaped (snd kv)) kvs
  | _ => true
  end.

(** The number of values in a value. *)
Fixpoint size (v : pyval) : nat :=
  match v with
  | PList xs => S (list_sum (map size xs))
  | PDict kvs => S (list_sum (map (fun kv => size (snd kv)) kvs))
  | _ => 1
  end.

(** A text that cannot continue a number that ends just before it. *)
Definition ends_number (rest : Json.text) : bool :=
  match rest with
  | [] => true
  | c :: _ =>
      negb (Json.is_digit c) && negb (Ascii.eqb c ".")
      && negb (Ascii.eqb c "e") && negb (Ascii.eqb c "E")
  end.

(** The digits of a decimal number, as text. *)
Definition digits_of (d : Decimal.uint) : Json.text :=
  list_ascii_of_string (DecimalString.NilEmpty.string_of_uint d).

(** A scan that did not run out of fuel and, when it found a value, left
    less text than it was given. *)
Definition consumes {A} (s : Json.text) (r : Json.scan A) : Prop :=
  match r with
  | Json.Scanned _ rest => (length rest < length s)%nat
  | Json.Invalid => True
  | Json.Exhausted => False
  end.

(** The ForumCursor that [update_forum_state] stores. *)
Definition forum_cursor (thread_ids : list string) (now : string) : pyval :=
  PDict [("seen_thread_ids", PList (map PStr thread_ids));
         ("last_checked_at", PStr now);
         ("total_threads", PInt (Z.of_nat (length thread_ids)))].

(** The stores the program builds: the empty store, then one cursor
    update after the other. *)
Inductive built : list (string * pyval) -> Prop :=
| built_empty : built []
| built_thread d now thread_id last_post_id total_posts :
    built d ->
    built (dict_set d thread_id
             (PDict [("last_post_id", PStr last_post_id);
                     ("last_checked_at", PStr now);
                     ("total_posts_seen", PInt total_posts)]))
| built_forum d now forum_id thread_ids :
    built d ->
    built (dict_set d forum_id (forum_cursor thread_ids now)).

(** The entry of a key in the store; a store that is not a mapping has
    none. *)
Definition entry (state : pyval) (k : string) : option pyval :=
  match state with
  | PDict d => dict_get d k
  | _ => None
  end.

(** [xs] ends with [ys]. *)
Definition is_suffix {A} (ys xs : list A) : Prop :=
  exists before, xs = before ++ ys.

(** ** The forum, the webhook and the clock *)

(** The body of a request posted to a webhook; the embed is a function of
    these. *)
Inductive payload : Type :=
| ThreadEmbed (thread : ThreadRecord) (forum_name : string)
| PostEmbed (post : PostRecord) (thread_name : string)
| ErrorEmbed (error_message : string) (name : string).

(** What [requests.post] does: it returns a response, of which the code
    reads [status_code] and, on a 429, [json().get("retry_after", 5)], or
    it raises. *)
Inductive http_result : Type :=
| Response (status_code : Z) (retry_after : result pyval)
| PostRaises (e : exn).

(** Everything outside the process.  The first argument of an oracle is
    the number of calls made to the outside before it.  [getenv] is
    [os.getenv] on a name that can be encoded for the environment.  The
    last field is what [time.sleep] does with a duration on which
    interpreters and platforms differ (see [sleep_verdict]). *)
Record Env : Type := mkEnv {
  getenv : string -> option string;
  client_login : nat -> string -> result bool;
  client_get_forum_threads : nat -> string -> result (list ThreadRecord);
  client_get_thread_posts : nat -> string -> result (list PostRecord);
  requests_post : nat -> string -> payload -> http_result;
  utcnow : nat -> string;
  disk : nat -> write_outcome;
  time_sleep_beyond : pyval -> result unit
}.

(** What the run does that can be seen from outside, and the assignments
    to the cursor store, in order. *)
Inductive event : Type :=
| EvLogin (forum_url : string)
| EvFetchThreads (section_url : string)
| EvFetchPosts (thread_url : string)
| EvPost (webhook_url : string) (body : payload)
| EvSleep (seconds : pyval)
| EvSetCursor (monitor_id : string)
| EvLoad
| EvSave (ok : bool).

Record world : Type := mkWorld {
  w_state : pyval;           (* [state_manager.state] *)
  w_file : file;             (* the state file *)
  w_out : list line;         (* what has been printed *)
  w_trace : list event;
  w_clock : nat              (* calls made to the outside *)
}.

(** One entry of [monitors] in the configuration; [None] is a missing
    key. *)
Record MonitorConfig : Type := mkConfig {
  cfg_id : option string;
  cfg_name : option string;
  cfg_type : option string;
  cfg_forum_url : option string;
  cfg_section_url : option string;
  cfg_thread_url : option string;
  cfg_discord_webhook_env : option string;
  cfg_enabled : option bool
}.

(** ** The monad of the orchestrator: a world, and exceptions *)

Definition Run (A : Type) : Type := world -> result A * world.

Module RunMonad.

Definition ret {A} (a : A) : Run A := fun w => (Ok a, w).
Definition raise {A} (e : exn) : Run A := fun w => (Raise e, w).

Definition bind {A B} (m : Run A) (f : A -> Run B) : Run B :=
  fun w =>
    match m w with
    | (Ok a, w') => f a w'
    | (Raise e, w') => (Raise e, w')
    end.

(** [try: m except Exception as e: handler e] *)
Definition try_except {A} (m : Run A) (handler : exn -> Run A) : Run A :=
  fun w =>
    match m w with
    | (Ok a, w') => (Ok a, w')
    | (Raise e, w') => handler e w'
    end.

Definition lift {A} (r : result A) : Run A := fun w => (r, w).

Definition print (text : string) : Run unit :=
  fun w => (Ok tt, mkWorld (w_state w) (w_file w) (w_out w ++ [LMonitor text])
                           (w_trace w) (w_clock w)).

Definition emit (ev : event) : Run unit :=
  fun w => (Ok tt, mkWorld (w_state w) (w_file w) (w_out w)
                           (w_trace w ++ [ev]) (w_clock w)).

(** The number of the next call to the outside. *)
Definition tick : Run nat :=
  fun w => (Ok (w_clock w),
            mkWorld (w_state w) (w_file w) (w_out w) (w_trace w)
                    (S (w_clock w))).

(** A method of the state manager that reads [self.state]. *)
Definition reading {A} (method : pyval -> Out A) : Run A :=
  fun w =>
    let (o, r) := method (w_state w) in
    (r, mkWorld (w_state w) (w_file w) (w_out w ++ o) (w_trace w) (w_clock w)).

(** A method of the state manager that assigns [self.state]. *)
Definition writing (method : pyval -> Out pyval) : Run unit :=
  fun w =>
    match method (w_state w) with
    | (o, Ok state') =>
        (Ok tt, mkWorld state' (w_file w) (w_out w ++ o) (w_trace w) (w_clock w))
    | (o, Raise e) =>
        (Raise e,
         mkWorld (w_state w) (w_file w) (w_out w ++ o) (w_trace w) (w_clock w))
    end.

End RunMonad.

Declare Scope run_scope.
Delimit Scope run_scope with run.
Notation "x <- m ;; k" := (RunMonad.bind m (fun x => k))
  (at level 61, m at next level, right associativity) : run_scope.
Notation "m ;;; k" := (RunMonad.bind m (fun _ => k))
  (at level 61, right associativity) : run_scope.

(** ** Durations

    [time.sleep] converts its argument to a number of nanoseconds, which
    raises [OverflowError] when the number does not fit, and then raises
    [ValueError] when it is negative.  An [int] of at most 9223372036 in
    absolute value fits; a [bool] is the [int] 0 or 1; anything that is
    not a number raises [TypeError].  A float is first rounded to a number
    of nanoseconds, in a way that has changed between versions, and the
    longest sleep differs between platforms: a verdict is given here only
    where all of them agree, which is for a NaN, for an infinity, for a
    float between minus 9 * 10^9 and minus a microsecond, and for an
    [int] or a float between 0 and 10^6 seconds. *)

Definition max_seconds : Z := 9223372036.

(** The value [m * 10 ^ e] of a float literal of JSON; [None] for
    anything else. *)
Definition decimal_of_literal (lit : string) : option (Z * Z) :=
  match Json.match_integer (list_ascii_of_string lit) with
  | None => None
  | Some (integer, s1) =>
      let (frac, s2) := Json.match_frac s1 in
      let (exp, s3) := Json.match_exp s2 in
      match s3 with
      | [] =>
          let digits := tl frac in
          let exponent :=
            match tl exp with
            | sign :: ds =>
                if Ascii.eqb sign "+"%char then Json.int_of_text ds
                else Json.int_of_text (sign :: ds)
            | [] => 0%Z
            end in
          Some (Json.int_of_text (integer ++ digits),
                (exponent - Z.of_nat (length digits))%Z)
      | _ :: _ => None
      end
  end.

(** [lo <= m * 10 ^ e <= hi] for integers [lo] and [hi] and a scale
    [10 ^ k] of the bounds: [lo / 10 ^ k <= m * 10 ^ e <= hi / 10 ^ k]. *)
Definition decimal_between (lo hi : Z) (k : Z) (m e : Z) : bool :=
  let n := (e + k)%Z in
  if (0 <=? n)%Z
  then (lo <=? m * 10 ^ n)%Z && (m * 10 ^ n <=? hi)%Z
  else (lo * 10 ^ (- n) <=? m)%Z && (m <=? hi * 10 ^ (- n))%Z.

(** What [time.sleep] does with its argument where that is the same
    everywhere; [None] where it is not. *)
Definition sleep_verdict (seconds : pyval) : option (result unit) :=
  match seconds with
  | PBool _ => Some (Ok tt)
  | PInt z =>
      if (z <? - max_seconds)%Z || (max_seconds <? z)%Z
      then Some (Raise OverflowError)
      else if (z <? 0)%Z then Some (Raise ValueError)
      else if (z <=? 10 ^ 6)%Z then Some (Ok tt)
      else None
  | PFloat lit =>
      if String.eqb lit "NaN" then Some (Raise ValueError)
      else if String.eqb lit "Infinity" || String.eqb lit "-Infinity"
      then Some (Raise OverflowError)
      else
        match decimal_of_literal lit with
        | Some (m, e) =>
            if decimal_between (- (9 * 10 ^ 15)) (- 1) 6 m e
            then Some (Raise ValueError)
            else if decimal_between 0 (10 ^ 6) 0 m e then Some (Ok tt)
            else None
        | None => None
        end
  | _ => Some (Raise TypeError)
  end.

Definition sleep_outcome (env : Env) (seconds : pyval) : result unit :=
  match sleep_verdict seconds with
  | Some r => r
  | None => time_sleep_beyond env seconds
  end.

(** ** Strings by character

    [len(s)] and [s[:n]] count characters; in the UTF-8 form of a string
    a character is a byte that is not a continuation byte, with the
    continuation bytes that follow it. *)

Definition str_len (s : string) : nat :=
  length (filter (fun c => negb (is_continuation c)) (list_ascii_of_string s)).

Fixpoint take_chars (n : nat) (cs : list ascii) : list ascii :=
  match cs with
  | [] => []
  | c :: rest =>
      if is_continuation c then c :: take_chars n rest
      else
        match n with
        | O => []
        | S n' => c :: take_chars n' rest
        end
  end.

(** [s[:n]] for [n >= 0]. *)
Definition str_slice_to (s : string) (n : nat) : string :=
  string_of_list_ascii (take_chars n (list_ascii_of_string s)).

(** ** DiscordNotifier *)

Module DiscordNotifier.
Import RunMonad.
Local Open Scope run_scope.

(** [time.sleep(seconds)] *)
Definition time_sleep (env : Env) (seconds : pyval) : Run unit :=
  match sleep_outcome env seconds with
  | Ok _ => emit (EvSleep seconds)
  | Raise e => raise e
  end.

(** [requests.post(self.webhook_url, json=payload, timeout=10)] *)
Definition post (env : Env) (webhook_url : string) (body : payload)
  : Run (Z * result pyval) :=
  n <- tick ;;
  emit (EvPost webhook_url body) ;;;
  match requests_post env n webhook_url body with
  | Response status_code retry_after => ret (status_code, retry_after)
  | PostRaises e => raise e
  end.

(** The body shared by [send_notification] and
    [send_thread_notification], which differ in the embed and in the
    text printed. *)
Definition send (env : Env) (webhook_url : string) (body : payload)
    (sent : string) : Run bool :=
  try_except
    (response <- post env webhook_url body ;;
     let (status_code, json_retry_after) := response in
     if (status_code =? 204)%Z then
       print sent ;;;
       ret true
     else if (status_code =? 429)%Z then
       retry_after <- lift json_retry_after ;;
       print "Discord rate limit hit, waiting " ;;;
       time_sleep env retry_after ;;;
       response <- post env webhook_url body ;;
       ret (fst response =? 204)%Z
     else
       print "Discord notification failed: " ;;;
       ret false)
    (fun e =>
       match e with
       | RequestException =>
           print "Error sending Discord notification: " ;;;
           ret false
       | _ => raise e
       end).

(** [send_thread_notification(thread, forum_name)] *)
Definition send_thread_notification (env : Env) (webhook_url : string)
    (thread : ThreadRecord) (forum_name : string) : Run bool :=
  send env webhook_url (ThreadEmbed thread forum_name)
       "Discord notification sent for new thread ".

(** [send_notification(post, thread_name)] *)
Definition send_notification (env : Env) (webhook_url : string)
    (post : PostRecord) (thread_name : string) : Run bool :=
  send env webhook_url (PostEmbed post thread_name)
       "Discord notification sent for post ".

(** The loop of the two batch methods: [i] is the index of the first of
    [items], [total] is the length of the whole batch. *)
Fixpoint send_each {A} (env : Env) (send_one : A -> Run bool) (total : nat)
    (i : nat) (items : list A) (success_count : nat) : Run nat :=
  match items with
  | [] => ret success_count
  | item :: rest =>
      ok <- send_one item ;;
      let success_count := if ok then S success_count else success_count in
      (if ((i + 1) mod 4 =? 0)%nat && (i + 1 <? total)%nat then
         print "Sent " ;;;
         time_sleep env (PInt 2)
       else ret tt) ;;;
      send_each env send_one total (i + 1) rest success_count
  end.

Definition send_batch {A} (env : Env) (send_one : A -> Run bool)
    (items : list A) : Run nat :=
  match items with
  | [] => ret 0%nat
  | _ =>
      success_count <- send_each env send_one (length items) 0 items 0 ;;
      print "Sent " ;;;
      ret success_count
  end.

(** [send_batch_thread_notifications(threads, forum_name)] *)
Definition send_batch_thread_notifications (env : Env) (webhook_url : string)
    (threads : list ThreadRecord) (forum_name : string) : Run nat :=
  send_batch env
             (fun thread =>
                send_thread_notification env webhook_url thread forum_name)
             threads.

(** [send_batch_notifications(posts, thread_name)] *)
Definition send_batch_notifications (env : Env) (webhook_url : string)
    (posts : list PostRecord) (thread_name : string) : Run nat :=
  send_batch env
             (fun post => send_notification env webhook_url post thread_name)
             posts.

(** [send_error_notification(error_message, thread_name)] *)
Definition send_error_notification (env : Env) (webhook_url : string)
    (error_message : string) (thread_name : string) : Run bool :=
  try_except
    (response <- post env webhook_url (ErrorEmbed error_message thread_name) ;;
     ret (fst response =? 204)%Z)
    (fun e =>
       print "Failed to send error notification: " ;;;
       ret false).

(** One entry of the [fields] of an embed. *)
Definition field (name value : string) : pyval :=
  PDict [("name", PStr name); ("value", PStr value); ("inline", PBool true)].

Definition footer : pyval := PDict [("text", PStr "Foroactivo Monitor")].

(** [_format_thread_embed(thread, forum_name)] *)
Definition _format_thread_embed (thread : ThreadRecord) (forum_name : string)
  : pyval :=
  let fields := [field "Author" (t_author thread)] in
  let fields :=
    if negb (String.eqb (t_last_post_date thread) EmptyString)
    then fields ++ [field "Posted" (t_last_post_date thread)]
    else fields in
  PDict [("title", PStr ("🆕 New Thread in " ++ forum_name)%string);
         ("description", PStr ("**" ++ t_title thread ++ "**")%string);
         ("color", PInt 5763719);
         ("url", PStr (t_url thread));
         ("fields", PList fields);
         ("footer", footer)].

(** [_format_embed(post, thread_name)] *)
Definition _format_embed (post : PostRecord) (thread_name : string) : pyval :=
  let content_preview := p_content post in
  let content_preview :=
    if (200 <? str_len content_preview)%nat
    then (str_slice_to content_preview 200 ++ "...")%string
    else content_preview in
  let fields := [field "Author" (p_author post)] in
  let fields :=
    if negb (String.eqb (p_timestamp post) EmptyString)
    then fields ++ [field "Posted" (p_timestamp post)]
    else fields in
  PDict [("title", PStr ("New Reply in " ++ thread_name)%string);
         ("description",
          PStr (if negb (String.eqb content_preview EmptyString)
                then content_preview
                else "*No content preview available*"));
         ("color", PInt 5793266);
         ("url", PStr (p_url post));
         ("fields", PList fields);
         ("footer", footer)].

(** The embed of [send_error_notification]. *)
Definition error_embed (error_message thread_name : string) : pyval :=
  PDict [("title", PStr ("⚠️ Monitor Error - " ++ thread_name)%string);
         ("description", PStr error_message);
         ("color", PInt 15548997);
         ("footer", footer)].

(** The [payload] passed as [json=] to [requests.post]. *)
Definition payload_json (body : payload) : pyval :=
  PDict [("embeds",
          PList [match body with
                 | ThreadEmbed thread forum_name =>
                     _format_thread_embed thread forum_name
                 | PostEmbed post thread_name => _format_embed post thread_name
                 | ErrorEmbed error_message name =>
                     error_embed error_message name
                 end])].

End DiscordNotifier.

(** ** ForoactivoMonitor *)

Module ForoactivoMonitor.
Import RunMonad.
Local Open Scope run_scope.

(** [d.get(key, default)] on the configuration. *)
Definition get_or (value : option string) (default : string) : string :=
  match value with Some v => v | None => default end.

(** Truth of an optional string: a missing key and the empty string are
    both false. *)
Definition truthy (value : option string) : bool :=
  match value with
  | Some v => negb (String.eqb v EmptyString)
  | None => false
  end.

(** [monitor_config.get("id")] where it is used as a key: the entry point
    [_process_monitor] has rejected a missing or empty id before. *)
Definition id_of (monitor_config : MonitorConfig) : string :=
  get_or (cfg_id monitor_config) EmptyString.

(** [self.state_manager.update_forum_state(forum_id, thread_ids)] *)
Definition update_forum_state (env : Env) (forum_id : string)
    (thread_ids : list string) : Run unit :=
  n <- tick ;;
  writing (fun state =>
             StateManager.update_forum_state (utcnow env n) state forum_id
                                             thread_ids) ;;;
  emit (EvSetCursor forum_id).

(** [self.state_manager.update_thread_state(thread_id, last_post_id,
    total_posts)] *)
Definition update_thread_state (env : Env) (thread_id last_post_id : string)
    (total_posts : Z) : Run unit :=
  n <- tick ;;
  writing (fun state =>
             StateManager.update_thread_state (utcnow env n) state thread_id
                                              last_post_id total_posts) ;;;
  emit (EvSetCursor thread_id).

(** The [except Exception] clause of the two handlers.  The message they
    post is an f-string that names the monitor and ends with the text of
    the exception; an exception is kept here by its class only, so a
    fixed text stands for the message, and nothing is stated of it. *)
Definition report_error (env : Env) (webhook_env name : string) : Run nat :=
  print "ERROR: " ;;;
  try_except
    (match getenv env webhook_env with
     | Some webhook_url =>
         if negb (String.eqb webhook_url EmptyString) then
           DiscordNotifier.send_error_notification env webhook_url
             "Error processing monitor" name ;;;
           ret tt
         else ret tt
     | None => ret tt
     end)
    (fun _ => ret tt) ;;;
  ret 0%nat.

(** [_process_forum_monitor(monitor_config)] *)
Definition _process_forum_monitor (env : Env) (monitor_config : MonitorConfig)
  : Run nat :=
  let forum_id := id_of monitor_config in
  let forum_name := get_or (cfg_name monitor_config) "Forum" in
  let base_forum_url := get_or (cfg_forum_url monitor_config) EmptyString in
  let webhook_env :=
    get_or (cfg_discord_webhook_env monitor_config) "DISCORD_WEBHOOK_URL" in
  if negb (truthy (cfg_section_url monitor_config)) then
    print "ERROR: section_url required for forum monitor " ;;;
    ret 0%nat
  else
    let section_url := get_or (cfg_section_url monitor_config) EmptyString in
    if negb (truthy (getenv env webhook_env)) then
      print "ERROR: Environment variable " ;;;
      ret 0%nat
    else
      let webhook_url := get_or (getenv env webhook_env) EmptyString in
      try_except
        (print "Authenticating to " ;;;
         n <- tick ;;
         emit (EvLogin base_forum_url) ;;;
         logged_in <- lift (client_login env n base_forum_url) ;;
         if negb logged_in then
           print "ERROR: Failed to authenticate to forum: " ;;;
           DiscordNotifier.send_error_notification env webhook_url
             ("Failed to authenticate to forum: " ++ base_forum_url)%string
             forum_name ;;;
           ret 0%nat
         else
           print "Fetching threads from: " ;;;
           n <- tick ;;
           emit (EvFetchThreads section_url) ;;;
           all_threads <- lift (client_get_forum_threads env n section_url) ;;
           match all_threads with
           | [] =>
               print "WARNING: No threads found in forum section" ;;;
               ret 0%nat
           | _ =>
               new_threads <-
                 reading (fun state =>
                   StateManager.get_new_threads state forum_id all_threads) ;;
               let all_thread_ids := map t_id all_threads in
               update_forum_state env forum_id all_thread_ids ;;;
               match new_threads with
               | [] =>
                   print "No new threads to notify about" ;;;
                   ret 0%nat
               | _ =>
                   print "Sending " ;;;
                   notifications_sent <-
                     DiscordNotifier.send_batch_thread_notifications
                       env webhook_url new_threads forum_name ;;
                   ret notifications_sent
               end
           end)
        (fun e => report_error env webhook_env forum_name)
.

(** [_process_thread_monitor(monitor_config)] *)
Definition _process_thread_monitor (env : Env) (monitor_config : MonitorConfig)
  : Run nat :=
  let thread_id := id_of monitor_config in
  let thread_name := get_or (cfg_name monitor_config) "Thread" in
  let forum_url := get_or (cfg_forum_url monitor_config) EmptyString in
  let webhook_env :=
    get_or (cfg_discord_webhook_env monitor_config) "DISCORD_WEBHOOK_URL" in
  if negb (truthy (cfg_thread_url monitor_config)) then
    print "ERROR: thread_url required for thread monitor " ;;;
    ret 0%nat
  else
    let thread_url := get_or (cfg_thread_url monitor_config) EmptyString in
    if negb (truthy (getenv env webhook_env)) then
      print "ERROR: Environment variable " ;;;
      ret 0%nat
    else
      let webhook_url := get_or (getenv env webhook_env) EmptyString in
      try_except
        (print "Authenticating to " ;;;
         n <- tick ;;
         emit (EvLogin forum_url) ;;;
         logged_in <- lift (client_login env n forum_url) ;;
         if negb logged_in then
           print "ERROR: Failed to authenticate to forum: " ;;;
           DiscordNotifier.send_error_notification env webhook_url
             ("Failed to authenticate to forum: " ++ forum_url)%string
             thread_name ;;;
           ret 0%nat
         else
           print "Fetching posts from: " ;;;
           n <- tick ;;
           emit (EvFetchPosts thread_url) ;;;
           all_posts <- lift (client_get_thread_posts env n thread_url) ;;
           match all_posts with
           | [] =>
               print "WARNING: No posts found in thread" ;;;
               ret 0%nat
           | _ =>
               new_posts <-
                 reading (fun state =>
                   StateManager.get_new_posts state thread_id all_posts) ;;
               match new_posts with
               | [] =>
                   print "No new posts to notify about" ;;;
                   latest_post <- lift (py_last all_posts) ;;
                   update_thread_state env thread_id (p_id latest_post)
                     (Z.of_nat (length all_posts)) ;;;
                   ret 0%nat
               | _ =>
                   print "Sending " ;;;
                   notifications_sent <-
                     DiscordNotifier.send_batch_notifications
                       env webhook_url new_posts thread_name ;;
                   latest_post <- lift (py_last all_posts) ;;
                   update_thread_state env thread_id (p_id latest_post)
                     (Z.of_nat (length all_posts)) ;;;
                   ret notifications_sent
               end
           end)
        (fun e => report_error env webhook_env thread_name)
.

(** [_process_monitor(monitor_config)] *)
Definition _process_monitor (env : Env) (monitor_config : MonitorConfig)
  : Run nat :=
  let monitor_type := get_or (cfg_type monitor_config) "thread" in
  let webhook_env :=
    get_or (cfg_discord_webhook_env monitor_config) "DISCORD_WEBHOOK_URL" in
  print "--- Processing: " ;;;
  if negb (truthy (cfg_id monitor_config)
           && truthy (cfg_forum_url monitor_config)
           && negb (String.eqb webhook_env EmptyString)) then
    print "ERROR: Incomplete configuration for monitor " ;;;
    ret 0%nat
  else if String.eqb monitor_type "forum" then
    _process_forum_monitor env monitor_config
  else
    _process_thread_monitor env monitor_config.

(** [self.state_manager.load_state()] *)
Definition load_state : Run unit :=
  fun w =>
    let (o, r) := StateManager.load_state (w_file w) in
    match r with
    | Ok state =>
        (Ok tt, mkWorld state (w_file w) (w_out w ++ o)
                        (w_trace w ++ [EvLoad]) (w_clock w))
    | Raise e =>
        (Raise e, mkWorld (w_state w) (w_file w) (w_out w ++ o)
                          (w_trace w) (w_clock w))
    end.

(** [self.state_manager.save_state()] *)
Definition save_state (env : Env) : Run bool :=
  fun w =>
    let '((o, r), f) :=
      StateManager.save_state (disk env (w_clock w)) (w_state w) (w_file w) in
    match r with
    | Ok ok =>
        (Ok ok, mkWorld (w_state w) f (w_out w ++ o)
                        (w_trace w ++ [EvSave ok]) (S (w_clock w)))
    | Raise e =>
        (Raise e, mkWorld (w_state w) f (w_out w ++ o) (w_trace w)
                          (S (w_clock w)))
    end.

(** The loop of [run] over the enabled monitors. *)
Fixpoint process_all (env : Env) (enabled_monitors : list MonitorConfig)
    (total_notifications : nat) : Run nat :=
  match enabled_monitors with
  | [] => ret total_notifications
  | monitor_config :: rest =>
      notifications_sent <- _process_monitor env monitor_config ;;
      process_all env rest (total_notifications + notifications_sent)
  end.

(** [run()]: the exit code. *)
Definition run (env : Env) (monitors : list MonitorConfig) : Run Z :=
  try_except
    (print "Foroactivo Discord Monitor - Starting" ;;;
     load_state ;;;
     let enabled_monitors :=
       filter (fun m => match cfg_enabled m with
                        | Some enabled => enabled
                        | None => true
                        end) monitors in
     print "Processing " ;;;
     total_notifications <- process_all env enabled_monitors 0 ;;
     save_state env ;;;
     print "Monitor completed successfully" ;;;
     print "Total notifications sent: " ;;;
     ret 0%Z)
    (fun e =>
       print "FATAL ERROR: " ;;;
       ret 1%Z).

End ForoactivoMonitor.

(** ** What a run leaves in the trace *)

(** The events a computation adds to the trace of [w]. *)
Definition events_of {A} (m : Run A) (w : world) : list event :=
  skipn (length (w_trace w)) (w_trace (snd (m w))).

Definition is_commit (ev : event) : bool :=
  match ev with EvSetCursor _ => true | _ => false end.


Definition not_commit (ev : event) : bool := negb (is_commit ev).



(** A computation that only adds events to the trace, all of them
    [allowed]. *)
Definition emits (allowed : event -> bool) {A} (m : Run A) : Prop :=
  forall w, exists evs,
    w_trace (snd (m w)) = w_trace w ++ evs /\ forallb allowed evs = true.

(** A computation that leaves the cursor store as it is. *)
Definition keeps_state {A} (m : Run A) : Prop :=
  forall w, w_state (snd (m w)) = w_state w.

(** A computation that returns, whatever the world. *)
Definition returns {A} (m : Run A) : Prop :=
  forall w, exists a, fst (m w) = Ok a.



(** A duration [time.sleep] accepts. *)
Definition sleepable (env : Env) (seconds : pyval) : Prop :=
  sleep_outcome env seconds = Ok tt.

(** The webhook behaves as [requests] and Discord document: posting
    raises nothing but [RequestException], and a 429 response carries a
    [retry_after] that [time.sleep] accepts. *)
Definition webhook_answers (env : Env) : Prop :=
  forall n webhook_url body,
    match requests_post env n webhook_url body with
    | PostRaises e => e = RequestException
    | Response status_code retry_after =>
        status_code = 429%Z ->
        exists seconds, retry_after = Ok seconds /\ sleepable env seconds
    end.

(** The entry of [thread_id], when there is one, is a cursor record. *)
Definition thread_cursor_ok (d : list (string * pyval)) (thread_id : string)
  : Prop :=
  match dict_get d thread_id with
  | None | Some (PDict _) => True
  | Some _ => False
  end.

(** The ThreadCursor that [update_thread_state] stores. *)
Definition thread_cursor (last_post_id now : string) (total_posts : Z)
  : pyval :=
  PDict [("last_post_id", PStr last_post_id);
         ("last_checked_at", PStr now);
         ("total_posts_seen", PInt total_posts)].

(** ** A sample world

    One forum section with one thread, one thread with two posts, a
    webhook that answers every request with the same status, and an empty
    store. *)

Definition sample_thread (id : string) : ThreadRecord :=
  mkThread id "Bienvenida" "ana" "https://foro.test/t1-bienvenida" "Hoy".

Definition sample_post (id : string) : PostRecord :=
  mkPost id "ana" "Hola a todos" "Hoy" "https://foro.test/t7-charla".

Definition sample_env (status_code : Z) : Env :=
  mkEnv (fun _ => Some "https://discord.test/hook")
        (fun _ _ => Ok true)
        (fun _ _ => Ok [sample_thread "t1"])
        (fun _ _ => Ok [sample_post "p1"; sample_post "p2"])
        (fun _ _ _ => Response status_code (Ok (PInt 1)))
        (fun _ => "2024-05-01T10:00:00Z")
        (fun _ => Written)
        (fun _ => Raise OverflowError).

Definition sample_forum_config : MonitorConfig :=
  mkConfig (Some "f13") (Some "Novedades") (Some "forum")
           (Some "https://foro.test") (Some "https://foro.test/f13-s")
           None None None.

Definition sample_thread_config : MonitorConfig :=
  mkConfig (Some "t7") (Some "Charla") (Some "thread")
           (Some "https://foro.test") None
           (Some "https://foro.test/t7-charla") None None.

Definition sample_world : world := mkWorld (PDict []) Missing [] [] 0.

(** ** Counting what a run does *)

Definition is_post (ev : event) : bool :=
  match ev with EvPost _ _ => true | _ => false end.

Definition is_sleep (ev : event) : bool :=
  match ev with EvSleep _ => true | _ => false end.

(** The webhook accepts every request. *)
Definition webhook_accepts (env : Env) : Prop :=
  forall n webhook_url body,
    exists retry_after,
      requests_post env n webhook_url body = Response 204 retry_after.

(** ** Reading a monitor's configuration

    The values the three handlers take from one entry of [monitors], with
    the defaults of [monitor_config.get]. *)

Definition is_forum (monitor_config : MonitorConfig) : bool :=
  String.eqb (ForoactivoMonitor.get_or (cfg_type monitor_config) "thread")
             "forum".

Definition webhook_env_of (monitor_config : MonitorConfig) : string :=
  ForoactivoMonitor.get_or (cfg_discord_webhook_env monitor_config)
                           "DISCORD_WEBHOOK_URL".

Definition webhook_url_of (env : Env) (monitor_config : MonitorConfig)
  : string :=
  ForoactivoMonitor.get_or (getenv env (webhook_env_of monitor_config))
                           EmptyString.

Definition name_of (monitor_config : MonitorConfig) : string :=
  ForoactivoMonitor.get_or (cfg_name monitor_config)
    (if is_forum monitor_config then "Forum" else "Thread").

Definition forum_url_of (monitor_config : MonitorConfig) : string :=
  ForoactivoMonitor.get_or (cfg_forum_url monitor_config) EmptyString.

(** The page a monitor fetches: [section_url] for a forum monitor,
    [thread_url] for a thread monitor. *)
Definition page_of (monitor_config : MonitorConfig) : option string :=
  if is_forum monitor_config then cfg_section_url monitor_config
  else cfg_thread_url monitor_config.

Definition fetch_of (monitor_config : MonitorConfig) : event :=
  let url := ForoactivoMonitor.get_or (page_of monitor_config) EmptyString in
  if is_forum monitor_config then EvFetchThreads url else EvFetchPosts url.

(** A monitor that gets as far as the forum: its [id], [forum_url], the
    name of the variable of its webhook and the url of its page are there
    and not empty, and the variable is set and not empty. *)
Definition runnable (env : Env) (monitor_config : MonitorConfig) : bool :=
  ForoactivoMonitor.truthy (cfg_id monitor_config)
  && ForoactivoMonitor.truthy (cfg_forum_url monitor_config)
  && negb (String.eqb (webhook_env_of monitor_config) EmptyString)
  && ForoactivoMonitor.truthy (page_of monitor_config)
  && ForoactivoMonitor.truthy (getenv env (webhook_env_of monitor_config)).

(** The page of the monitor has nothing on it at the call numbered [n]. *)
Definition fetches_nothing (env : Env) (monitor_config : MonitorConfig)
    (n : nat) : Prop :=
  let url := ForoactivoMonitor.get_or (page_of monitor_config) EmptyString in
  if is_forum monitor_config
  then client_get_forum_threads env n url = Ok []
  else client_get_thread_posts env n url = Ok [].

(** A computation that changes no entry of the cursor store but that of
    [monitor_id]. *)
Definition changes_only (monitor_id : string) {A} (m : Run A) : Prop :=
  forall w k,
    k <> monitor_id -> entry (w_state (snd (m w))) k = entry (w_state w) k.

(** ** Groups of requests *)

(** [items] in groups of four; the last group has one to four items. *)
Fixpoint groups_of_four {A} (items : list A) : list (list A) :=
  match items with
  | [] => []
  | a :: b :: c :: d :: ((_ :: _) as rest) =>
      [a; b; c; d] :: groups_of_four rest
  | _ => [items]
  end.

(** The groups one after the other, with [pause] between two of them. *)
Fixpoint separated {A} (pause : list A) (groups : list (list A)) : list A :=
  match groups with
  | [] => []
  | g :: rest =>
      match rest with
      | [] => g
      | _ :: _ => g ++ pause ++ separated pause rest
      end
  end.

(** ** A webhook that limits the rate

    Every request is answered 429 with the same [retry_after]; the forum
    is the one of [sample_env]. *)
Definition rate_limiting_env (retry_after : result pyval) : Env :=
  mkEnv (fun _ => Some "https://discord.test/hook")
        (fun _ _ => Ok true)
        (fun _ _ => Ok [sample_thread "t1"])
        (fun _ _ => Ok [sample_post "p1"; sample_post "p2"])
        (fun _ _ _ => Response 429 retry_after)
        (fun _ => "2024-05-01T10:00:00Z")
        (fun _ => Written)
        (fun _ => Raise OverflowError).

(** ** The parts of a run *)

(** The monitors [run] processes. *)
Definition enabled (monitors : list MonitorConfig) : list MonitorConfig :=
  filter (fun m => match cfg_enabled m with
                   | Some enabled => enabled
                   | None => true
                   end) monitors.

(** The world in which [run] enters its loop: the store is loaded and
    the first lines are printed. *)
Definition loaded (w : world) : world :=
  snd (RunMonad.bind (RunMonad.print "Foroactivo Discord Monitor - Starting")
         (fun _ => RunMonad.bind ForoactivoMonitor.load_state
                     (fun _ => RunMonad.print "Processing ")) w).
(** * Properties *)

Unset Implicit Arguments.

(** ** The monad *)

Lemma bind_lift_Ok {A B} (a : A) (f : A -> Out B) :
  (x <- lift (Ok a) ;; f x) = f a.
Proof. unfold bind, lift. now destruct (f a). Qed.

Lemma bind_ret {A B} (a : A) (f : A -> Out B) : (x <- ret a ;; f x) = f a.
Proof. apply bind_lift_Ok. Qed.

Lemma bind_lift_Raise {A B} e (f : A -> Out B) :
  (x <- lift (Raise e) ;; f x) = ([], Raise e).
Proof. reflexivity. Qed.

Lemma outcome_print {A} l (m : Out A) : outcome (print l ;;; m) = outcome m.
Proof. unfold bind, print, outcome. now destruct m. Qed.

Lemma output_print {A} l (m : Out A) : output (print l ;;; m) = l :: output m.
Proof. unfold bind, print, output. now destruct m. Qed.

Lemma outcome_bind_Ok {A B} (m : Out A) (f : A -> Out B) a :
  outcome m = Ok a -> outcome (x <- m ;; f x) = outcome (f a).
Proof.
  unfold outcome, bind. destruct m as [o r]; simpl. intros ->.
  now destruct (f a).
Qed.

Lemma output_bind_Ok {A B} (m : Out A) (f : A -> Out B) a :
  outcome m = Ok a -> output (x <- m ;; f x) = output m ++ output (f a).
Proof.
  unfold outcome, output, bind. destruct m as [o r]; simpl. intros ->.
  now destruct (f a).
Qed.

Lemma outcome_bind_Raise {A B} (m : Out A) (f : A -> Out B) e :
  outcome m = Raise e -> outcome (x <- m ;; f x) = Raise e.
Proof. unfold outcome, bind. destruct m as [o r]; simpl. now intros ->. Qed.

Lemma output_bind_Raise {A B} (m : Out A) (f : A -> Out B) e :
  outcome m = Raise e -> output (x <- m ;; f x) = output m.
Proof. unfold outcome, output, bind. destruct m as [o r]; simpl. now intros ->. Qed.

(** ** Dictionaries *)

Lemma dict_get_set_same d k v : dict_get (dict_set d k v) k = Some v.
Proof.
  induction d as [|[k' v'] d IH]; simpl.
  - now rewrite String.eqb_refl.
  - destruct (String.eqb k k') eqn:E; simpl; rewrite E; auto.
Qed.

Lemma dict_get_set_other d k k' v :
  k' <> k -> dict_get (dict_set d k v) k' = dict_get d k'.
Proof.
  intros Hne. induction d as [|[k0 v0] d IH]; simpl.
  - destruct (String.eqb k' k) eqn:E; auto.
    apply String.eqb_eq in E. contradiction.
  - destruct (String.eqb k k0) eqn:E; simpl.
    + apply String.eqb_eq in E. subst k0.
      destruct (String.eqb k' k) eqn:E'; auto.
      apply String.eqb_eq in E'. contradiction.
    + now rewrite IH.
Qed.

Lemma py_in_In s xs : py_in s xs = true <-> In (PStr s) xs.
Proof.
  unfold py_in. rewrite existsb_exists. split.
  - intros [v [Hin Heq]]. destruct v; simpl in Heq; try discriminate.
    apply String.eqb_eq in Heq. now subst.
  - intros Hin. exists (PStr s). split; auto. simpl. apply String.eqb_refl.
Qed.

Lemma py_last_app {A} (xs : list A) x : py_last (xs ++ [x]) = Ok x.
Proof. unfold py_last. now rewrite rev_unit. Qed.

Lemma get_new_threads_unfold d forum_id all_threads :
  forum_cursor_ok d forum_id ->
  all_threads <> [] ->
  get_new_threads (PDict d) forum_id all_threads =
  (let new_threads :=
     filter (fun t => negb (py_in (t_id t) (stored_seen_thread_ids d forum_id)))
            all_threads in
   match new_threads with
   | _ :: _ => print (LFoundNewThreads (length new_threads) forum_id)
   | [] => print (LNoNewThreads forum_id)
   end ;;; ret new_threads).
Proof.
  intros Hok Hne. unfold get_new_threads.
  destruct all_threads as [|t ts]; [contradiction|].
  set (all := t :: ts).
  assert (Hseen : exists forum_state,
    py_get (PDict d) forum_id (PDict []) = Ok forum_state /\
    exists seen, py_get forum_state "seen_thread_ids" (PList []) = Ok seen /\
    py_set seen = Ok (stored_seen_thread_ids d forum_id)).
  { unfold forum_cursor_ok in Hok. unfold stored_seen_thread_ids. cbn [py_get].
    destruct (dict_get d forum_id) as [[| | | | |?|c]|]; try contradiction.
    - eexists; split; [reflexivity|]. cbn [py_get].
      destruct (dict_get c "seen_thread_ids") as [[| | | | |xs|?]|];
        try contradiction; eexists; (split; [reflexivity|]); cbn [py_set];
        [now rewrite Hok | reflexivity].
    - eexists; split; [reflexivity|]. eexists; split; reflexivity. }
  destruct Hseen as [fs [-> [seen [Hs Hset]]]].
  now rewrite bind_lift_Ok, Hs, bind_lift_Ok, Hset, bind_lift_Ok.
Qed.

Lemma get_new_threads_filter d forum_id all_threads :
  forum_cursor_ok d forum_id ->
  outcome (get_new_threads (PDict d) forum_id all_threads) =
  Ok (filter (fun t => negb (py_in (t_id t) (stored_seen_thread_ids d forum_id)))
             all_threads).
Proof.
  intros Hok. destruct all_threads as [|t ts]; [reflexivity|].
  rewrite get_new_threads_unfold by (auto; discriminate). cbv zeta.
  match goal with |- context [filter ?f ?l] => destruct (filter f l) end;
    now rewrite outcome_print.
Qed.

(** The result of [get_new_threads] depends on the stored ids only as a
    set. *)
Lemma get_new_threads_set d1 d2 forum_id all_threads :
  forum_cursor_ok d1 forum_id ->
  forum_cursor_ok d2 forum_id ->
  (forall s, In (PStr s) (stored_seen_thread_ids d1 forum_id) <->
             In (PStr s) (stored_seen_thread_ids d2 forum_id)) ->
  get_new_threads (PDict d1) forum_id all_threads =
  get_new_threads (PDict d2) forum_id all_threads.
Proof.
  intros Hok1 Hok2 Hsame. destruct all_threads as [|t ts]; [reflexivity|].
  rewrite !get_new_threads_unfold by (auto; discriminate). cbv zeta.
  rewrite (filter_ext
             (fun t => negb (py_in (t_id t) (stored_seen_thread_ids d1 forum_id)))
             (fun t => negb (py_in (t_id t) (stored_seen_thread_ids d2 forum_id))));
    [reflexivity|].
  intros a. f_equal. apply eq_true_iff_eq. rewrite !py_in_In. apply Hsame.
Qed.

(** C1. [get_new_threads] returns exactly the threads whose id is not in
    the stored seen-set of [forum_id], in the order of [all_threads]; with
    an empty stored set it returns [all_threads] itself. *)
Theorem get_new_threads_exact d forum_id all_threads :
  forum_cursor_ok d forum_id ->
  exists new_threads,
    outcome (get_new_threads (PDict d) forum_id all_threads) = Ok new_threads
    /\ new_threads =
       filter (fun t => negb (py_in (t_id t) (stored_seen_thread_ids d forum_id)))
              all_threads
    /\ (forall t, In t new_threads <->
          In t all_threads /\
          ~ In (PStr (t_id t)) (stored_seen_thread_ids d forum_id))
    /\ (stored_seen_thread_ids d forum_id = [] -> new_threads = all_threads).
Proof.
  intros Hok. eexists. split; [apply get_new_threads_filter, Hok|].
  split; [reflexivity|]. split.
  - intros t. rewrite filter_In, negb_true_iff, <- not_true_iff_false.
    now rewrite py_in_In.
  - intros ->. induction all_threads as [|t ts IH]; simpl;
      [reflexivity | now f_equal].
Qed.

Lemma get_new_threads_exact_witness :
  exists new_threads,
    outcome (get_new_threads
               (PDict [("f13", PDict [("seen_thread_ids",
                                        PList [PStr "t2"; PStr "t9"])])])
               "f13"
               [sample_thread "t1"; sample_thread "t2";
                sample_thread "t3"]) = Ok new_threads
    /\ map t_id new_threads = ["t1"; "t3"].
Proof.
  destruct (@get_new_threads_exact
              [("f13", PDict [("seen_thread_ids", PList [PStr "t2"; PStr "t9"])])]
              "f13"
              [sample_thread "t1"; sample_thread "t2";
               sample_thread "t3"])
    as [r [H1 [H2 _]]]; [reflexivity|].
  exists r. split; [exact H1|]. rewrite H2. reflexivity.
Defined.

(** ** New posts *)

Lemma find_last_post_index_found s posts : forall i k p,
  nth_error posts k = Some p -> p_id p = s ->
  (forall j q, (j < k)%nat -> nth_error posts j = Some q -> p_id q <> s) ->
  find_last_post_index (PStr s) i posts = (i + Z.of_nat k)%Z.
Proof.
  induction posts as [|q qs IH]; intros i k p Hk Hp Hbefore.
  - destruct k; discriminate.
  - destruct k as [|k]; simpl in *.
    + injection Hk as ->. rewrite Hp, String.eqb_refl. lia.
    + destruct (String.eqb (p_id q) s) eqn:E.
      * apply String.eqb_eq in E.
        exfalso. apply (Hbefore 0%nat q); [lia | reflexivity | exact E].
      * rewrite (IH (i + 1)%Z k p Hk Hp); [lia|].
        intros j q' Hj Hq'. apply (Hbefore (S j) q'); [lia | exact Hq'].
Qed.

Lemma find_last_post_index_absent s posts : forall i,
  (forall p, In p posts -> p_id p <> s) ->
  find_last_post_index (PStr s) i posts = (-1)%Z.
Proof.
  induction posts as [|q qs IH]; intros i Hno; simpl; [reflexivity|].
  destruct (String.eqb (p_id q) s) eqn:E.
  - apply String.eqb_eq in E. exfalso. apply (Hno q); simpl; auto.
  - apply IH. intros p Hp. apply Hno. now right.
Qed.

(** C2. With no stored [last_post_id], [get_new_posts] returns the last
    element of [all_posts] alone, and the empty list for an empty
    [all_posts]. *)
Theorem get_new_posts_first_run state thread_id :
  get_last_post_id state thread_id = Ok PNone ->
  outcome (get_new_posts state thread_id []) = Ok []
  /\ forall earlier latest,
       outcome (get_new_posts state thread_id (earlier ++ [latest]))
       = Ok [latest].
Proof.
  intros Hnone. split; [reflexivity|]. intros earlier latest.
  unfold get_new_posts.
  destruct (earlier ++ [latest]) eqn:E; [now destruct earlier|].
  rewrite <- E, Hnone, bind_lift_Ok, outcome_print, py_last_app.
  reflexivity.
Qed.

Lemma get_new_posts_first_run_witness :
  outcome (get_new_posts (PDict []) "t1"
             ([sample_post "p1"] ++ [sample_post "p2"]))
  = Ok [sample_post "p2"].
Proof.
  apply (@get_new_posts_first_run (PDict []) "t1"). reflexivity.
Defined.

(** C3. With a stored [last_post_id] whose first occurrence in [all_posts]
    is at index [k], [get_new_posts] returns [all_posts[k+1:]]; that is the
    empty list when [k] is the last index. *)
Theorem get_new_posts_after_cursor state thread_id s all_posts k p :
  get_last_post_id state thread_id = Ok (PStr s) ->
  nth_error all_posts k = Some p ->
  p_id p = s ->
  (forall j q, (j < k)%nat -> nth_error all_posts j = Some q -> p_id q <> s) ->
  outcome (get_new_posts state thread_id all_posts)
  = Ok (skipn (S k) all_posts)
  /\ (S k = length all_posts ->
      outcome (get_new_posts state thread_id all_posts) = Ok []).
Proof.
  intros Hstored Hk Hp Hbefore.
  assert (Hres : outcome (get_new_posts state thread_id all_posts)
                 = Ok (skipn (S k) all_posts)).
  { unfold get_new_posts.
    destruct all_posts as [|a l] eqn:E; [now destruct k|]. rewrite <- E in *.
    rewrite Hstored, bind_lift_Ok.
    rewrite (@find_last_post_index_found s all_posts 0%Z k p Hk Hp Hbefore).
    destruct (Z.eqb_spec (0 + Z.of_nat k) (-1)); [lia|].
    unfold py_slice_from.
    destruct (Z.ltb_spec (0 + Z.of_nat k + 1) 0); [lia|].
    replace (Z.to_nat (0 + Z.of_nat k + 1)) with (S k) by lia.
    destruct (skipn (S k) all_posts); rewrite outcome_print; reflexivity. }
  split; [exact Hres|].
  intros Hlast. rewrite Hres, Hlast, skipn_all. reflexivity.
Qed.

Lemma get_new_posts_after_cursor_witness :
  outcome (get_new_posts
             (PDict [("t1", PDict [("last_post_id", PStr "p5")])]) "t1"
             [sample_post "p3"; sample_post "p4";
              sample_post "p5"; sample_post "p6";
              sample_post "p7"])
  = Ok [sample_post "p6"; sample_post "p7"].
Proof.
  refine (proj1 (@get_new_posts_after_cursor
            (PDict [("t1", PDict [("last_post_id", PStr "p5")])]) "t1" "p5"
            _ 2%nat (sample_post "p5") _ _ _ _));
    try reflexivity.
  intros j q Hj Hq.
  destruct j as [|[|j]]; [| |lia]; injection Hq as <-; discriminate.
Defined.

(** C4. With a stored [last_post_id] that no post of a non-empty
    [all_posts] carries, [get_new_posts] returns the last post alone and
    prints a warning naming the stored id. *)
Theorem get_new_posts_rebaseline state thread_id s earlier latest :
  get_last_post_id state thread_id = Ok (PStr s) ->
  (forall p, In p (earlier ++ [latest]) -> p_id p <> s) ->
  outcome (get_new_posts state thread_id (earlier ++ [latest])) = Ok [latest]
  /\ In (LLastPostNotFound (PStr s))
        (output (get_new_posts state thread_id (earlier ++ [latest])))
  /\ is_warning (LLastPostNotFound (PStr s)) = true.
Proof.
  intros Hstored Hno. unfold get_new_posts.
  destruct (earlier ++ [latest]) eqn:E; [now destruct earlier|].
  rewrite <- E in *. rewrite Hstored, bind_lift_Ok.
  rewrite (@find_last_post_index_absent s _ 0%Z Hno). cbn [Z.eqb Pos.eqb].
  rewrite py_last_app, outcome_print, output_print, outcome_print.
  repeat split. now left.
Qed.

Lemma get_new_posts_rebaseline_witness :
  outcome (get_new_posts
             (PDict [("t1", PDict [("last_post_id", PStr "p2")])]) "t1"
             ([sample_post "p10"] ++ [sample_post "p11"]))
  = Ok [sample_post "p11"].
Proof.
  refine (proj1 (@get_new_posts_rebaseline
            (PDict [("t1", PDict [("last_post_id", PStr "p2")])]) "t1" "p2"
            [sample_post "p10"] (sample_post "p11") _ _));
    [reflexivity|].
  intros p [<-|[<-|[]]]; discriminate.
Defined.

(** ** Updating the cursors *)

Lemma update_forum_state_run now d forum_id ids :
  update_forum_state now (PDict d) forum_id ids =
  ([LUpdatedForum forum_id (length ids)],
   Ok (PDict (dict_set d forum_id
        (PDict [("seen_thread_ids", PList (map PStr ids));
                ("last_checked_at", PStr now);
                ("total_threads", PInt (Z.of_nat (length ids)))])))).
Proof. reflexivity. Qed.

Lemma update_thread_state_run now d thread_id last_post_id total_posts :
  update_thread_state now (PDict d) thread_id last_post_id total_posts =
  ([LUpdatedThread thread_id last_post_id total_posts],
   Ok (PDict (dict_set d thread_id
        (PDict [("last_post_id", PStr last_post_id);
                ("last_checked_at", PStr now);
                ("total_posts_seen", PInt total_posts)])))).
Proof. reflexivity. Qed.

Lemma stored_seen_after_update d forum_id ids now n :
  stored_seen_thread_ids
    (dict_set d forum_id
       (PDict [("seen_thread_ids", PList (map PStr ids));
               ("last_checked_at", PStr now); ("total_threads", PInt n)]))
    forum_id = map PStr ids.
Proof. unfold stored_seen_thread_ids. now rewrite dict_get_set_same. Qed.

Lemma forum_cursor_ok_after_update d forum_id ids now n :
  forum_cursor_ok
    (dict_set d forum_id
       (PDict [("seen_thread_ids", PList (map PStr ids));
               ("last_checked_at", PStr now); ("total_threads", PInt n)]))
    forum_id.
Proof.
  unfold forum_cursor_ok. rewrite dict_get_set_same. cbn.
  apply forallb_forall. intros x Hx. apply in_map_iff in Hx.
  now destruct Hx as [s [<- _]].
Qed.

(** C5. [update_forum_state] stores exactly the given ids under
    [forum_id], whatever was stored before; doing it again with the same
    ids stores the same ids; and two id lists with the same elements give
    the same later [get_new_threads]. *)
Theorem update_forum_state_replaces now1 now2 d forum_id ids ids' :
  (forall x, In x ids <-> In x ids') ->
  exists d1 d2 d1',
    outcome (update_forum_state now1 (PDict d) forum_id ids) = Ok (PDict d1)
    /\ dict_get d1 forum_id =
       Some (PDict [("seen_thread_ids", PList (map PStr ids));
                    ("last_checked_at", PStr now1);
                    ("total_threads", PInt (Z.of_nat (length ids)))])
    /\ stored_seen_thread_ids d1 forum_id = map PStr ids
    /\ outcome (update_forum_state now2 (PDict d1) forum_id ids)
       = Ok (PDict d2)
    /\ stored_seen_thread_ids d2 forum_id = map PStr ids
    /\ outcome (update_forum_state now1 (PDict d) forum_id ids')
       = Ok (PDict d1')
    /\ forall all_threads,
         get_new_threads (PDict d1') forum_id all_threads =
         get_new_threads (PDict d1) forum_id all_threads.
Proof.
  intros Hsame. do 3 eexists.
  rewrite !update_forum_state_run. cbn [outcome snd].
  split; [reflexivity|]. split; [apply dict_get_set_same|].
  split; [apply stored_seen_after_update|].
  split; [reflexivity|]. split; [apply stored_seen_after_update|].
  split; [reflexivity|].
  intros all_threads. apply get_new_threads_set;
    try apply forum_cursor_ok_after_update.
  intros s. rewrite !stored_seen_after_update, !in_map_iff.
  split; intros [x [Hx Hin]]; exists x; (split; [exact Hx|]);
    now apply Hsame.
Qed.

Lemma update_forum_state_replaces_witness :
  exists d1 d1',
    outcome (update_forum_state "t0"
               (PDict [("f", PDict [("seen_thread_ids", PList [PStr "old"])])])
               "f" ["a"; "b"]) = Ok (PDict d1)
    /\ stored_seen_thread_ids d1 "f" = [PStr "a"; PStr "b"]
    /\ outcome (update_forum_state "t0"
               (PDict [("f", PDict [("seen_thread_ids", PList [PStr "old"])])])
               "f" ["b"; "a"; "b"]) = Ok (PDict d1')
    /\ forall all_threads,
         get_new_threads (PDict d1') "f" all_threads =
         get_new_threads (PDict d1) "f" all_threads.
Proof.
  destruct (@update_forum_state_replaces "t0" "t1"
              [("f", PDict [("seen_thread_ids", PList [PStr "old"])])]
              "f" ["a"; "b"] ["b"; "a"; "b"])
    as [d1 [d2 [d1' [H1 [_ [H3 [_ [_ [H6 H7]]]]]]]]].
  - intros x; simpl; tauto.
  - exists d1, d1'. repeat split; assumption.
Defined.

(** The scenario of the specification: with an empty store the threads
    A, B, C are all new; once their ids are stored, a fetch of B, C, D
    reports D alone. *)
Example forum_scenario :
  outcome (get_new_threads (PDict []) "f13"
             [sample_thread "A"; sample_thread "B"; sample_thread "C"])
  = Ok [sample_thread "A"; sample_thread "B"; sample_thread "C"]
  /\ exists d,
       outcome (update_forum_state "now" (PDict []) "f13" ["A"; "B"; "C"])
       = Ok (PDict d)
       /\ outcome (get_new_threads (PDict d) "f13"
                     [sample_thread "B"; sample_thread "C"; sample_thread "D"])
          = Ok [sample_thread "D"].
Proof. split; [reflexivity|]. eexists. split; reflexivity. Qed.

(** C10. [update_thread_state] and [update_forum_state] for the monitor
    [m] leave the entry of every other key as it was. *)
Theorem update_state_frame now d m k last_post_id total_posts thread_ids :
  k <> m ->
  (exists d',
     outcome (update_thread_state now (PDict d) m last_post_id total_posts)
     = Ok (PDict d')
     /\ dict_get d' k = dict_get d k)
  /\ (exists d',
       outcome (update_forum_state now (PDict d) m thread_ids) = Ok (PDict d')
       /\ dict_get d' k = dict_get d k).
Proof.
  intros Hne. split; eexists.
  - rewrite update_thread_state_run. split; [reflexivity|].
    now apply dict_get_set_other.
  - rewrite update_forum_state_run. split; [reflexivity|].
    now apply dict_get_set_other.
Qed.

Lemma update_state_frame_witness :
  (exists d',
     outcome (update_thread_state "now"
                (PDict [("a", PDict [("last_post_id", PStr "p1")]);
                        ("b", PDict [("last_post_id", PStr "p9")])])
                "a" "p2" 7)
     = Ok (PDict d')
     /\ dict_get d' "b" = Some (PDict [("last_post_id", PStr "p9")])).
Proof.
  destruct (@update_state_frame "now"
              [("a", PDict [("last_post_id", PStr "p1")]);
               ("b", PDict [("last_post_id", PStr "p9")])]
              "a" "b" "p2" 7 []) as [[d' [H1 H2]] _].
  - discriminate.
  - exists d'. split; [exact H1 | exact H2].
Defined.

(** ** Decoding what the encoder wrote *)

Import Json.

Lemma scanstring_escape_char c t :
  scanstring (escape_char c ++ t) = prepend [c] (scanstring t).
Proof.
  destruct c as [b0 b1 b2 b3 b4 b5 b6 b7].
  destruct b0, b1, b2, b3, b4, b5, b6, b7; reflexivity.
Qed.

Lemma scanstring_escaped cs rest :
  scanstring (flat_map escape_char cs ++ quote :: rest) = Scanned cs rest.
Proof.
  induction cs as [|c cs IH]; [reflexivity|].
  cbn [flat_map]. rewrite <- app_assoc, scanstring_escape_char, IH.
  reflexivity.
Qed.

Lemma digits_of_all d : forallb is_digit (digits_of d) = true.
Proof. induction d; cbn; auto. Qed.

Lemma take_digits_app ds rest :
  forallb is_digit ds = true ->
  match rest with [] => true | c :: _ => negb (is_digit c) end = true ->
  take_digits (ds ++ rest) = (ds, rest).
Proof.
  intros Hds Hrest. induction ds as [|c ds IH]; cbn.
  - destruct rest as [|c rest]; [reflexivity|].
    cbn. apply negb_true_iff in Hrest. now rewrite Hrest.
  - cbn in Hds. apply andb_true_iff in Hds as [Hc Hds].
    now rewrite Hc, IH.
Qed.

Lemma to_uint_head p :
  exists c ds,
    digits_of (Pos.to_uint p) = c :: ds
    /\ is_digit c = true /\ (c =? "0")%char = false
    /\ forallb is_digit ds = true.
Proof.
  assert (Hnorm : Decimal.unorm (Pos.to_uint p) = Pos.to_uint p).
  { change (Pos.to_uint p) with (N.to_uint (Npos p)) at 2.
    rewrite <- (DecimalPos.Unsigned.of_to p).
    now rewrite DecimalPos.Unsigned.to_of. }
  pose proof (DecimalPos.Unsigned.to_uint_nonzero p) as Hnz.
  pose proof (digits_of_all (Pos.to_uint p)) as Hall.
  destruct (Pos.to_uint p) as [|u|u|u|u|u|u|u|u|u|u] eqn:E;
    try (cbn in Hall; eexists _, _; split; [reflexivity|];
         split; [reflexivity|]; split; [reflexivity | exact Hall]).
  - exfalso. revert Hnorm. cbn. discriminate.
  - exfalso. rewrite DecimalFacts.unorm_D0 in Hnorm.
    unfold Decimal.unorm in Hnorm.
    destruct (Decimal.nzhead u) eqn:En; try discriminate.
    + injection Hnorm as <-. now apply Hnz.
    + injection Hnorm as ->. now apply (DecimalFacts.nzhead_nonzero u u).
Qed.

Lemma int_repr_shape z :
  exists sign c ds,
    int_repr z = sign ++ c :: ds
    /\ (sign = [] \/ sign = ["-"%char])
    /\ is_digit c = true
    /\ ((c =? "0")%char = true -> ds = [])
    /\ forallb is_digit ds = true.
Proof.
  destruct z as [|p|p]; unfold int_repr; cbn [Z.to_int].
  - exists [], "0"%char, []. repeat split; auto.
  - destruct (to_uint_head p) as [c [ds [E [Hc [Hz Hds]]]]].
    exists [], c, ds. unfold digits_of in E.
    cbn [DecimalString.NilZero.string_of_int].
    replace (DecimalString.NilZero.string_of_uint (Pos.to_uint p))
      with (DecimalString.NilEmpty.string_of_uint (Pos.to_uint p))
      by (destruct (Pos.to_uint p); try reflexivity; discriminate).
    rewrite E. repeat split; auto. now rewrite Hz.
  - destruct (to_uint_head p) as [c [ds [E [Hc [Hz Hds]]]]].
    exists ["-"%char], c, ds. unfold digits_of in E.
    cbn [DecimalString.NilZero.string_of_int list_ascii_of_string].
    replace (DecimalString.NilZero.string_of_uint (Pos.to_uint p))
      with (DecimalString.NilEmpty.string_of_uint (Pos.to_uint p))
      by (destruct (Pos.to_uint p); try reflexivity; discriminate).
    rewrite E. repeat split; auto. now rewrite Hz.
Qed.

Lemma int_of_text_repr z : int_of_text (int_repr z) = z.
Proof.
  unfold int_of_text, int_repr.
  rewrite string_of_list_ascii_of_string.
  rewrite DecimalString.NilZero.isi.
  - apply DecimalZ.of_to.
  - destruct z; cbn; try discriminate.
    intros [= H]. now apply (DecimalPos.Unsigned.to_uint_nonnil p).
  - destruct z; cbn; try discriminate.
    intros [= H]. now apply (DecimalPos.Unsigned.to_uint_nonnil p).
Qed.

Lemma ends_number_not_digit rest :
  ends_number rest = true ->
  match rest with [] => true | c :: _ => negb (is_digit c) end = true.
Proof.
  destruct rest as [|c rest]; [reflexivity|]. cbn.
  intros H. now repeat (apply andb_true_iff in H as [H _]).
Qed.

Lemma match_frac_none rest :
  ends_number rest = true -> match_frac rest = ([], rest).
Proof.
  destruct rest as [|c rest]; [reflexivity|]. cbn. intros H.
  apply andb_true_iff in H as [H _]. apply andb_true_iff in H as [H _].
  apply andb_true_iff in H as [_ H]. apply negb_true_iff in H.
  now rewrite H.
Qed.

Lemma match_exp_none rest :
  ends_number rest = true -> match_exp rest = ([], rest).
Proof.
  destruct rest as [|c rest]; [reflexivity|]. cbn. intros H.
  apply andb_true_iff in H as [H HE]. apply andb_true_iff in H as [_ He].
  apply negb_true_iff in He, HE. now rewrite He, HE.
Qed.

Lemma match_integer_repr z rest :
  ends_number rest = true ->
  match_integer (int_repr z ++ rest) = Some (int_repr z, rest).
Proof.
  intros Hrest. apply ends_number_not_digit in Hrest.
  destruct (int_repr_shape z) as [sign [c [ds [E [Hsign [Hc [Hz Hds]]]]]]].
  rewrite E. unfold match_integer.
  assert (Hminus : (c =? "-")%char = false).
  { destruct (Ascii.eqb_spec c "-"); [subst; discriminate | reflexivity]. }
  destruct Hsign as [-> | ->]; cbn [app]; [rewrite Hminus | cbn [Ascii.eqb]].
  - destruct (c =? "0")%char eqn:E0.
    + rewrite (Hz eq_refl). apply Ascii.eqb_eq in E0. now subst c.
    + now rewrite Hc, (take_digits_app _ _ Hds Hrest).
  - cbn. destruct (c =? "0")%char eqn:E0.
    + rewrite (Hz eq_refl). apply Ascii.eqb_eq in E0. now subst c.
    + now rewrite Hc, (take_digits_app _ _ Hds Hrest).
Qed.

Lemma scan_number_repr z rest :
  ends_number rest = true ->
  scan_number (int_repr z ++ rest) = Some (PInt z, rest).
Proof.
  intros Hrest. unfold scan_number.
  rewrite (match_integer_repr _ _ Hrest), (match_frac_none _ Hrest),
    (match_exp_none _ Hrest), int_of_text_repr.
  reflexivity.
Qed.

(** Whitespace *)

Lemma skip_ws_head c t : is_ws c = false -> skip_ws (c :: t) = c :: t.
Proof. intros H. cbn. now rewrite H. Qed.

Lemma skip_ws_spaces n t : skip_ws (repeat " "%char n ++ t) = skip_ws t.
Proof. induction n; cbn; auto. Qed.

Lemma skip_ws_newline_indent level t :
  skip_ws (newline_indent level ++ t) = skip_ws t.
Proof. unfold newline_indent. cbn. apply skip_ws_spaces. Qed.

Lemma ends_number_newline_indent level t :
  ends_number (newline_indent level ++ t) = true.
Proof. reflexivity. Qed.

(** The first character of an encoded value *)

Lemma digit_starts_value c :
  is_digit c = true ->
  is_ws c = false /\ (c =? "]")%char = false /\ (c =? "}")%char = false.
Proof.
  destruct c as [b0 b1 b2 b3 b4 b5 b6 b7].
  destruct b0, b1, b2, b3, b4, b5, b6, b7;
    intros H; try discriminate H; repeat split.
Qed.

Lemma iterencode_head level v R :
  json_shaped v = true ->
  exists c t,
    iterencode level v ++ R = c :: t
    /\ is_ws c = false /\ (c =? "]")%char = false /\ (c =? "}")%char = false.
Proof.
  intros Hv. destruct v as [|[]|z|lit|s|[|x xs]|[|kv kvs]];
    try discriminate Hv;
    try (eexists _, _; split; [reflexivity|]; repeat split).
  destruct (int_repr_shape z) as [sign [c [ds [E [Hsign [Hc _]]]]]].
  cbn [iterencode]. rewrite E.
  destruct Hsign as [-> | ->].
  - exists c, (ds ++ R). split; [reflexivity|]. now apply digit_starts_value.
  - eexists _, _. split; [reflexivity|]. repeat split.
Qed.

Lemma skip_ws_iterencode level v R :
  json_shaped v = true ->
  skip_ws (iterencode level v ++ R) = iterencode level v ++ R.
Proof.
  intros Hv. destruct (iterencode_head level v R Hv) as [c [t [-> [Hws _]]]].
  now apply skip_ws_head.
Qed.

(** One step of [scan_once] *)

Lemma scan_once_string fuel s :
  scan_once (S fuel) (quote :: s) =
  scan_map (fun str => PStr (string_of_list_ascii str)) (scanstring s).
Proof. reflexivity. Qed.

Lemma scan_once_array fuel s :
  scan_once (S fuel) ("["%char :: s) = parse_array (scan_once fuel) fuel s.
Proof. reflexivity. Qed.

Lemma scan_once_object fuel s :
  scan_once (S fuel) ("{"%char :: s) = parse_object (scan_once fuel) fuel s.
Proof. reflexivity. Qed.

Lemma scan_once_number fuel s v rest :
  scan_number s = Some (v, rest) ->
  (exists c t, s = c :: t /\ (c = "-"%char \/ is_digit c = true)) ->
  scan_once (S fuel) s = Scanned v rest.
Proof.
  intros Hnum [c [t [-> Hc]]].
  destruct c as [b0 b1 b2 b3 b4 b5 b6 b7].
  destruct b0, b1, b2, b3, b4, b5, b6, b7;
    (destruct Hc as [Hc | Hc]; [try discriminate Hc | try discriminate Hc]);
    cbn -[scan_number]; now rewrite Hnum.
Qed.

Lemma scan_once_int fuel z rest :
  ends_number rest = true ->
  scan_once (S fuel) (int_repr z ++ rest) = Scanned (PInt z) rest.
Proof.
  intros Hrest. apply scan_once_number.
  - now apply scan_number_repr.
  - destruct (int_repr_shape z) as [sign [c [ds [E [Hsign [Hc _]]]]]].
    rewrite E. destruct Hsign as [-> | ->]; eexists _, _;
      (split; [reflexivity|]); auto.
Qed.

(** Containers *)

Lemma array_items_encoded scan_value (enc : pyval -> text) n m rest :
  forall xs fuel,
    xs <> [] ->
    (length xs <= fuel)%nat ->
    (forall x R, In x xs -> ends_number R = true ->
                 scan_value (enc x ++ R) = Scanned x R) ->
    (forall x R, In x xs -> skip_ws (enc x ++ R) = enc x ++ R) ->
    array_items scan_value fuel
      (join (","%char :: newline_indent n) (map enc xs)
         ++ newline_indent m ++ "]"%char :: rest)
    = Scanned xs rest.
Proof.
  induction xs as [|x xs IH]; intros fuel Hne Hfuel Hscan Hskip;
    [contradiction|].
  destruct fuel as [|fuel]; [cbn in Hfuel; lia|].
  destruct xs as [|x' xs].
  - cbn [map join array_items].
    rewrite (Hscan x _ (or_introl eq_refl) (ends_number_newline_indent _ _)).
    rewrite skip_ws_newline_indent. reflexivity.
  - change (join (","%char :: newline_indent n) (map enc (x :: x' :: xs)))
      with (enc x ++ ("," :: newline_indent n)
              ++ join (","%char :: newline_indent n) (map enc (x' :: xs)))%char.
    rewrite <- !app_assoc. cbn [array_items].
    rewrite (Hscan x _ (or_introl eq_refl)) by reflexivity.
    cbn [app skip_ws is_ws Ascii.eqb Bool.eqb orb tab newline carriage_return].
    cbn [Ascii.eqb Bool.eqb].
    rewrite skip_ws_newline_indent.
    replace (skip_ws (join (","%char :: newline_indent n) (map enc (x' :: xs))
                        ++ newline_indent m ++ "]"%char :: rest))
      with (join (","%char :: newline_indent n) (map enc (x' :: xs))
              ++ newline_indent m ++ "]"%char :: rest).
    + rewrite IH; [reflexivity | discriminate | cbn in *; lia | |].
      * intros y R Hy. apply Hscan. now right.
      * intros y R Hy. apply Hskip. now right.
    + symmetry. destruct xs as [|x'' xs].
      * cbn [map join]. apply Hskip. right. now left.
      * change (join (","%char :: newline_indent n) (map enc (x' :: x'' :: xs)))
          with (enc x' ++ ("," :: newline_indent n)
                  ++ join (","%char :: newline_indent n)
                          (map enc (x'' :: xs)))%char.
        rewrite <- !app_assoc. apply Hskip. right. now left.
Qed.

Lemma object_items_step scan_value fuel k v encv tail :
  scan_value (encv ++ tail) = Scanned v tail ->
  skip_ws (encv ++ tail) = encv ++ tail ->
  object_items scan_value (S fuel)
    (encode_basestring k ++ [":"; " "]%char ++ encv ++ tail)
  = match skip_ws tail with
    | c :: s5 =>
        if (c =? "}")%char then Scanned [(k, v)] s5
        else if (c =? ",")%char then
          scan_map (cons (k, v)) (object_items scan_value fuel (skip_ws s5))
        else Invalid
    | [] => Invalid
    end.
Proof.
  intros Hscan Hskip. unfold encode_basestring.
  change ((quote :: flat_map escape_char (list_ascii_of_string k) ++ [quote])
            ++ [":"; " "]%char ++ encv ++ tail)
    with (quote :: (flat_map escape_char (list_ascii_of_string k) ++ [quote])
            ++ [":"; " "]%char ++ encv ++ tail).
  rewrite <- app_assoc.
  change ([quote] ++ [":"; " "]%char ++ encv ++ tail)
    with (quote :: ":"%char :: " "%char :: encv ++ tail).
  cbn [object_items]. change (quote =? quote)%char with true. cbv iota.
  rewrite scanstring_escaped.
  change (skip_ws (":"%char :: " "%char :: encv ++ tail))
    with (":"%char :: " "%char :: encv ++ tail).
  change (":" =? ":")%char with true. cbv iota.
  change (skip_ws (" "%char :: encv ++ tail)) with (skip_ws (encv ++ tail)).
  rewrite Hskip, Hscan, string_of_list_ascii_of_string.
  reflexivity.
Qed.

Lemma join_cons (sep a : text) l :
  l <> [] -> join sep (a :: l) = a ++ sep ++ join sep l.
Proof. destruct l; [contradiction | reflexivity]. Qed.

Lemma object_items_encoded scan_value (enc : pyval -> text) n m rest :
  forall (kvs : list (string * pyval)) fuel,
    kvs <> [] ->
    (length kvs <= fuel)%nat ->
    (forall kv R, In kv kvs -> ends_number R = true ->
                  scan_value (enc (snd kv) ++ R) = Scanned (snd kv) R) ->
    (forall kv R, In kv kvs ->
                  skip_ws (enc (snd kv) ++ R) = enc (snd kv) ++ R) ->
    object_items scan_value fuel
      (join (","%char :: newline_indent n)
            (map (fun kv => encode_basestring (fst kv) ++ [":"; " "]%char
                              ++ enc (snd kv)) kvs)
         ++ newline_indent m ++ "}"%char :: rest)
    = Scanned kvs rest.
Proof.
  set (chunk := fun kv : string * pyval =>
                  encode_basestring (fst kv) ++ [":"; " "]%char ++ enc (snd kv)).
  induction kvs as [|[k v] kvs IH]; intros fuel Hne Hfuel Hscan Hskip;
    [contradiction|].
  destruct fuel as [|fuel]; [cbn in Hfuel; lia|].
  destruct kvs as [|kv' kvs].
  - cbn [map join]. unfold chunk. cbn [fst snd]. rewrite <- !app_assoc.
    rewrite (object_items_step scan_value fuel k v (enc v)).
    + rewrite skip_ws_newline_indent. reflexivity.
    + apply (Hscan (k, v)); [now left | reflexivity].
    + apply (Hskip (k, v)). now left.
  - change (map chunk ((k, v) :: kv' :: kvs))
      with (chunk (k, v) :: map chunk (kv' :: kvs)).
    rewrite join_cons by discriminate.
    unfold chunk at 1. cbn [fst snd]. rewrite <- !app_assoc.
    rewrite (object_items_step scan_value fuel k v (enc v)).
    + cbn [app skip_ws is_ws Ascii.eqb Bool.eqb orb tab newline carriage_return].
      cbn [Ascii.eqb Bool.eqb].
      rewrite skip_ws_newline_indent.
      replace (skip_ws (join (","%char :: newline_indent n)
                             (map chunk (kv' :: kvs))
                 ++ newline_indent m ++ "}"%char :: rest))
        with (join (","%char :: newline_indent n) (map chunk (kv' :: kvs))
                 ++ newline_indent m ++ "}"%char :: rest).
      * rewrite IH; [reflexivity | discriminate | cbn in *; lia | |].
        -- intros y R Hy. apply Hscan. now right.
        -- intros y R Hy. apply Hskip. now right.
      * destruct kvs as [|kv'' kvs]; reflexivity.
    + apply (Hscan (k, v)); [now left | reflexivity].
    + apply (Hskip (k, v)). now left.
Qed.

(** [dict(pairs)] of pairs whose keys are distinct *)

Lemma dict_set_fresh d k v :
  existsb (String.eqb k) (map fst d) = false ->
  dict_set d k v = d ++ [(k, v)].
Proof.
  induction d as [|[k' v'] d IH]; cbn; [reflexivity|].
  intros H. apply orb_false_iff in H as [Hk Hd].
  now rewrite Hk, IH.
Qed.

Lemma distinct_app_cons acc k ks :
  distinct (acc ++ k :: ks) = true ->
  existsb (String.eqb k) acc = false /\ distinct ((acc ++ [k]) ++ ks) = true.
Proof.
  intros H. split.
  - induction acc as [|a acc IH]; [reflexivity|].
    cbn in H. apply andb_true_iff in H as [Ha Hacc]. cbn.
    rewrite (IH Hacc), orb_false_r.
    apply negb_true_iff in Ha. rewrite existsb_app in Ha.
    apply orb_false_iff in Ha as [_ Ha]. cbn in Ha.
    apply orb_false_iff in Ha as [Ha _]. now rewrite String.eqb_sym.
  - now rewrite <- app_assoc.
Qed.

Lemma dict_of_pairs_acc pairs : forall acc,
  distinct (map fst (acc ++ pairs)) = true ->
  fold_left (fun d kv => dict_set d (fst kv) (snd kv)) pairs acc
  = acc ++ pairs.
Proof.
  induction pairs as [|[k v] pairs IH]; intros acc H; cbn.
  - now rewrite app_nil_r.
  - rewrite map_app in H. cbn in H.
    apply distinct_app_cons in H as [Hfresh Hrest].
    rewrite dict_set_fresh by exact Hfresh.
    rewrite IH; [now rewrite <- app_assoc|].
    now rewrite !map_app.
Qed.

Lemma dict_of_pairs_distinct pairs :
  distinct (map fst pairs) = true -> dict_of_pairs pairs = pairs.
Proof. intros H. now apply (dict_of_pairs_acc pairs []). Qed.

(** Decoding what the encoder wrote *)

Lemma in_size_lt (x : pyval) xs : In x xs -> (size x <= list_sum (map size xs))%nat.
Proof.
  induction xs as [|y xs IH]; [contradiction|].
  intros [-> | H]; [|specialize (IH H)]; unfold list_sum in *;
    cbn [map fold_right]; lia.
Qed.

Lemma in_size_snd_lt (kv : string * pyval) kvs :
  In kv kvs ->
  (size (snd kv) <= list_sum (map (fun kv => size (snd kv)) kvs))%nat.
Proof.
  induction kvs as [|y kvs IH]; [contradiction|].
  intros [-> | H]; [|specialize (IH H)]; unfold list_sum in *;
    cbn [map fold_right]; lia.
Qed.

Lemma size_pos v : (1 <= size v)%nat.
Proof. destruct v; cbn; lia. Qed.

Lemma length_le_sum_sizes (xs : list pyval) :
  (length xs <= list_sum (map size xs))%nat.
Proof.
  induction xs as [|x xs IH]; unfold list_sum in *;
    cbn [map fold_right length]; [lia|].
  pose proof (size_pos x). lia.
Qed.

Lemma length_le_sum_sizes_snd (kvs : list (string * pyval)) :
  (length kvs <= list_sum (map (fun kv => size (snd kv)) kvs))%nat.
Proof.
  induction kvs as [|x xs IH]; unfold list_sum in *;
    cbn [map fold_right length]; [lia|].
  pose proof (size_pos (snd x)). lia.
Qed.

Lemma scan_once_iterencode : forall fuel v level rest,
  (size v < fuel)%nat ->
  json_shaped v = true ->
  ends_number rest = true ->
  scan_once fuel (iterencode level v ++ rest) = Scanned v rest.
Proof.
  induction fuel as [|fuel IH]; intros v level rest Hsize Hv Hrest; [lia|].
  destruct v as [|[]|z|lit|s|xs|kvs]; try discriminate Hv;
    try reflexivity.
  - now apply scan_once_int.
  - cbn [iterencode]. unfold encode_basestring.
    change ((quote :: flat_map escape_char (list_ascii_of_string s) ++ [quote])
              ++ rest)
      with (quote :: (flat_map escape_char (list_ascii_of_string s) ++ [quote])
              ++ rest).
    rewrite <- app_assoc, scan_once_string. cbn [app].
    rewrite scanstring_escaped. cbn [scan_map].
    now rewrite string_of_list_ascii_of_string.
  - destruct xs as [|x xs]; [reflexivity|].
    assert (Hl : x :: xs <> []) by discriminate.
    change (iterencode level (PList (x :: xs)))
      with ("["%char :: newline_indent (S level)
              ++ join (","%char :: newline_indent (S level))
                      (map (iterencode (S level)) (x :: xs))
              ++ newline_indent level ++ ["]"%char]).
    set (l := x :: xs) in *.
    rewrite <- app_comm_cons, <- !app_assoc, scan_once_array.
    change (["]"%char] ++ rest) with ("]"%char :: rest). unfold parse_array.
    rewrite skip_ws_newline_indent.
    cbn [json_shaped] in Hv. cbn [size] in Hsize.
    assert (Hskip : forall y R, In y l ->
              skip_ws (iterencode (S level) y ++ R) = iterencode (S level) y ++ R).
    { intros y R Hy. apply skip_ws_iterencode.
      rewrite forallb_forall in Hv. now apply Hv. }
    assert (Hhead : exists c t,
              join (","%char :: newline_indent (S level))
                   (map (iterencode (S level)) l)
                ++ newline_indent level ++ "]"%char :: rest = c :: t
              /\ is_ws c = false /\ (c =? "]")%char = false).
    { subst l. rewrite forallb_forall in Hv.
      destruct xs as [|x' xs].
      - cbn [map join].
        destruct (iterencode_head (S level) x
                    (newline_indent level ++ "]"%char :: rest))
          as [c [t [E [H1 [H2 _]]]]]; [apply Hv; now left|].
        now exists c, t.
      - cbn [map]. rewrite join_cons by discriminate. rewrite <- !app_assoc.
        destruct (iterencode_head (S level) x
           ((","%char :: newline_indent (S level))
              ++ join (","%char :: newline_indent (S level))
                      (iterencode (S level) x' :: map (iterencode (S level)) xs)
              ++ newline_indent level ++ "]"%char :: rest))
          as [c [t [E [H1 [H2 _]]]]]; [apply Hv; now left|].
        now exists c, t. }
    destruct Hhead as [c [t [E [Hws Hclose]]]].
    rewrite E. rewrite (skip_ws_head _ _ Hws), Hclose, <- E.
    rewrite array_items_encoded; [reflexivity | exact Hl | | | exact Hskip].
    + pose proof (length_le_sum_sizes l). lia.
    + intros y R Hy HR. apply IH; [|now rewrite forallb_forall in Hv; apply Hv|exact HR].
      pose proof (in_size_lt y l Hy). lia.
  - destruct kvs as [|kv kvs]; [reflexivity|].
    change (iterencode level (PDict (kv :: kvs)))
      with ("{"%char :: newline_indent (S level)
              ++ join (","%char :: newline_indent (S level))
                      (map (fun kv => encode_basestring (fst kv)
                                        ++ [":"; " "]%char
                                        ++ iterencode (S level) (snd kv))
                           (kv :: kvs))
              ++ newline_indent level ++ ["}"%char]).
    set (l := kv :: kvs) in *.
    assert (Hl : l <> []) by discriminate.
    rewrite <- app_comm_cons, <- !app_assoc, scan_once_object.
    change (["}"%char] ++ rest) with ("}"%char :: rest). unfold parse_object.
    rewrite skip_ws_newline_indent.
    cbn [json_shaped] in Hv. apply andb_true_iff in Hv as [Hkeys Hv].
    cbn [size] in Hsize.
    assert (Hhead : exists t,
              join (","%char :: newline_indent (S level))
                   (map (fun kv => encode_basestring (fst kv)
                                     ++ [":"; " "]%char
                                     ++ iterencode (S level) (snd kv)) l)
                ++ newline_indent level ++ "}"%char :: rest = quote :: t).
    { subst l. destruct kvs as [|kv' kvs].
      - cbn [map join]. unfold encode_basestring. eexists. reflexivity.
      - cbn [map]. rewrite join_cons by discriminate.
        unfold encode_basestring. eexists. reflexivity. }
    destruct Hhead as [t E].
    rewrite E. rewrite skip_ws_head by reflexivity.
    change (quote =? "}")%char with false. cbv iota. rewrite <- E.
    rewrite object_items_encoded; [| exact Hl | | |].
    + cbn [scan_map]. now rewrite dict_of_pairs_distinct.
    + pose proof (length_le_sum_sizes_snd l). lia.
    + intros y R Hy HR. apply IH; [| |exact HR].
      * pose proof (in_size_snd_lt y l Hy). lia.
      * rewrite forallb_forall in Hv. now apply Hv.
    + intros y R Hy. apply skip_ws_iterencode.
      rewrite forallb_forall in Hv. now apply Hv.
Qed.

(** The encoding of a value is at least as long as the value is large *)

Lemma length_join sep (chunks : list text) :
  (list_sum (map (@length ascii) chunks) <= length (join sep chunks))%nat.
Proof.
  induction chunks as [|a [|b l] IH]; unfold list_sum in *;
    cbn [map fold_right join length] in *; [lia | lia |].
  rewrite !length_app. lia.
Qed.

Lemma list_sum_le {A} (f g : A -> nat) xs :
  (forall x, In x xs -> (f x <= g x)%nat) ->
  (list_sum (map f xs) <= list_sum (map g xs))%nat.
Proof.
  induction xs as [|x xs IH]; intros H; unfold list_sum in *;
    cbn [map fold_right]; [lia|].
  pose proof (H x (or_introl eq_refl)).
  assert (forall y, In y xs -> (f y <= g y)%nat) by (intros; apply H; now right).
  specialize (IH H1). lia.
Qed.

Lemma size_le_length : forall n v level,
  (size v <= n)%nat ->
  json_shaped v = true ->
  (size v <= length (iterencode level v))%nat.
Proof.
  induction n as [|n IH]; intros v level Hn Hv.
  - pose proof (size_pos v). lia.
  - destruct v as [|[]|z|lit|s|xs|kvs]; try discriminate Hv;
      try (cbn; lia).
    + destruct (int_repr_shape z) as [sign [c [ds [E _]]]].
      cbn [iterencode size]. rewrite E, length_app. cbn. lia.
    + destruct xs as [|x xs]; [cbn; lia|].
      change (iterencode level (PList (x :: xs)))
        with ("["%char :: newline_indent (S level)
                ++ join (","%char :: newline_indent (S level))
                        (map (iterencode (S level)) (x :: xs))
                ++ newline_indent level ++ ["]"%char]).
      set (l := x :: xs) in *. cbn [size json_shaped] in *.
      cbn [length]. rewrite !length_app.
      pose proof (length_join (","%char :: newline_indent (S level))
                    (map (iterencode (S level)) l)) as Hj.
      rewrite map_map in Hj.
      assert (Hle : (list_sum (map size l)
                     <= list_sum (map (fun x => length (iterencode (S level) x)) l))%nat).
      { apply list_sum_le. intros y Hy. apply IH.
        - pose proof (in_size_lt y l Hy). lia.
        - rewrite forallb_forall in Hv. now apply Hv. }
      lia.
    + destruct kvs as [|kv kvs]; [cbn; lia|].
      change (iterencode level (PDict (kv :: kvs)))
        with ("{"%char :: newline_indent (S level)
                ++ join (","%char :: newline_indent (S level))
                        (map (fun kv => encode_basestring (fst kv)
                                          ++ [":"; " "]%char
                                          ++ iterencode (S level) (snd kv))
                             (kv :: kvs))
                ++ newline_indent level ++ ["}"%char]).
      set (l := kv :: kvs) in *. cbn [size json_shaped] in *.
      apply andb_true_iff in Hv as [_ Hv].
      cbn [length]. rewrite !length_app.
      pose proof (length_join (","%char :: newline_indent (S level))
                    (map (fun kv => encode_basestring (fst kv)
                                      ++ [":"; " "]%char
                                      ++ iterencode (S level) (snd kv)) l)) as Hj.
      rewrite map_map in Hj.
      assert (Hle : (list_sum (map (fun kv => size (snd kv)) l)
                     <= list_sum (map (fun kv : string * pyval =>
                          length (encode_basestring (fst kv)
                                    ++ [":"; " "]%char
                                    ++ iterencode (S level) (snd kv))) l))%nat).
      { apply list_sum_le. intros y Hy. rewrite !length_app.
        assert (size (snd y) <= length (iterencode (S level) (snd y)))%nat; [|lia].
        apply IH.
        - pose proof (in_size_snd_lt y l Hy). lia.
        - rewrite forallb_forall in Hv. now apply Hv. }
      lia.
Qed.

(** [json.loads(json.dumps(v, indent=2, ensure_ascii=False)) == v] *)
Lemma loads_dumps v : json_shaped v = true -> loads (dumps v) = Ok v.
Proof.
  intros Hv. unfold loads, dumps.
  rewrite list_ascii_of_string_of_list_ascii.
  pose proof (skip_ws_iterencode 0 v [] Hv) as Hskip.
  rewrite app_nil_r in Hskip. rewrite Hskip.
  pose proof (scan_once_iterencode (S (length (iterencode 0 v))) v 0 []) as H.
  rewrite app_nil_r in H. rewrite H; [reflexivity | | exact Hv | reflexivity].
  pose proof (size_le_length (size v) v 0 (le_n _) Hv). lia.
Qed.

(** ** The decoder never runs out of fuel *)

Lemma consumes_map {A B} (f : A -> B) s r :
  consumes s r -> consumes s (scan_map f r).
Proof. now destruct r. Qed.

Lemma consumes_longer {A} s s' (r : scan A) :
  consumes s' r -> (length s' <= length s)%nat -> consumes s r.
Proof. destruct r; cbn; auto. lia. Qed.

Lemma skip_ws_length s : (length (skip_ws s) <= length s)%nat.
Proof.
  induction s as [|c s IH]; cbn; [lia|]. destruct (is_ws c); cbn; lia.
Qed.

Lemma scanstring_consumes_bounded : forall n s,
  (length s <= n)%nat -> consumes (quote :: s) (scanstring s).
Proof.
  induction n as [|n IH]; intros s Hn.
  - destruct s; [exact I | cbn in Hn; lia].
  - assert (Hstep : forall cs s', (length s' <= n)%nat ->
              (length s' < length s)%nat ->
              consumes (quote :: s) (prepend cs (scanstring s'))).
    { intros cs s' Hs' Hlt. apply consumes_map.
      apply (consumes_longer _ (quote :: s')); [now apply IH | cbn; lia]. }
    destruct s as [|c s1]; [exact I|]. cbn in Hn. cbn [scanstring].
    destruct (c =? quote)%char; [cbn; lia|].
    destruct (c =? backslash)%char.
    + destruct s1 as [|esc s2]; [exact I|]. cbn in Hn.
      destruct (esc =? "u")%char.
      * destruct s2 as [|h1 [|h2 [|h3 [|h4 s3]]]]; try exact I. cbn in Hn.
        destruct (decode_uXXXX h1 h2 h3 h4) as [uni|]; [|exact I].
        assert (Hsingle : consumes (quote :: c :: esc :: h1 :: h2 :: h3 :: h4 :: s3)
                            (prepend (chr uni) (scanstring s3)))
          by (apply Hstep; cbn; lia).
        destruct (_ && _); [|exact Hsingle].
        destruct s3 as [|b [|u [|l1 [|l2 [|l3 [|l4 s4]]]]]]; try exact Hsingle.
        cbn in Hn.
        destruct (_ && _); [|exact Hsingle].
        destruct (decode_uXXXX l1 l2 l3 l4) as [uni2|]; [|exact I].
        destruct (_ && _); [|exact Hsingle].
        apply Hstep; cbn; lia.
      * destruct (unescape esc); [|exact I]. apply Hstep; cbn; lia.
    + destruct (_ <? _)%N; [exact I|]. apply Hstep; cbn; lia.
Qed.

Lemma scanstring_consumes s : consumes (quote :: s) (scanstring s).
Proof. now apply (scanstring_consumes_bounded (length s)). Qed.

Lemma take_digits_length s :
  (length (fst (take_digits s)) + length (snd (take_digits s)) = length s)%nat.
Proof.
  induction s as [|c s IH]; [reflexivity|]. cbn.
  destruct (is_digit c); [|reflexivity].
  destruct (take_digits s) as [ds rest]. cbn in *. lia.
Qed.

Lemma match_integer_length s integer rest :
  match_integer s = Some (integer, rest) -> (length rest < length s)%nat.
Proof.
  unfold match_integer.
  destruct s as [|c s']; [discriminate|].
  destruct (c =? "-")%char.
  - destruct s' as [|c' s'']; [discriminate|].
    destruct (c' =? "0")%char; [intros [= _ <-]; cbn; lia|].
    destruct (is_digit c'); [|discriminate].
    pose proof (take_digits_length s'') as H.
    destruct (take_digits s'') as [ds r]. intros [= _ <-]. cbn in *. lia.
  - destruct (c =? "0")%char; [intros [= _ <-]; cbn; lia|].
    destruct (is_digit c); [|discriminate].
    pose proof (take_digits_length s') as H.
    destruct (take_digits s') as [ds r]. intros [= _ <-]. cbn in *. lia.
Qed.

Lemma match_frac_length s : (length (snd (match_frac s)) <= length s)%nat.
Proof.
  unfold match_frac. destruct s as [|c s']; [cbn; lia|].
  destruct (c =? ".")%char; [|cbn; lia].
  pose proof (take_digits_length s') as H.
  destruct (take_digits s') as [[|d ds] r]; cbn in *; lia.
Qed.

Lemma match_exp_length s : (length (snd (match_exp s)) <= length s)%nat.
Proof.
  unfold match_exp. destruct s as [|e s']; [cbn; lia|].
  destruct (_ || _); [|cbn; lia].
  destruct s' as [|c s''].
  - cbn. lia.
  - destruct (_ || _).
    + pose proof (take_digits_length s'') as H.
      destruct (take_digits s'') as [[|d ds] r]; cbn in *; lia.
    + pose proof (take_digits_length (c :: s'')) as H.
      destruct (take_digits (c :: s'')) as [[|d ds] r]; cbn in *; lia.
Qed.

Lemma scan_number_length s v rest :
  scan_number s = Some (v, rest) -> (length rest < length s)%nat.
Proof.
  unfold scan_number.
  destruct (match_integer s) as [[integer s1]|] eqn:E; [|discriminate].
  apply match_integer_length in E.
  pose proof (match_frac_length s1) as H1.
  destruct (match_frac s1) as [frac s2].
  pose proof (match_exp_length s2) as H2.
  destruct (match_exp s2) as [exp s3]. cbn in *.
  destruct frac, exp; intros [= _ <-]; lia.
Qed.

Lemma starts_with_length word : forall s rest,
  starts_with word s = Some rest ->
  (length rest + length word = length s)%nat.
Proof.
  induction word as [|w word IH]; intros s rest; cbn.
  - intros [= <-]. lia.
  - destruct s as [|c s']; [discriminate|].
    destruct (w =? c)%char; [|discriminate].
    intros H. apply IH in H. cbn. lia.
Qed.

Lemma scan_word_length word v s v' rest :
  word <> EmptyString ->
  scan_word word v s = Some (v', rest) -> (length rest < length s)%nat.
Proof.
  unfold scan_word. intros Hw.
  destruct (starts_with _ s) as [r|] eqn:E; [|discriminate].
  intros [= _ <-]. apply starts_with_length in E.
  destruct word; [contradiction|]. cbn in E. lia.
Qed.

Lemma array_items_consumes scan_value n :
  (forall t, (length t <= n)%nat -> consumes (" "%char :: t) (scan_value t)) ->
  forall fuel s,
    (length s <= n)%nat -> (length s < fuel)%nat ->
    consumes (" "%char :: s) (array_items scan_value fuel s).
Proof.
  intros Hvalue. induction fuel as [|fuel IH]; intros s Hn Hfuel; [lia|].
  cbn [array_items]. pose proof (Hvalue s Hn) as Hv.
  destruct (scan_value s) as [value rest| |]; [|exact I|contradiction].
  cbn in Hv. pose proof (skip_ws_length rest) as Hws.
  destruct (skip_ws rest) as [|c rest']; [exact I|]. cbn in Hws.
  destruct (c =? "]")%char; [cbn; lia|].
  destruct (c =? ",")%char; [|exact I].
  apply consumes_map. pose proof (skip_ws_length rest') as Hws'.
  apply (consumes_longer _ (" "%char :: skip_ws rest')).
  - apply IH; lia.
  - cbn. lia.
Qed.

Lemma object_items_consumes scan_value n :
  (forall t, (length t <= n)%nat -> consumes (" "%char :: t) (scan_value t)) ->
  forall fuel s,
    (length s <= n)%nat -> (length s < fuel)%nat ->
    consumes (" "%char :: s) (object_items scan_value fuel s).
Proof.
  intros Hvalue. induction fuel as [|fuel IH]; intros s Hn Hfuel; [lia|].
  cbn [object_items].
  destruct s as [|q s1]; [exact I|]. cbn in Hn, Hfuel.
  destruct (q =? quote)%char; [|exact I].
  pose proof (scanstring_consumes s1) as Hkey.
  destruct (scanstring s1) as [key s2| |]; [|exact I|contradiction].
  cbn in Hkey. pose proof (skip_ws_length s2) as Hws2.
  destruct (skip_ws s2) as [|colon s3]; [exact I|]. cbn in Hws2.
  destruct (colon =? ":")%char; [|exact I].
  pose proof (skip_ws_length s3) as Hws3.
  pose proof (Hvalue (skip_ws s3)) as Hv.
  destruct (scan_value (skip_ws s3)) as [value s4| |];
    [|exact I|apply Hv; lia].
  assert (Hs4 : (length s4 < S (length (skip_ws s3)))%nat) by (apply Hv; lia).
  pose proof (skip_ws_length s4) as Hws4.
  destruct (skip_ws s4) as [|c s5]; [exact I|]. cbn in Hws4.
  destruct (c =? "}")%char; [cbn; lia|].
  destruct (c =? ",")%char; [|exact I].
  apply consumes_map. pose proof (skip_ws_length s5) as Hws5.
  apply (consumes_longer _ (" "%char :: skip_ws s5)).
  - apply IH; lia.
  - cbn. lia.
Qed.

Lemma scan_once_consumes : forall fuel s,
  (length s < fuel)%nat -> consumes (" "%char :: s) (scan_once fuel s).
Proof.
  induction fuel as [|fuel IH]; intros s Hfuel; [lia|].
  cbn [scan_once]. destruct s as [|c s']; [exact I|]. cbn in Hfuel.
  assert (Hvalue : forall t, (length t <= length s')%nat ->
            consumes (" "%char :: t) (scan_once fuel t))
    by (intros t Ht; apply IH; lia).
  destruct (c =? quote)%char.
  { apply consumes_map.
    apply (consumes_longer _ (quote :: s')); [apply scanstring_consumes|].
    cbn. lia. }
  destruct (c =? "{")%char.
  { unfold parse_object. pose proof (skip_ws_length s') as Hws.
    destruct (skip_ws s') as [|c' rest] eqn:E; [exact I|]. cbn in Hws.
    destruct (c' =? "}")%char; [cbn; lia|].
    apply consumes_map.
    apply (consumes_longer _ (" "%char :: c' :: rest)); [|cbn; lia].
    apply (object_items_consumes _ (length s')); auto; cbn; lia. }
  destruct (c =? "[")%char.
  { unfold parse_array. pose proof (skip_ws_length s') as Hws.
    destruct (skip_ws s') as [|c' rest] eqn:E; [exact I|]. cbn in Hws.
    destruct (c' =? "]")%char; [cbn; lia|].
    apply consumes_map.
    apply (consumes_longer _ (" "%char :: c' :: rest)); [|cbn; lia].
    apply (array_items_consumes _ (length s')); auto; cbn; lia. }
  unfold or_else.
  repeat match goal with
  | |- context [scan_word ?word ?v ?s] =>
      let E := fresh "E" in
      destruct (scan_word word v s) as [[? ?]|] eqn:E;
        [apply scan_word_length in E; [cbn in *; lia | discriminate]|]
  | |- context [scan_number ?s] =>
      let E := fresh "E" in
      destruct (scan_number s) as [[? ?]|] eqn:E;
        [apply scan_number_length in E; cbn in *; lia|]
  end.
  exact I.
Qed.

(** [loads] either returns a value or raises [JSONDecodeError]: the fuel
    it gives to [scan_once] is always enough. *)
Lemma loads_decodes s :
  (exists obj, loads s = Ok obj) \/ loads s = Raise JSONDecodeError.
Proof.
  unfold loads.
  pose proof (scan_once_consumes
                (S (length (skip_ws (list_ascii_of_string s))))
                (skip_ws (list_ascii_of_string s)) (Nat.lt_succ_diag_r _)) as H.
  destruct (scan_once _ _) as [obj rest| |]; [|now right|contradiction].
  destruct (skip_ws rest); [left; now exists obj | now right].
Qed.

(** ** Loading and saving the store *)

Lemma load_state_contents_dict d :
  json_shaped (PDict d) = true ->
  load_state (Contents (dumps (PDict d)))
  = ([LLoadedState (length d)], Ok (PDict d)).
Proof.
  intros Hd. unfold load_state. now rewrite bind_lift_Ok, loads_dumps.
Qed.

(** C6. When [save_state] reports success, [load_state] afterwards yields
    the mapping that was saved, field for field. *)
Theorem save_then_load_round_trip io d f o f' :
  json_shaped (PDict d) = true ->
  save_state io (PDict d) f = (o, Ok true, f') ->
  outcome (load_state f') = Ok (PDict d).
Proof.
  intros Hd Hsave.
  pose proof (f_equal snd Hsave) as Hf.
  pose proof (f_equal (fun r => snd (fst r)) Hsave) as Hok.
  destruct io; cbn in Hok; try discriminate Hok.
  cbn [snd save_state] in Hf. rewrite <- Hf.
  now rewrite load_state_contents_dict.
Qed.

Lemma save_then_load_round_trip_witness :
  outcome
    (load_state
       (snd (save_state Written
               (PDict [("f13", PDict [("seen_thread_ids",
                                        PList [PStr "t1"; PStr "t2"]);
                                       ("last_checked_at", PStr "2024-05-01Z");
                                       ("total_threads", PInt 2)]);
                       ("t7", thread_cursor "p\5" "2024-05-01Z" 12)])
               Missing)))
  = Ok (PDict [("f13", PDict [("seen_thread_ids",
                                PList [PStr "t1"; PStr "t2"]);
                               ("last_checked_at", PStr "2024-05-01Z");
                               ("total_threads", PInt 2)]);
               ("t7", thread_cursor "p\5" "2024-05-01Z" 12)]).
Proof.
  apply (save_then_load_round_trip Written _ Missing [LStateSaved]);
    reflexivity.
Defined.

(** [load_state] returns normally whatever the file holds. *)
Lemma load_state_never_raises f : exists state, outcome (load_state f) = Ok state.
Proof.
  destruct f as [|e|data]; unfold load_state.
  - eexists; reflexivity.
  - rewrite bind_lift_Raise. destruct e; eexists; reflexivity.
  - rewrite bind_lift_Ok. destruct (loads data) as [v|e].
    + rewrite bind_lift_Ok. destruct (py_len v) as [n|e].
      * rewrite bind_lift_Ok. eexists; reflexivity.
      * rewrite bind_lift_Raise. destruct e; eexists; reflexivity.
    + rewrite bind_lift_Raise. destruct e; eexists; reflexivity.
Qed.

(** Without a state file [load_state] yields the empty mapping. *)
Lemma load_state_missing :
  load_state Missing = ([LStateFileNotFound], Ok (PDict [])).
Proof. reflexivity. Qed.

(** A state file that is not JSON is discarded: [load_state] reports it
    and yields the empty mapping. *)
Lemma load_state_unparseable data :
  loads data = Raise JSONDecodeError ->
  load_state (Contents data)
  = ([LErrorReadingState JSONDecodeError; LStartingEmpty], Ok (PDict [])).
Proof. intros H. unfold load_state. now rewrite bind_lift_Ok, H. Qed.

(** C7 (defect). A state file that holds a JSON array is parsed and
    returned as it is: [load_state] returns a list, not a mapping, and
    prints that it loaded the state. *)
Theorem load_state_returns_array :
  load_state (Contents "[]") = ([LLoadedState 0], Ok (PList [])).
Proof. reflexivity. Qed.

(** ** Traces of the orchestrator *)

Section Emits.
Variable allowed : event -> bool.

Lemma emits_ret {A} (a : A) : emits allowed (RunMonad.ret a).
Proof. intros w. exists []. now rewrite app_nil_r. Qed.

Lemma emits_raise {A} e : emits allowed (@RunMonad.raise A e).
Proof. intros w. exists []. now rewrite app_nil_r. Qed.

Lemma emits_lift {A} (r : result A) : emits allowed (RunMonad.lift r).
Proof. intros w. exists []. now rewrite app_nil_r. Qed.

Lemma emits_print text : emits allowed (RunMonad.print text).
Proof. intros w. exists []. cbn. now rewrite app_nil_r. Qed.

Lemma emits_tick : emits allowed RunMonad.tick.
Proof. intros w. exists []. cbn. now rewrite app_nil_r. Qed.

Lemma emits_emit ev : allowed ev = true -> emits allowed (RunMonad.emit ev).
Proof. intros H w. exists [ev]. cbn. now rewrite H. Qed.

Lemma emits_reading {A} (method : pyval -> Out A) :
  emits allowed (RunMonad.reading method).
Proof.
  intros w. exists []. unfold RunMonad.reading. destruct (method (w_state w)).
  cbn. now rewrite app_nil_r.
Qed.

Lemma emits_writing method : emits allowed (RunMonad.writing method).
Proof.
  intros w. exists []. unfold RunMonad.writing.
  destruct (method (w_state w)) as [o [s|e]]; cbn; now rewrite app_nil_r.
Qed.

Lemma emits_bind {A B} (m : Run A) (k : A -> Run B) :
  emits allowed m -> (forall a, emits allowed (k a)) ->
  emits allowed (RunMonad.bind m k).
Proof.
  intros Hm Hk w. unfold RunMonad.bind.
  destruct (Hm w) as [evs1 [E1 Q1]].
  destruct (m w) as [[a|e] w1]; cbn [snd] in *.
  - destruct (Hk a w1) as [evs2 [E2 Q2]]. exists (evs1 ++ evs2).
    now rewrite E2, E1, app_assoc, forallb_app, Q1, Q2.
  - now exists evs1.
Qed.

Lemma emits_try_except {A} (m : Run A) handler :
  emits allowed m -> (forall e, emits allowed (handler e)) ->
  emits allowed (RunMonad.try_except m handler).
Proof.
  intros Hm Hh w. unfold RunMonad.try_except.
  destruct (Hm w) as [evs1 [E1 Q1]].
  destruct (m w) as [[a|e] w1]; cbn [snd] in *.
  - now exists evs1.
  - destruct (Hh e w1) as [evs2 [E2 Q2]]. exists (evs1 ++ evs2).
    now rewrite E2, E1, app_assoc, forallb_app, Q1, Q2.
Qed.

End Emits.

Create HintDb emits.
#[local] Hint Resolve emits_ret emits_raise emits_lift emits_print emits_tick
  emits_reading emits_writing : emits.

Ltac emits_step :=
  first
    [ solve [auto with emits]
    | apply emits_bind; [|intro]
    | apply emits_try_except; [|intro]
    | apply emits_emit; solve [reflexivity | auto]
    | match goal with
      | |- emits _ (match ?x with _ => _ end) => destruct x
      end ].
Ltac emits := repeat emits_step.

Lemma emits_weaken (p q : event -> bool) {A} (m : Run A) :
  (forall ev, p ev = true -> q ev = true) -> emits p m -> emits q m.
Proof.
  intros Hpq Hm w. destruct (Hm w) as [evs [E Q]]. exists evs.
  split; [exact E|]. rewrite forallb_forall in *. auto.
Qed.

(** The notifier only posts and sleeps. *)
Section Notifier.
Variable allowed : event -> bool.
Hypothesis allowed_sleep : forall seconds, allowed (EvSleep seconds) = true.

Lemma emits_time_sleep env v :
  emits allowed (DiscordNotifier.time_sleep env v).
Proof.
  unfold DiscordNotifier.time_sleep. destruct (sleep_outcome env v); emits.
Qed.

Lemma emits_post env url body :
  allowed (EvPost url body) = true ->
  emits allowed (DiscordNotifier.post env url body).
Proof. intros H. unfold DiscordNotifier.post. emits. Qed.

Lemma emits_send env url body sent :
  allowed (EvPost url body) = true ->
  emits allowed (DiscordNotifier.send env url body sent).
Proof.
  intros H. pose proof (emits_post env url body H).
  pose proof emits_time_sleep.
  unfold DiscordNotifier.send. emits.
Qed.

Lemma emits_send_each {A} env (send_one : A -> Run bool) total items :
  (forall item, emits allowed (send_one item)) ->
  forall i success_count,
    emits allowed
      (DiscordNotifier.send_each env send_one total i items success_count).
Proof.
  intros Hone. pose proof emits_time_sleep.
  induction items as [|item rest IH]; intros i n;
    cbn [DiscordNotifier.send_each]; emits.
Qed.

Lemma emits_send_batch {A} env (send_one : A -> Run bool) items :
  (forall item, emits allowed (send_one item)) ->
  emits allowed (DiscordNotifier.send_batch env send_one items).
Proof.
  intros Hone. unfold DiscordNotifier.send_batch.
  destruct items; emits. now apply emits_send_each.
Qed.



End Notifier.

Lemma quiet_send_batch_notifications env url posts name :
  emits not_commit
    (DiscordNotifier.send_batch_notifications env url posts name).
Proof.
  apply emits_send_batch; [reflexivity|]. intros p.
  apply emits_send; reflexivity.
Qed.

Lemma quiet_send_batch_thread_notifications env url threads name :
  emits not_commit
    (DiscordNotifier.send_batch_thread_notifications env url threads name).
Proof.
  apply emits_send_batch; [reflexivity|]. intros p.
  apply emits_send; reflexivity.
Qed.

(** A cursor assignment as the last event *)







Lemma events_of_trace {A} (m : Run A) w evs :
  w_trace (snd (m w)) = w_trace w ++ evs -> events_of m w = evs.
Proof.
  intros E. unfold events_of. rewrite E, skipn_app, Nat.sub_diag, skipn_all.
  reflexivity.
Qed.



(** A cursor assignment before the notifications *)








(** ** What the notifier leaves untouched, and when it returns *)

Lemma keeps_state_ret {A} (a : A) : keeps_state (RunMonad.ret a).
Proof. intros w. reflexivity. Qed.

Lemma keeps_state_raise {A} e : keeps_state (@RunMonad.raise A e).
Proof. intros w. reflexivity. Qed.

Lemma keeps_state_lift {A} (r : result A) : keeps_state (RunMonad.lift r).
Proof. intros w. reflexivity. Qed.

Lemma keeps_state_print text : keeps_state (RunMonad.print text).
Proof. intros w. reflexivity. Qed.

Lemma keeps_state_tick : keeps_state RunMonad.tick.
Proof. intros w. reflexivity. Qed.

Lemma keeps_state_emit ev : keeps_state (RunMonad.emit ev).
Proof. intros w. reflexivity. Qed.

Lemma keeps_state_bind {A B} (m : Run A) (k : A -> Run B) :
  keeps_state m -> (forall a, keeps_state (k a)) ->
  keeps_state (RunMonad.bind m k).
Proof.
  intros Hm Hk w. unfold RunMonad.bind. specialize (Hm w).
  destruct (m w) as [[a|e] w1]; cbn [snd] in *; [|exact Hm].
  now rewrite Hk.
Qed.

Lemma keeps_state_try_except {A} (m : Run A) handler :
  keeps_state m -> (forall e, keeps_state (handler e)) ->
  keeps_state (RunMonad.try_except m handler).
Proof.
  intros Hm Hh w. unfold RunMonad.try_except. specialize (Hm w).
  destruct (m w) as [[a|e] w1]; cbn [snd] in *; [exact Hm|].
  now rewrite Hh.
Qed.

Create HintDb keeps.
#[local] Hint Resolve keeps_state_ret keeps_state_raise keeps_state_lift
  keeps_state_print keeps_state_tick keeps_state_emit : keeps.

Lemma keeps_state_time_sleep env seconds :
  keeps_state (DiscordNotifier.time_sleep env seconds).
Proof.
  intros w. unfold DiscordNotifier.time_sleep.
  now destruct (sleep_outcome env seconds).
Qed.

#[local] Hint Resolve keeps_state_time_sleep : keeps.

Ltac keeps_step :=
  first
    [ solve [auto with keeps]
    | apply keeps_state_bind; [|intro]
    | apply keeps_state_try_except; [|intro]
    | match goal with
      | |- keeps_state (match ?x with _ => _ end) => destruct x
      end ].
Ltac keeps := repeat keeps_step.

Lemma keeps_state_send env url body sent :
  keeps_state (DiscordNotifier.send env url body sent).
Proof.
  unfold DiscordNotifier.send, DiscordNotifier.post. keeps.
Qed.

Lemma keeps_state_send_each {A} env (send_one : A -> Run bool) total items :
  (forall item, keeps_state (send_one item)) ->
  forall i success_count,
    keeps_state
      (DiscordNotifier.send_each env send_one total i items success_count).
Proof.
  intros Hone.
  induction items as [|item rest IH]; intros i n;
    cbn [DiscordNotifier.send_each]; keeps.
Qed.

Lemma keeps_state_send_batch {A} env (send_one : A -> Run bool) items :
  (forall item, keeps_state (send_one item)) ->
  keeps_state (DiscordNotifier.send_batch env send_one items).
Proof.
  intros Hone. unfold DiscordNotifier.send_batch.
  destruct items; keeps. now apply keeps_state_send_each.
Qed.

Lemma returns_bind {A B} (m : Run A) (k : A -> Run B) :
  returns m -> (forall a, returns (k a)) -> returns (RunMonad.bind m k).
Proof.
  intros Hm Hk w. unfold RunMonad.bind. destruct (Hm w) as [a Ha].
  destruct (m w) as [[a'|e] w1]; cbn [fst] in *; [|discriminate Ha].
  apply Hk.
Qed.

Lemma returns_ret {A} (a : A) : returns (RunMonad.ret a).
Proof. intros w. now exists a. Qed.

Lemma returns_print text : returns (RunMonad.print text).
Proof. intros w. now exists tt. Qed.

Lemma returns_time_sleep env seconds :
  sleepable env seconds -> returns (DiscordNotifier.time_sleep env seconds).
Proof.
  intros H w. unfold DiscordNotifier.time_sleep. rewrite H. now exists tt.
Qed.

Lemma sleep_outcome_two env : sleep_outcome env (PInt 2) = Ok tt.
Proof. reflexivity. Qed.

Lemma time_sleep_two env w :
  DiscordNotifier.time_sleep env (PInt 2) w
  = (Ok tt, mkWorld (w_state w) (w_file w) (w_out w)
                    (w_trace w ++ [EvSleep (PInt 2)]) (w_clock w)).
Proof. reflexivity. Qed.

(** With a webhook that answers, sending one notification returns. *)
Lemma returns_send env url body sent :
  webhook_answers env -> returns (DiscordNotifier.send env url body sent).
Proof.
  intros Hweb w.
  unfold DiscordNotifier.send, DiscordNotifier.post, RunMonad.try_except,
    RunMonad.bind, RunMonad.tick, RunMonad.emit, RunMonad.ret, RunMonad.raise, RunMonad.print,
    RunMonad.lift.
  cbn [w_clock w_state w_file w_out w_trace fst snd].
  pose proof (Hweb (w_clock w) url body) as H1.
  destruct (requests_post env (w_clock w) url body) as [status retry|e].
  - destruct (status =? 204)%Z; [now eexists|].
    destruct (Z.eqb_spec status 429); [|now eexists].
    destruct (H1 e) as [seconds [-> Hs]].
    cbn [w_clock w_state w_file w_out w_trace fst snd].
    destruct (returns_time_sleep env seconds Hs
                (mkWorld (w_state w) (w_file w)
                   (w_out w ++ [LMonitor "Discord rate limit hit, waiting "])
                   (w_trace w ++ [EvPost url body]) (S (w_clock w))))
      as [[] Hsleep].
    destruct (DiscordNotifier.time_sleep env seconds _) as [[[]|e'] w1];
      [|discriminate Hsleep].
    cbn [w_clock w_state w_file w_out w_trace fst snd].
    pose proof (Hweb (w_clock w1) url body) as H2.
    destruct (requests_post env (w_clock w1) url body) as [status2 retry2|e2];
      [now eexists|].
    subst e2. now eexists.
  - subst e. now eexists.
Qed.

Lemma returns_send_each {A} env (send_one : A -> Run bool) total items :
  (forall item, returns (send_one item)) ->
  forall i success_count,
    returns
      (DiscordNotifier.send_each env send_one total i items success_count).
Proof.
  intros Hone.
  induction items as [|item rest IH]; intros i n;
    cbn [DiscordNotifier.send_each].
  - apply returns_ret.
  - apply returns_bind; [apply Hone|]. intros ok.
    apply returns_bind; [|intros _; apply IH].
    destruct (_ && _).
    + apply returns_bind; [apply returns_print|]. intros _.
      apply returns_time_sleep. reflexivity.
    + apply returns_ret.
Qed.

Lemma returns_send_batch {A} env (send_one : A -> Run bool) items :
  (forall item, returns (send_one item)) ->
  returns (DiscordNotifier.send_batch env send_one items).
Proof.
  intros Hone. unfold DiscordNotifier.send_batch.
  destruct items as [|item rest]; [apply returns_ret|].
  apply returns_bind; [now apply returns_send_each|]. intros n.
  apply returns_bind; [apply returns_print|]. intros _. apply returns_ret.
Qed.

(** The notifier's contract: with a webhook that answers,
    [send_batch_notifications] returns a count and leaves the store as it
    is, whatever the answers are. *)
Lemma send_batch_notifications_returns env url posts name w :
  webhook_answers env ->
  exists count w',
    DiscordNotifier.send_batch_notifications env url posts name w
    = (Ok count, w')
    /\ w_state w' = w_state w.
Proof.
  intros Hweb.
  assert (Hr : returns (DiscordNotifier.send_batch_notifications env url posts name)).
  { apply returns_send_batch. intros p. now apply returns_send. }
  assert (Hk : keeps_state (DiscordNotifier.send_batch_notifications env url posts name)).
  { apply keeps_state_send_batch. intros p. apply keeps_state_send. }
  destruct (Hr w) as [count Hc]. specialize (Hk w).
  destruct (DiscordNotifier.send_batch_notifications env url posts name w)
    as [r w'].
  cbn in Hc, Hk. subst r. now exists count, w'.
Qed.

Lemma py_last_nonempty {A} (xs : list A) :
  xs <> [] -> exists x, py_last xs = Ok x.
Proof.
  intros H. destruct xs as [|x xs _] using rev_ind; [contradiction|].
  exists x. unfold py_last. now rewrite rev_unit.
Qed.

Lemma get_last_post_id_returns d thread_id :
  thread_cursor_ok d thread_id ->
  exists v, StateManager.get_last_post_id (PDict d) thread_id = Ok v.
Proof.
  unfold thread_cursor_ok, StateManager.get_last_post_id. cbn [py_get].
  destruct (dict_get d thread_id) as [[| | | | | |c]|]; try contradiction;
    intros _; eexists; reflexivity.
Qed.

Lemma get_new_posts_returns d thread_id all_posts :
  thread_cursor_ok d thread_id ->
  exists o new_posts,
    StateManager.get_new_posts (PDict d) thread_id all_posts
    = (o, Ok new_posts).
Proof.
  intros Hok. unfold StateManager.get_new_posts.
  destruct all_posts as [|p ps]; [now eexists _, _|].
  destruct (get_last_post_id_returns d thread_id Hok) as [v ->].
  destruct (py_last_nonempty (p :: ps)) as [x Hx]; [discriminate|].
  unfold bind, lift, print, ret. rewrite Hx.
  destruct v;
    repeat match goal with
      | |- context [if ?b then _ else _] => destruct b
      | |- context [match py_slice_from ?l ?n with _ => _ end] =>
          destruct (py_slice_from l n)
      end; now eexists _, _.
Qed.

Lemma match_nonempty {A B} (l : list A) (a b : B) :
  l <> [] -> match l with [] => a | _ :: _ => b end = b.
Proof. destruct l; [contradiction | reflexivity]. Qed.

Lemma run_bind_eq {A B} (m : Run A) (k : A -> Run B) w :
  RunMonad.bind m k w
  = match m w with
    | (Ok a, w') => k a w'
    | (Raise e, w') => (Raise e, w')
    end.
Proof. reflexivity. Qed.

Lemma send_error_notification_run env url msg name w :
  exists ok out,
    DiscordNotifier.send_error_notification env url msg name w
    = (Ok ok,
       mkWorld (w_state w) (w_file w) (w_out w ++ out)
               (w_trace w ++ [EvPost url (ErrorEmbed msg name)])
               (S (w_clock w)))
    /\ (ok = true <->
        exists r,
          requests_post env (w_clock w) url (ErrorEmbed msg name)
          = Response 204 r).
Proof.
  unfold DiscordNotifier.send_error_notification, DiscordNotifier.post,
    RunMonad.try_except, RunMonad.bind, RunMonad.tick, RunMonad.emit,
    RunMonad.ret, RunMonad.raise, RunMonad.print.
  cbn [w_clock w_state w_file w_out w_trace fst snd].
  destruct (requests_post env (w_clock w) url (ErrorEmbed msg name))
    as [status retry|e]; cbn [w_clock w_state w_file w_out w_trace fst snd].
  - exists (status =? 204)%Z, []. rewrite app_nil_r. split; [reflexivity|].
    split.
    + intros H. apply Z.eqb_eq in H. subst status. now exists retry.
    + intros [r [= -> _]]. reflexivity.
  - eexists false, _. split; [reflexivity|].
    split; [discriminate | intros [r H]; discriminate H].
Qed.

Lemma report_error_run env webhook_env name w :
  ForoactivoMonitor.truthy (getenv env webhook_env) = true ->
  exists out,
    ForoactivoMonitor.report_error env webhook_env name w
    = (Ok 0%nat,
       mkWorld (w_state w) (w_file w) (w_out w ++ out)
               (w_trace w
                ++ [EvPost (ForoactivoMonitor.get_or (getenv env webhook_env)
                                                     EmptyString)
                           (ErrorEmbed "Error processing monitor" name)])
               (S (w_clock w))).
Proof.
  intros H. unfold ForoactivoMonitor.report_error.
  destruct (getenv env webhook_env) as [url|]; [|discriminate H].
  cbn [ForoactivoMonitor.truthy ForoactivoMonitor.get_or] in *. rewrite H.
  rewrite run_bind_eq. cbn [RunMonad.print]. rewrite run_bind_eq.
  unfold RunMonad.try_except. rewrite run_bind_eq.
  match goal with
  | |- context [DiscordNotifier.send_error_notification ?e ?u ?m ?n ?w1] =>
      destruct (send_error_notification_run e u m n w1) as [ok [out [E _]]]
  end.
  rewrite E. cbn [RunMonad.ret w_clock w_state w_file w_out w_trace].
  eexists. rewrite <- app_assoc. reflexivity.
Qed.

Lemma thread_monitor_run env monitor_config w d earlier latest :
  ForoactivoMonitor.truthy (cfg_thread_url monitor_config) = true ->
  ForoactivoMonitor.truthy (getenv env (ForoactivoMonitor.get_or
                        (cfg_discord_webhook_env monitor_config)
                        "DISCORD_WEBHOOK_URL")) = true ->
  client_login env (w_clock w)
    (ForoactivoMonitor.get_or (cfg_forum_url monitor_config) EmptyString)
  = Ok true ->
  client_get_thread_posts env (S (w_clock w))
    (ForoactivoMonitor.get_or (cfg_thread_url monitor_config) EmptyString)
  = Ok (earlier ++ [latest]) ->
  w_state w = PDict d ->
  thread_cursor_ok d (ForoactivoMonitor.id_of monitor_config) ->
  webhook_answers env ->
  exists count w' now,
    ForoactivoMonitor._process_thread_monitor env monitor_config w
    = (Ok count, w')
    /\ w_state w'
       = PDict (dict_set d (ForoactivoMonitor.id_of monitor_config)
                  (thread_cursor (p_id latest) now
                     (Z.of_nat (length (earlier ++ [latest]))))).
Proof.
  intros Hurl Henv Hlogin Hfetch Hstate Hok Hweb.
  unfold ForoactivoMonitor._process_thread_monitor.
  rewrite Hurl, Henv. cbn [negb].
  assert (Hposts : earlier ++ [latest] <> []) by (destruct earlier; discriminate).
  destruct (get_new_posts_returns d (ForoactivoMonitor.id_of monitor_config)
              (earlier ++ [latest]) Hok) as [o [new_posts Hnew]].
  unfold RunMonad.try_except, RunMonad.bind, RunMonad.print, RunMonad.tick,
    RunMonad.emit, RunMonad.lift, RunMonad.ret, RunMonad.reading.
  cbn [w_clock w_state w_file w_out w_trace fst snd].
  rewrite Hlogin. cbn [negb w_clock w_state w_file w_out w_trace fst snd].
  rewrite Hfetch. cbn [negb w_clock w_state w_file w_out w_trace fst snd].
  rewrite (match_nonempty _ _ _ Hposts).
  cbn [negb w_clock w_state w_file w_out w_trace fst snd].
  rewrite Hstate, Hnew, py_last_app.
  unfold ForoactivoMonitor.update_thread_state, RunMonad.bind, RunMonad.tick,
    RunMonad.writing, RunMonad.emit, RunMonad.ret.
  destruct new_posts as [|np nps].
  - cbn [w_clock w_state w_file w_out w_trace fst snd].
    rewrite update_thread_state_run.
    eexists _, _, _. split; reflexivity.
  - match goal with
    | |- context [DiscordNotifier.send_batch_notifications ?e ?u ?ps ?n ?w1] =>
        destruct (send_batch_notifications_returns e u ps n w1 Hweb)
          as [count [w2 [Hsend Hkeep]]]
    end.
    rewrite Hsend. cbn [w_clock w_state w_file w_out w_trace fst snd] in *.
    rewrite Hkeep, update_thread_state_run.
    eexists _, _, _. split; reflexivity.
Qed.

Lemma keeps_state_report_error env webhook_env name :
  keeps_state (ForoactivoMonitor.report_error env webhook_env name).
Proof.
  unfold ForoactivoMonitor.report_error,
    DiscordNotifier.send_error_notification, DiscordNotifier.post.
  keeps.
Qed.



(** What a thread monitor does once it has fetched posts: it assigns
    the cursor as its last action, unless an exception leaves the
    notifier, and then it posts an error embed as its last action. *)
Lemma thread_monitor_outcome env monitor_config w d earlier latest :
  ForoactivoMonitor.truthy (cfg_thread_url monitor_config) = true ->
  ForoactivoMonitor.truthy
    (getenv env (ForoactivoMonitor.get_or
                   (cfg_discord_webhook_env monitor_config)
                   "DISCORD_WEBHOOK_URL")) = true ->
  client_login env (w_clock w)
    (ForoactivoMonitor.get_or (cfg_forum_url monitor_config) EmptyString)
  = Ok true ->
  client_get_thread_posts env (S (w_clock w))
    (ForoactivoMonitor.get_or (cfg_thread_url monitor_config) EmptyString)
  = Ok (earlier ++ [latest]) ->
  w_state w = PDict d ->
  thread_cursor_ok d (ForoactivoMonitor.id_of monitor_config) ->
  exists new_posts w1 count w' before,
    outcome (StateManager.get_new_posts (PDict d)
               (ForoactivoMonitor.id_of monitor_config) (earlier ++ [latest]))
    = Ok new_posts
    /\ w_state w1 = PDict d
    /\ w_clock w1 = S (S (w_clock w))
    /\ ForoactivoMonitor._process_thread_monitor env monitor_config w
       = (Ok count, w')
    /\ (((new_posts = []
          \/ fst (DiscordNotifier.send_batch_notifications env
                    (webhook_url_of env monitor_config) new_posts
                    (ForoactivoMonitor.get_or (cfg_name monitor_config)
                                              "Thread") w1) = Ok count)
         /\ (exists now,
               w_state w'
               = PDict (dict_set d (ForoactivoMonitor.id_of monitor_config)
                          (thread_cursor (p_id latest) now
                             (Z.of_nat (length (earlier ++ [latest]))))))
         /\ w_trace w'
            = w_trace w ++ before
              ++ [EvSetCursor (ForoactivoMonitor.id_of monitor_config)])
        \/ (new_posts <> []
            /\ (exists e,
                  fst (DiscordNotifier.send_batch_notifications env
                         (webhook_url_of env monitor_config) new_posts
                         (ForoactivoMonitor.get_or (cfg_name monitor_config)
                                                   "Thread") w1) = Raise e)
            /\ count = 0%nat
            /\ w_state w' = PDict d
            /\ exists error_message,
                 w_trace w'
                 = w_trace w ++ before
                   ++ [EvPost (webhook_url_of env monitor_config)
                              (ErrorEmbed error_message
                                 (ForoactivoMonitor.get_or
                                    (cfg_name monitor_config) "Thread"))])).
Proof.
  intros Hurl Henv Hlogin Hfetch Hstate Hok.
  unfold webhook_url_of, webhook_env_of.
  unfold ForoactivoMonitor._process_thread_monitor.
  rewrite Hurl, Henv. cbn [negb].
  assert (Hposts : earlier ++ [latest] <> [])
    by (destruct earlier; discriminate).
  destruct (get_new_posts_returns d (ForoactivoMonitor.id_of monitor_config)
              (earlier ++ [latest]) Hok) as [o [new_posts Hnew]].
  exists new_posts.
  unfold RunMonad.try_except, RunMonad.bind, RunMonad.print, RunMonad.tick,
    RunMonad.emit, RunMonad.lift, RunMonad.ret, RunMonad.reading.
  cbn [w_clock w_state w_file w_out w_trace fst snd].
  rewrite Hlogin. cbn [negb w_clock w_state w_file w_out w_trace fst snd].
  rewrite Hfetch. cbn [negb w_clock w_state w_file w_out w_trace fst snd].
  rewrite (match_nonempty _ _ _ Hposts).
  cbn [negb w_clock w_state w_file w_out w_trace fst snd].
  rewrite Hstate, Hnew, py_last_app. cbn [outcome snd].
  unfold ForoactivoMonitor.update_thread_state, RunMonad.bind, RunMonad.tick,
    RunMonad.writing, RunMonad.emit, RunMonad.ret.
  destruct new_posts as [|np nps].
  - cbn [w_clock w_state w_file w_out w_trace fst snd].
    rewrite update_thread_state_run.
    cbn [w_clock w_state w_file w_out w_trace fst snd].
    exists (mkWorld (PDict d) (w_file w) (w_out w) (w_trace w)
                    (S (S (w_clock w)))).
    eexists _, _, [_; _].
    split; [reflexivity|]. split; [reflexivity|]. split; [reflexivity|].
    split; [reflexivity|]. left.
    split; [now left|]. split; [eexists; reflexivity|].
    cbn [w_trace]. now rewrite <- !app_assoc.
  - match goal with
    | |- context [DiscordNotifier.send_batch_notifications ?e ?u ?ps ?n ?w1] =>
        exists w1;
        pose proof (keeps_state_send_batch e
                      (fun post => DiscordNotifier.send_notification e u post n)
                      ps (fun post => keeps_state_send e u _ _) w1) as Hkeep;
        destruct (quiet_send_batch_notifications e u ps n w1)
          as [evs [Htrace _]];
        change (DiscordNotifier.send_batch e
                  (fun post => DiscordNotifier.send_notification e u post n) ps)
          with (DiscordNotifier.send_batch_notifications e u ps n) in Hkeep;
        destruct (DiscordNotifier.send_batch_notifications e u ps n w1)
          as [[sent|e'] w2]
    end; cbn [w_clock w_state w_file w_out w_trace fst snd] in *.
    + rewrite Hkeep, update_thread_state_run.
      cbn [w_clock w_state w_file w_out w_trace fst snd].
      eexists _, _, (_ :: _ :: evs).
      split; [reflexivity|]. split; [reflexivity|]. split; [reflexivity|].
      split; [reflexivity|]. left.
      split; [now right|]. split; [eexists; reflexivity|].
      cbn [w_trace]. rewrite Htrace, <- !app_assoc. reflexivity.
    + match goal with
      | |- context [ForoactivoMonitor.report_error ?e ?v ?n ?w3] =>
          destruct (report_error_run e v n w3 Henv) as [out E]
      end.
      rewrite E. cbn [w_clock w_state w_file w_out w_trace fst snd].
      eexists _, _, (_ :: _ :: evs).
      split; [reflexivity|]. split; [reflexivity|]. split; [reflexivity|].
      split; [reflexivity|]. right.
      split; [discriminate|]. split; [now exists e'|].
      split; [reflexivity|]. split; [exact Hkeep|].
      eexists. cbn [w_trace]. rewrite Htrace, <- !app_assoc. reflexivity.
Qed.

(** ** The cursor of a thread monitor *)

Lemma sample_webhook_answers status :
  status <> 429%Z -> webhook_answers (sample_env status).
Proof. intros Hs n url body. cbn. intros E. contradiction. Qed.

(** C8, as stated, fails.  The posts of the thread are fetched; the
    webhook answers the notification with a 429 whose [retry_after] is
    negative; [time.sleep] raises [ValueError], which leaves the notifier;
    the monitor returns 0 and no cursor is stored for the thread. *)
Lemma thread_monitor_keeps_cursor_on_exception :
  client_get_thread_posts (rate_limiting_env (Ok (PFloat "-1.5"))) 1
    "https://foro.test/t7-charla"
  = Ok [sample_post "p1"; sample_post "p2"]
  /\ fst (ForoactivoMonitor._process_thread_monitor
            (rate_limiting_env (Ok (PFloat "-1.5")))
            sample_thread_config sample_world) = Ok 0%nat
  /\ entry (w_state (snd (ForoactivoMonitor._process_thread_monitor
                            (rate_limiting_env (Ok (PFloat "-1.5")))
                            sample_thread_config sample_world)))
           "t7" = None.
Proof. repeat split; vm_compute; reflexivity. Qed.

(** C8, amended.  When a thread monitor has fetched a non-empty list of
    posts, it stores the ThreadCursor made of the id of the last post and
    of the number of posts when no post is new, and when the notifier,
    called in the world [w1], returns, whatever count it returns; when an
    exception leaves the notifier, the monitor returns 0 and the store is
    as it was.  The notifier returns when the webhook raises nothing but
    [RequestException] and its 429 answers carry a delay that
    [time.sleep] accepts. *)
Theorem thread_monitor_commits_when_notifier_returns env monitor_config w d
    earlier latest :
  ForoactivoMonitor.truthy (cfg_thread_url monitor_config) = true ->
  ForoactivoMonitor.truthy
    (getenv env (ForoactivoMonitor.get_or
                   (cfg_discord_webhook_env monitor_config)
                   "DISCORD_WEBHOOK_URL")) = true ->
  client_login env (w_clock w)
    (ForoactivoMonitor.get_or (cfg_forum_url monitor_config) EmptyString)
  = Ok true ->
  client_get_thread_posts env (S (w_clock w))
    (ForoactivoMonitor.get_or (cfg_thread_url monitor_config) EmptyString)
  = Ok (earlier ++ [latest]) ->
  w_state w = PDict d ->
  thread_cursor_ok d (ForoactivoMonitor.id_of monitor_config) ->
  exists new_posts w1 count w',
    outcome (StateManager.get_new_posts (PDict d)
               (ForoactivoMonitor.id_of monitor_config) (earlier ++ [latest]))
    = Ok new_posts
    /\ w_state w1 = PDict d
    /\ w_clock w1 = S (S (w_clock w))
    /\ ForoactivoMonitor._process_thread_monitor env monitor_config w
       = (Ok count, w')
    /\ (((new_posts = []
          \/ fst (DiscordNotifier.send_batch_notifications env
                    (webhook_url_of env monitor_config) new_posts
                    (ForoactivoMonitor.get_or (cfg_name monitor_config)
                                              "Thread") w1) = Ok count)
         /\ exists now,
              w_state w'
              = PDict (dict_set d (ForoactivoMonitor.id_of monitor_config)
                         (thread_cursor (p_id latest) now
                            (Z.of_nat (length (earlier ++ [latest]))))))
        \/ (new_posts <> []
            /\ (exists e,
                  fst (DiscordNotifier.send_batch_notifications env
                         (webhook_url_of env monitor_config) new_posts
                         (ForoactivoMonitor.get_or (cfg_name monitor_config)
                                                   "Thread") w1) = Raise e)
            /\ count = 0%nat
            /\ w_state w' = PDict d))
    /\ (webhook_answers env ->
        exists now,
          w_state w'
          = PDict (dict_set d (ForoactivoMonitor.id_of monitor_config)
                     (thread_cursor (p_id latest) now
                        (Z.of_nat (length (earlier ++ [latest])))))).
Proof.
  intros Hurl Henv Hlogin Hfetch Hstate Hok.
  destruct (thread_monitor_outcome env monitor_config w d earlier latest
              Hurl Henv Hlogin Hfetch Hstate Hok)
    as [new_posts [w1 [count [w' [before [Hnew [Hs1 [Hc1 [Hrun Hcases]]]]]]]]].
  exists new_posts, w1, count, w'.
  repeat (split; [assumption|]). split.
  - destruct Hcases as [[Hret [Hcommit _]]|[Hne [Hraise [Hcount [Hkeep _]]]]];
      [left | right]; repeat split; assumption.
  - intros Hweb.
    destruct (thread_monitor_run env monitor_config w d earlier latest
                Hurl Henv Hlogin Hfetch Hstate Hok Hweb)
      as [count' [w'' [now [Hrun' Hstate']]]].
    rewrite Hrun in Hrun'. injection Hrun' as _ <-. now exists now.
Qed.

Lemma thread_monitor_commits_when_notifier_returns_witness :
  exists now,
    w_state (snd (ForoactivoMonitor._process_thread_monitor (sample_env 500)
                    sample_thread_config sample_world))
    = PDict [("t7", thread_cursor "p2" now 2)].
Proof.
  destruct (thread_monitor_commits_when_notifier_returns (sample_env 500)
              sample_thread_config sample_world [] [sample_post "p1"]
              (sample_post "p2") eq_refl eq_refl eq_refl eq_refl eq_refl I)
    as [new_posts [w1 [count [w' [_ [_ [_ [Hrun [_ Hweb]]]]]]]]].
  rewrite Hrun. apply Hweb, sample_webhook_answers. discriminate.
Defined.

(** ** The order of notifying and committing *)




(** ** The run as a whole *)

Lemma returns_try_except {A} (m : Run A) handler :
  (forall e, returns (handler e)) -> returns (RunMonad.try_except m handler).
Proof.
  intros Hh w. unfold RunMonad.try_except.
  destruct (m w) as [[a|e] w1]; [now exists a | apply Hh].
Qed.

Lemma returns_report_error env webhook_env name :
  returns (ForoactivoMonitor.report_error env webhook_env name).
Proof.
  unfold ForoactivoMonitor.report_error.
  apply returns_bind; [apply returns_print|]. intros _.
  apply returns_bind; [|intros _; apply returns_ret].
  apply returns_try_except. intros _. apply returns_ret.
Qed.

(** A failure inside the pipeline of a monitor never leaves it. *)
Lemma returns_process_monitor env monitor_config :
  returns (ForoactivoMonitor._process_monitor env monitor_config).
Proof.
  unfold ForoactivoMonitor._process_monitor.
  apply returns_bind; [apply returns_print|]. intros _.
  destruct (negb _).
  { apply returns_bind; [apply returns_print|]. intros _. apply returns_ret. }
  destruct (String.eqb _ _).
  - unfold ForoactivoMonitor._process_forum_monitor.
    repeat match goal with
    | |- returns (if ?b then _ else _) => destruct b
    | |- returns (RunMonad.bind (RunMonad.print _) _) =>
        apply returns_bind; [apply returns_print|intros _]
    | |- returns (RunMonad.ret _) => apply returns_ret
    | |- returns (RunMonad.try_except _ _) =>
        apply returns_try_except; intros _; apply returns_report_error
    end.
  - unfold ForoactivoMonitor._process_thread_monitor.
    repeat match goal with
    | |- returns (if ?b then _ else _) => destruct b
    | |- returns (RunMonad.bind (RunMonad.print _) _) =>
        apply returns_bind; [apply returns_print|intros _]
    | |- returns (RunMonad.ret _) => apply returns_ret
    | |- returns (RunMonad.try_except _ _) =>
        apply returns_try_except; intros _; apply returns_report_error
    end.
Qed.

Lemma returns_process_all env enabled_monitors : forall total,
  returns (ForoactivoMonitor.process_all env enabled_monitors total).
Proof.
  induction enabled_monitors as [|m rest IH]; intros total; cbn.
  - apply returns_ret.
  - apply returns_bind; [apply returns_process_monitor|]. intros n. apply IH.
Qed.

(** [run] always reaches the end: it loads the store, processes every
    enabled monitor, writes the store as the last thing it does to the
    outside, and exits with code 0. *)
Lemma run_saves_last env monitors w :
  exists w' before ok,
    ForoactivoMonitor.run env monitors w = (Ok 0%Z, w')
    /\ w_trace w' = before ++ [EvSave ok].
Proof.
  unfold ForoactivoMonitor.run, RunMonad.try_except.
  unfold RunMonad.bind at 1. cbn [RunMonad.print].
  unfold RunMonad.bind at 1. unfold ForoactivoMonitor.load_state at 1.
  cbn [w_clock w_state w_file w_out w_trace fst snd].
  destruct (load_state_never_raises (w_file w)) as [state Hload].
  destruct (StateManager.load_state (w_file w)) as [o r]. cbn in Hload.
  subst r.
  unfold RunMonad.bind at 1. cbn [RunMonad.print].
  unfold RunMonad.bind at 1.
  match goal with
  | |- context [ForoactivoMonitor.process_all env ?l 0 ?w1] =>
      destruct (returns_process_all env l 0 w1) as [total Htotal];
      destruct (ForoactivoMonitor.process_all env l 0 w1) as [r w2]
  end.
  cbn in Htotal. subst r.
  unfold RunMonad.bind, ForoactivoMonitor.save_state, RunMonad.print,
    RunMonad.ret.
  destruct (StateManager.save_state (disk env (w_clock w2)) (w_state w2)
              (w_file w2)) as [[o' r'] f'] eqn:Esave.
  assert (Hr : exists ok, r' = Ok ok).
  { destruct (disk env (w_clock w2)); cbn in Esave;
      injection Esave as _ <- _; eauto. }
  destruct Hr as [ok ->].
  cbn [w_clock w_state w_file w_out w_trace fst snd].
  eexists _, _, ok. split; reflexivity.
Qed.

(** * Further properties of the cursor store *)

(** ** Detecting again after an update *)

Lemma py_in_map_PStr s ids :
  py_in s (map PStr ids) = existsb (String.eqb s) ids.
Proof.
  unfold py_in. induction ids as [|i ids IH]; [reflexivity|].
  cbn. now rewrite IH.
Qed.

(** X1. Once [update_forum_state] has stored the ids of a snapshot,
    [get_new_threads] reports of any later snapshot the threads whose id
    the stored snapshot did not have, and of the stored snapshot itself
    nothing. *)
Theorem get_new_threads_after_update now d forum_id snapshot later :
  exists d',
    outcome (update_forum_state now (PDict d) forum_id (map t_id snapshot))
    = Ok (PDict d')
    /\ outcome (get_new_threads (PDict d') forum_id later)
       = Ok (filter (fun t => negb (existsb (String.eqb (t_id t))
                                            (map t_id snapshot))) later)
    /\ outcome (get_new_threads (PDict d') forum_id snapshot) = Ok [].
Proof.
  eexists. rewrite update_forum_state_run. split; [reflexivity|].
  assert (Hnew : forall threads,
    outcome (get_new_threads
               (PDict (dict_set d forum_id
                  (PDict [("seen_thread_ids", PList (map PStr (map t_id snapshot)));
                          ("last_checked_at", PStr now);
                          ("total_threads",
                           PInt (Z.of_nat (length (map t_id snapshot))))])))
               forum_id threads)
    = Ok (filter (fun t => negb (existsb (String.eqb (t_id t))
                                         (map t_id snapshot))) threads)).
  { intros threads.
    rewrite get_new_threads_filter by apply forum_cursor_ok_after_update.
    rewrite stored_seen_after_update. f_equal. apply filter_ext.
    intros t. now rewrite py_in_map_PStr. }
  split; [apply Hnew|]. rewrite Hnew. f_equal.
  assert (Hall : forall ts,
            (forall t, In t ts -> In (t_id t) (map t_id snapshot)) ->
            filter (fun t => negb (existsb (String.eqb (t_id t))
                                           (map t_id snapshot))) ts = []).
  { induction ts as [|t ts IH]; intros Hin; [reflexivity|]. cbn.
    assert (Ht : existsb (String.eqb (t_id t)) (map t_id snapshot) = true).
    { apply existsb_exists. exists (t_id t).
      split; [apply Hin; now left | apply String.eqb_refl]. }
    rewrite Ht. cbn. apply IH. intros t' Ht'. apply Hin. now right. }
  apply Hall. intros t Ht. now apply in_map.
Qed.

Lemma get_new_posts_from_index state thread_id s all_posts k p :
  get_last_post_id state thread_id = Ok (PStr s) ->
  nth_error all_posts k = Some p ->
  p_id p = s ->
  (forall j q, (j < k)%nat -> nth_error all_posts j = Some q -> p_id q <> s) ->
  get_new_posts state thread_id all_posts
  = (match skipn (S k) all_posts with
     | _ :: _ => [LFoundNewPosts (length (skipn (S k) all_posts)) thread_id]
     | [] => [LNoNewPosts thread_id]
     end, Ok (skipn (S k) all_posts)).
Proof.
  intros Hstored Hk Hp Hbefore. unfold get_new_posts.
  destruct all_posts as [|a l] eqn:E; [now destruct k|]. rewrite <- E in *.
  rewrite Hstored, bind_lift_Ok.
  rewrite (find_last_post_index_found s all_posts 0%Z k p Hk Hp Hbefore).
  destruct (Z.eqb_spec (0 + Z.of_nat k) (-1)); [lia|].
  unfold py_slice_from.
  destruct (Z.ltb_spec (0 + Z.of_nat k + 1) 0); [lia|].
  replace (Z.to_nat (0 + Z.of_nat k + 1)) with (S k) by lia.
  destruct (skipn (S k) all_posts); reflexivity.
Qed.

(** X2. Once [update_thread_state] has stored the id of the last post of
    a snapshot, [get_new_posts] reports exactly the posts that follow
    that post in a later snapshot, provided no earlier post carries the
    same id; of the stored snapshot itself it reports nothing. *)
Theorem get_new_posts_after_update now d thread_id earlier latest total more :
  (forall p, In p earlier -> p_id p <> p_id latest) ->
  exists d',
    outcome (update_thread_state now (PDict d) thread_id (p_id latest) total)
    = Ok (PDict d')
    /\ outcome (get_new_posts (PDict d') thread_id (earlier ++ latest :: more))
       = Ok more
    /\ outcome (get_new_posts (PDict d') thread_id (earlier ++ [latest]))
       = Ok [].
Proof.
  intros Hfresh. eexists. rewrite update_thread_state_run.
  split; [reflexivity|].
  assert (Hstored :
    get_last_post_id
      (PDict (dict_set d thread_id
         (PDict [("last_post_id", PStr (p_id latest));
                 ("last_checked_at", PStr now);
                 ("total_posts_seen", PInt total)]))) thread_id
    = Ok (PStr (p_id latest))).
  { unfold get_last_post_id. cbn [py_get].
    now rewrite dict_get_set_same. }
  assert (Hafter : forall rest,
    outcome (get_new_posts
      (PDict (dict_set d thread_id
         (PDict [("last_post_id", PStr (p_id latest));
                 ("last_checked_at", PStr now);
                 ("total_posts_seen", PInt total)]))) thread_id
      (earlier ++ latest :: rest)) = Ok rest).
  { intros rest.
    rewrite (get_new_posts_from_index _ thread_id (p_id latest)
               (earlier ++ latest :: rest) (length earlier) latest Hstored).
    - cbn [outcome snd]. f_equal.
      replace (S (length earlier)) with (length (earlier ++ [latest]))
        by (rewrite length_app; cbn; lia).
      change (earlier ++ latest :: rest) with (earlier ++ [latest] ++ rest).
      rewrite app_assoc, skipn_app, skipn_all, Nat.sub_diag. reflexivity.
    - now rewrite nth_error_app2, Nat.sub_diag by lia.
    - reflexivity.
    - intros j q Hj Hq. rewrite nth_error_app1 in Hq by exact Hj.
      apply Hfresh. now apply nth_error_In in Hq. }
  split; [apply Hafter|]. apply (Hafter []).
Qed.

Lemma get_new_posts_after_update_witness :
  exists d',
    outcome (update_thread_state "now" (PDict []) "t7" "p2" 2) = Ok (PDict d')
    /\ outcome (get_new_posts (PDict d') "t7"
                  ([sample_post "p1"] ++ sample_post "p2"
                     :: [sample_post "p3"; sample_post "p4"]))
       = Ok [sample_post "p3"; sample_post "p4"].
Proof.
  destruct (get_new_posts_after_update "now" [] "t7" [sample_post "p1"]
              (sample_post "p2") 2 [sample_post "p3"; sample_post "p4"])
    as [d' [H1 [H2 _]]].
  - intros p [<-|[]]. discriminate.
  - exists d'. split; assumption.
Defined.

(** ** What [get_new_posts] can return *)

Lemma skipn_is_suffix {A} n (xs : list A) : is_suffix (skipn n xs) xs.
Proof. exists (firstn n xs). symmetry. apply firstn_skipn. Qed.

Lemma py_last_is_suffix {A} (xs : list A) x :
  py_last xs = Ok x -> is_suffix [x] xs.
Proof.
  unfold py_last. intros H. destruct (rev xs) as [|y ys] eqn:E; [discriminate|].
  injection H as ->. exists (rev ys).
  rewrite <- (rev_involutive xs), E. reflexivity.
Qed.

Lemma py_slice_from_is_suffix {A} (xs : list A) start :
  is_suffix (py_slice_from xs start) xs.
Proof. unfold py_slice_from. destruct (_ <? _)%Z; apply skipn_is_suffix. Qed.

Lemma find_last_post_index_unequal v posts : forall i,
  (forall p, In p posts -> py_eq_str (p_id p) v = false) ->
  find_last_post_index v i posts = (-1)%Z.
Proof.
  induction posts as [|q qs IH]; intros i Hno; cbn; [reflexivity|].
  rewrite (Hno q) by now left. apply IH. intros p Hp. apply Hno. now right.
Qed.

(** The result of [get_new_posts], by the stored value. *)
Lemma get_new_posts_cases state thread_id all_posts v :
  all_posts <> [] ->
  get_last_post_id state thread_id = Ok v ->
  exists latest,
    py_last all_posts = Ok latest
    /\ outcome (get_new_posts state thread_id all_posts)
       = Ok (match v with
             | PNone => [latest]
             | _ =>
                 if (find_last_post_index v 0 all_posts =? -1)%Z
                 then [latest]
                 else py_slice_from all_posts
                        (find_last_post_index v 0 all_posts + 1)
             end).
Proof.
  intros Hne Hv. destruct (py_last_nonempty all_posts Hne) as [x Hx].
  exists x. split; [exact Hx|]. unfold get_new_posts.
  destruct all_posts as [|p ps]; [contradiction|].
  rewrite Hv, bind_lift_Ok, Hx.
  destruct v; try reflexivity;
    (destruct (_ =? _)%Z; [reflexivity|]);
    match goal with
    | |- context [match ?l with _ => _ end] => destruct l
    end; reflexivity.
Qed.

(** X3. For a store whose entry for the thread is absent or a record,
    [get_new_posts] returns, and what it returns is a tail of
    [all_posts]: the posts reported are the last ones, in order and
    without a gap; it is at most one post when no post carries the
    stored id. *)
Theorem get_new_posts_is_tail d thread_id all_posts :
  thread_cursor_ok d thread_id ->
  exists new_posts,
    outcome (get_new_posts (PDict d) thread_id all_posts) = Ok new_posts
    /\ is_suffix new_posts all_posts
    /\ ((forall s, get_last_post_id (PDict d) thread_id = Ok (PStr s) ->
                   forall p, In p all_posts -> p_id p <> s) ->
        (length new_posts <= 1)%nat).
Proof.
  intros Hok.
  destruct all_posts as [|p0 ps] eqn:E.
  { exists []. repeat split; [now exists [] | cbn; lia]. }
  rewrite <- E. assert (Hne : all_posts <> []) by (subst; discriminate).
  clear E p0 ps.
  destruct (get_last_post_id_returns d thread_id Hok) as [v Hv].
  destruct (get_new_posts_cases _ thread_id all_posts v Hne Hv)
    as [x [Hx Hres]].
  pose proof (py_last_is_suffix _ _ Hx) as Hlast.
  eexists. split; [exact Hres|]. split.
  - destruct v; try exact Hlast;
      (destruct (_ =? _)%Z; [exact Hlast | apply py_slice_from_is_suffix]).
  - intros Habsent.
    assert (Hneq : forall p, In p all_posts -> py_eq_str (p_id p) v = false).
    { intros p Hp. destruct v; try reflexivity. cbn.
      apply String.eqb_neq. now apply (Habsent s Hv). }
    rewrite (find_last_post_index_unequal v all_posts 0%Z Hneq).
    destruct v; cbn; lia.
Qed.

Lemma get_new_posts_is_tail_witness :
  exists new_posts,
    outcome (get_new_posts (PDict [("t7", thread_cursor "p1" "now" 1)]) "t7"
               [sample_post "p1"; sample_post "p2"; sample_post "p3"])
    = Ok new_posts
    /\ is_suffix new_posts
         [sample_post "p1"; sample_post "p2"; sample_post "p3"].
Proof.
  destruct (get_new_posts_is_tail [("t7", thread_cursor "p1" "now" 1)] "t7"
              [sample_post "p1"; sample_post "p2"; sample_post "p3"])
    as [new_posts [H1 [H2 _]]]; [exact I|].
  exists new_posts. split; assumption.
Defined.

(** ** A store that is not what the code expects *)

(** X4. When the entry of the monitor is not a record, [get_new_posts]
    and [get_new_threads] raise [AttributeError] on a non-empty snapshot
    and print nothing; on an empty snapshot they return the empty list
    without looking at the store. *)
Theorem entry_not_a_record_raises d k v all_posts all_threads :
  dict_get d k = Some v ->
  (forall c, v <> PDict c) ->
  all_posts <> [] ->
  all_threads <> [] ->
  get_new_posts (PDict d) k all_posts = ([], Raise AttributeError)
  /\ get_new_threads (PDict d) k all_threads = ([], Raise AttributeError)
  /\ get_new_posts (PDict d) k [] = ([], Ok [])
  /\ get_new_threads (PDict d) k [] = ([], Ok []).
Proof.
  intros Hentry Hv Hposts Hthreads.
  assert (Hget : forall key default, py_get v key default = Raise AttributeError).
  { intros key default. destruct v; try reflexivity. now destruct (Hv kvs). }
  repeat split.
  - unfold get_new_posts, get_last_post_id. cbn [py_get]. rewrite Hentry, Hget.
    now destruct all_posts.
  - unfold get_new_threads. cbn [py_get]. rewrite Hentry, bind_lift_Ok, Hget.
    now destruct all_threads.
Qed.

Lemma entry_not_a_record_raises_witness :
  get_new_posts (PDict [("t7", PList [PStr "p1"])]) "t7" [sample_post "p1"]
  = ([], Raise AttributeError).
Proof.
  apply (entry_not_a_record_raises [("t7", PList [PStr "p1"])] "t7"
           (PList [PStr "p1"]) [sample_post "p1"] [sample_thread "t1"]);
    try reflexivity; discriminate.
Defined.

(** X5. The two kinds of cursor are told apart by their keys only.  Under
    an id whose entry is a ForumCursor, [get_new_posts] finds no
    [last_post_id] and behaves as on a first run; under an id whose entry
    is a ThreadCursor, [get_new_threads] finds no id list and reports
    every thread. *)
Theorem cursor_of_the_other_kind now d k ids last_post_id total
    earlier latest all_threads :
  outcome (get_new_posts (PDict (dict_set d k (forum_cursor ids now))) k
             (earlier ++ [latest])) = Ok [latest]
  /\ outcome (get_new_threads
                (PDict (dict_set d k (thread_cursor last_post_id now total)))
                k all_threads) = Ok all_threads.
Proof.
  split.
  - assert (Hnone : get_last_post_id
                       (PDict (dict_set d k (forum_cursor ids now))) k
                     = Ok PNone).
    { unfold get_last_post_id. cbn [py_get].
      now rewrite dict_get_set_same. }
    destruct (get_new_posts_cases
                (PDict (dict_set d k (forum_cursor ids now))) k
                (earlier ++ [latest]) PNone)
      as [x [Hx Hres]]; [now destruct earlier | exact Hnone |].
    rewrite py_last_app in Hx. injection Hx as <-. exact Hres.
  - rewrite get_new_threads_filter.
    + unfold stored_seen_thread_ids. rewrite dict_get_set_same. cbn.
      induction all_threads as [|t ts IH]; [reflexivity|]. cbn.
      now injection IH as ->.
    + unfold forum_cursor_ok. now rewrite dict_get_set_same.
Qed.

(** X6. [get_last_post_id] reads back what [update_thread_state] stored
    for the thread, is unchanged for every other id, and is [None] for
    an id that is absent or holds a ForumCursor. *)
Theorem get_last_post_id_after_update now d thread_id last_post_id total
    other ids :
  other <> thread_id ->
  get_last_post_id
    (PDict (dict_set d thread_id (thread_cursor last_post_id now total)))
    thread_id = Ok (PStr last_post_id)
  /\ get_last_post_id
       (PDict (dict_set d thread_id (thread_cursor last_post_id now total)))
       other = get_last_post_id (PDict d) other
  /\ get_last_post_id (PDict (dict_set d thread_id (forum_cursor ids now)))
       thread_id = Ok PNone
  /\ (dict_get d other = None -> get_last_post_id (PDict d) other = Ok PNone).
Proof.
  intros Hne. unfold get_last_post_id. cbn [py_get].
  rewrite !dict_get_set_same, (dict_get_set_other _ _ _ _ Hne).
  repeat split. now intros ->.
Qed.

Lemma get_last_post_id_after_update_witness :
  get_last_post_id
    (PDict (dict_set [("t1", thread_cursor "p4" "then" 4)] "t7"
              (thread_cursor "p9" "now" 9))) "t1" = Ok (PStr "p4").
Proof.
  refine (eq_trans
            (proj1 (proj2 (get_last_post_id_after_update "now"
                             [("t1", thread_cursor "p4" "then" 4)] "t7" "p9" 9
                             "t1" [] _))) _);
    [discriminate | reflexivity].
Defined.

(** ** The summary of the store *)

Lemma summary_of_record c :
  summary_of (PDict c)
  = Ok (PDict [("last_post",
                match dict_get c "last_post_id" with Some v => v | None => PNone end);
               ("last_checked",
                match dict_get c "last_checked_at" with Some v => v | None => PNone end);
               ("total_posts",
                match dict_get c "total_posts_seen" with Some v => v | None => PNone end)]).
Proof. reflexivity. Qed.

Lemma summary_of_other v :
  (forall c, v <> PDict c) -> summary_of v = Raise AttributeError.
Proof. intros H. destruct v; try reflexivity. now destruct (H kvs). Qed.

(** X7. [get_state_summary] counts the entries of the store and gives,
    for each key in the order of the store, the three fields it reads
    from the entry, [None] standing for a missing one (so a ForumCursor
    is summarised without a last post and without a count); it raises
    [AttributeError] as soon as one entry is not a record. *)
Theorem get_state_summary_spec d :
  (Forall (fun kv => exists c, snd kv = PDict c) d ->
   exists threads,
     get_state_summary (PDict d)
     = Ok (PDict [("total_threads", PInt (Z.of_nat (length d)));
                  ("threads", PDict threads)])
     /\ map fst threads = map fst d
     /\ forall k c, In (k, PDict c) d -> In (k, PDict [("last_post",
                match dict_get c "last_post_id" with Some v => v | None => PNone end);
               ("last_checked",
                match dict_get c "last_checked_at" with Some v => v | None => PNone end);
               ("total_posts",
                match dict_get c "total_posts_seen" with Some v => v | None => PNone end)])
               threads)
  /\ (Exists (fun kv => forall c, snd kv <> PDict c) d ->
      get_state_summary (PDict d) = Raise AttributeError).
Proof.
  split.
  - intros Hall.
    assert (H : exists threads,
              summaries d = Ok threads
              /\ map fst threads = map fst d
              /\ forall k c, In (k, PDict c) d ->
                   In (k, PDict [("last_post",
                match dict_get c "last_post_id" with Some v => v | None => PNone end);
               ("last_checked",
                match dict_get c "last_checked_at" with Some v => v | None => PNone end);
               ("total_posts",
                match dict_get c "total_posts_seen" with Some v => v | None => PNone end)])
                      threads).
    { induction Hall as [|[k v] d [c Hc] Hall IH].
      - exists []. repeat split. intros k c [].
      - destruct IH as [threads [Hs [Hk Hin]]]. cbn in Hc. subst v.
        eexists. cbn [summaries]. rewrite summary_of_record, Hs.
        split; [reflexivity|]. split; [cbn; now rewrite Hk|].
        intros k' c' [Heq | Hin'].
        + injection Heq as <- <-. now left.
        + right. now apply Hin. }
    destruct H as [threads [Hs [Hk Hin]]]. exists threads.
    unfold get_state_summary. cbn [py_len]. now rewrite Hs.
  - intros Hex. unfold get_state_summary. cbn [py_len].
    assert (H : summaries d = Raise AttributeError).
    { induction Hex as [[k v] d Hv | [k v] d Hex IH]; cbn [summaries].
      - cbn in Hv. now rewrite (summary_of_other v Hv).
      - destruct (summary_of v) as [s|e] eqn:Es.
        + now rewrite IH.
        + destruct v; try (cbn in Es; now injection Es as <-).
          discriminate Es. }
    now rewrite H.
Qed.

Lemma get_state_summary_spec_witness :
  exists threads,
    get_state_summary
      (PDict [("t7", thread_cursor "p9" "now" 9);
              ("f13", forum_cursor ["t1"] "now")])
    = Ok (PDict [("total_threads", PInt 2); ("threads", PDict threads)])
    /\ map fst threads = ["t7"; "f13"].
Proof.
  destruct (proj1 (get_state_summary_spec
                     [("t7", thread_cursor "p9" "now" 9);
                      ("f13", forum_cursor ["t1"] "now")]))
    as [threads [H1 [H2 _]]].
  - repeat constructor; eexists; reflexivity.
  - exists threads. split; assumption.
Defined.

(** ** The stores the program builds *)

Lemma existsb_eqb_In k (ks : list string) :
  existsb (String.eqb k) ks = true <-> In k ks.
Proof.
  rewrite existsb_exists. split.
  - intros [x [Hx E]]. apply String.eqb_eq in E. now subst.
  - intros H. exists k. split; [exact H | apply String.eqb_refl].
Qed.

Lemma dict_set_keys d k v :
  map fst (dict_set d k v)
  = if existsb (String.eqb k) (map fst d) then map fst d
    else map fst d ++ [k].
Proof.
  induction d as [|[k' v'] d IH]; cbn; [reflexivity|].
  destruct (String.eqb k k') eqn:E; cbn; [reflexivity|].
  rewrite IH. now destruct (existsb _ _).
Qed.

Lemma distinct_snoc ks k :
  distinct ks = true -> existsb (String.eqb k) ks = false ->
  distinct (ks ++ [k]) = true.
Proof.
  induction ks as [|a ks IH]; cbn; [reflexivity|].
  intros Hd Hk. apply andb_true_iff in Hd as [Ha Hd].
  apply orb_false_iff in Hk as [Hka Hk].
  rewrite (IH Hd Hk), andb_true_r, existsb_app. cbn.
  apply negb_true_iff in Ha. rewrite Ha, String.eqb_sym, Hka. reflexivity.
Qed.

Lemma dict_set_values (P : pyval -> bool) d k v :
  forallb (fun kv => P (snd kv)) d = true -> P v = true ->
  forallb (fun kv => P (snd kv)) (dict_set d k v) = true.
Proof.
  intros Hd Hv. induction d as [|[k' v'] d IH]; cbn in *.
  - now rewrite Hv.
  - apply andb_true_iff in Hd as [Hv' Hd].
    destruct (String.eqb k k'); cbn; [now rewrite Hv, Hd|].
    now rewrite Hv', IH.
Qed.

Lemma json_shaped_dict_set d k v :
  json_shaped (PDict d) = true -> json_shaped v = true ->
  json_shaped (PDict (dict_set d k v)) = true.
Proof.
  cbn [json_shaped]. intros Hd Hv. apply andb_true_iff in Hd as [Hk Hvs].
  apply andb_true_iff. split.
  - rewrite dict_set_keys. destruct (existsb _ _) eqn:E; [exact Hk|].
    now apply distinct_snoc.
  - now apply dict_set_values.
Qed.

Lemma json_shaped_forum_cursor ids now :
  json_shaped (forum_cursor ids now) = true.
Proof.
  cbn. rewrite !andb_true_r.
  induction ids as [|i ids IH]; [reflexivity | exact IH].
Qed.

Lemma built_json_shaped d : built d -> json_shaped (PDict d) = true.
Proof.
  induction 1 as [|d now id lp n _ IH|d now id ids _ IH]; [reflexivity| |].
  - now apply json_shaped_dict_set.
  - apply json_shaped_dict_set; [exact IH | apply json_shaped_forum_cursor].
Qed.

(** X8. Every store the program builds from the empty store by cursor
    updates comes back unchanged from the state file: what [save_state]
    writes, [load_state] reads as the same mapping. *)
Theorem built_store_round_trip d f :
  built d ->
  fst (save_state Written (PDict d) f) = ([LStateSaved], Ok true)
  /\ load_state (snd (save_state Written (PDict d) f))
     = ([LLoadedState (length d)], Ok (PDict d)).
Proof.
  intros Hd. split; [reflexivity|]. cbn [save_state snd].
  apply load_state_contents_dict, built_json_shaped, Hd.
Qed.

Lemma built_store_round_trip_witness :
  load_state
    (snd (save_state Written
            (PDict (dict_set (dict_set [] "t7" (thread_cursor "p9" "now" 9))
                             "f13" (forum_cursor ["t1"; "t2"] "now")))
            Missing))
  = ([LLoadedState 2],
     Ok (PDict (dict_set (dict_set [] "t7" (thread_cursor "p9" "now" 9))
                         "f13" (forum_cursor ["t1"; "t2"] "now")))).
Proof.
  apply (proj2 (built_store_round_trip
                  (dict_set (dict_set [] "t7" (thread_cursor "p9" "now" 9))
                            "f13" (forum_cursor ["t1"; "t2"] "now"))
                  Missing
                  (@built_forum _ "now" "f13" ["t1"; "t2"]
                     (@built_thread [] "now" "t7" "p9" 9 built_empty)))).
Defined.

Lemma built_entries_are_records d :
  built d -> forall k v, dict_get d k = Some v -> exists c, v = PDict c.
Proof.
  induction 1 as [|d now id lp n _ IH|d now id ids _ IH]; intros k v Hk.
  - discriminate.
  - destruct (String.eqb_spec k id) as [->|Hne].
    + rewrite dict_get_set_same in Hk. injection Hk as <-. eauto.
    + rewrite dict_get_set_other in Hk by exact Hne. eauto.
  - destruct (String.eqb_spec k id) as [->|Hne].
    + rewrite dict_get_set_same in Hk. injection Hk as <-.
      unfold forum_cursor. eauto.
    + rewrite dict_get_set_other in Hk by exact Hne. eauto.
Qed.

Lemma built_forum_cursor_ok d : built d -> forall k, forum_cursor_ok d k.
Proof.
  induction 1 as [|d now id lp n _ IH|d now id ids _ IH]; intros k;
    unfold forum_cursor_ok in *.
  - exact I.
  - destruct (String.eqb_spec k id) as [->|Hne].
    + now rewrite dict_get_set_same.
    + rewrite dict_get_set_other by exact Hne. apply IH.
  - destruct (String.eqb_spec k id) as [->|Hne].
    + rewrite dict_get_set_same. cbn.
      apply forallb_forall. intros x Hx. apply in_map_iff in Hx.
      now destruct Hx as [s [<- _]].
    + rewrite dict_get_set_other by exact Hne. apply IH.
Qed.

(** X9. On a store the program has built, the detectors never raise:
    whatever the monitor id and the snapshot, [get_new_threads] and
    [get_new_posts] return a list. *)
Theorem detectors_return_on_built_store d k all_threads all_posts :
  built d ->
  (exists new_threads,
     outcome (get_new_threads (PDict d) k all_threads) = Ok new_threads)
  /\ (exists new_posts,
        outcome (get_new_posts (PDict d) k all_posts) = Ok new_posts).
Proof.
  intros Hd. split.
  - eexists. apply get_new_threads_filter, built_forum_cursor_ok, Hd.
  - destruct (get_new_posts_returns d k all_posts) as [o [new_posts E]].
    + unfold thread_cursor_ok. destruct (dict_get d k) as [v|] eqn:Ek; [|exact I].
      destruct (built_entries_are_records d Hd k v Ek) as [c ->]. exact I.
    + exists new_posts. now rewrite E.
Qed.

Lemma detectors_return_on_built_store_witness :
  exists new_posts,
    outcome (get_new_posts
               (PDict (dict_set [] "f13" (forum_cursor ["t1"] "now"))) "f13"
               [sample_post "p1"]) = Ok new_posts.
Proof.
  apply (proj2 (detectors_return_on_built_store
                  (dict_set [] "f13" (forum_cursor ["t1"] "now")) "f13"
                  [] [sample_post "p1"]
                  (@built_forum [] "now" "f13" ["t1"] built_empty))).
Defined.

(** ** Loading, whatever the file holds *)

(** X10. What [load_state] returns, by what the file holds.  It never
    raises.  A missing file gives the empty mapping; so does a file that
    cannot be read and one that is not JSON.  A JSON document of which
    [len] can be taken, a string, an array or an object, is returned as
    parsed, with its length printed; for a document that is [null], a
    boolean or a number [len] raises [TypeError], which is printed as an
    unexpected error, and the empty mapping is returned. *)
Theorem load_state_empty_or_document :
  load_state Missing = ([LStateFileNotFound], Ok (PDict []))
  /\ (forall e, outcome (load_state (Unreadable e)) = Ok (PDict []))
  /\ (forall data v n,
        loads data = Ok v -> py_len v = Ok n ->
        load_state (Contents data) = ([LLoadedState n], Ok v))
  /\ (forall data v,
        loads data = Ok v -> py_len v = Raise TypeError ->
        load_state (Contents data)
        = ([LUnexpectedLoadError TypeError], Ok (PDict [])))
  /\ (forall data,
        loads data = Raise JSONDecodeError ->
        load_state (Contents data)
        = ([LErrorReadingState JSONDecodeError; LStartingEmpty],
           Ok (PDict [])))
  /\ (forall f, exists state, outcome (load_state f) = Ok state).
Proof.
  split; [reflexivity|].
  split.
  { intros e. unfold load_state. rewrite bind_lift_Raise. now destruct e. }
  split.
  { intros data v n El En. unfold load_state.
    now rewrite bind_lift_Ok, El, bind_lift_Ok, En, bind_lift_Ok. }
  split.
  { intros data v El En. unfold load_state.
    now rewrite bind_lift_Ok, El, bind_lift_Ok, En, bind_lift_Raise. }
  split.
  { intros data El. unfold load_state.
    now rewrite bind_lift_Ok, El, bind_lift_Raise. }
  apply load_state_never_raises.
Qed.

Lemma load_state_empty_or_document_witness :
  load_state (Contents (Json.dumps (PList [PStr "t1"])))
  = ([LLoadedState 1], Ok (PList [PStr "t1"])).
Proof.
  apply (proj1 (proj2 (proj2 load_state_empty_or_document))).
  - vm_compute. reflexivity.
  - reflexivity.
Defined.

(** * Further properties of the notifier *)

(** ** The embed of a post *)

Lemma str_len_append s t : str_len (s ++ t)%string = (str_len s + str_len t)%nat.
Proof.
  unfold str_len. induction s as [|c s IH]; [reflexivity|]. cbn.
  destruct (is_continuation c); cbn; now rewrite IH.
Qed.

Lemma take_chars_len n cs :
  (length (filter (fun c => negb (is_continuation c)) (take_chars n cs)) <= n)%nat.
Proof.
  revert n. induction cs as [|c cs IH]; intros n; cbn; [lia|].
  destruct (is_continuation c) eqn:E; cbn.
  - rewrite E. cbn. apply IH.
  - destruct n as [|n]; cbn; [lia|]. rewrite E. cbn. specialize (IH n). lia.
Qed.

Lemma str_slice_to_len s n : (str_len (str_slice_to s n) <= n)%nat.
Proof.
  unfold str_len, str_slice_to. rewrite list_ascii_of_string_of_list_ascii.
  apply take_chars_len.
Qed.

Lemma string_of_list_ascii_append a b :
  string_of_list_ascii (a ++ b)
  = (string_of_list_ascii a ++ string_of_list_ascii b)%string.
Proof. induction a as [|c a IH]; [reflexivity|]. cbn. now rewrite IH. Qed.

Lemma take_chars_first n cs :
  exists rest,
    cs = take_chars n cs ++ rest
    /\ match rest with
       | c :: _ => is_continuation c = false
       | [] => True
       end
    /\ ((n < length (filter (fun c => negb (is_continuation c)) cs))%nat ->
        length (filter (fun c => negb (is_continuation c)) (take_chars n cs))
        = n).
Proof.
  revert n. induction cs as [|c cs IH]; intros n.
  - exists []. cbn. repeat split. lia.
  - cbn [take_chars filter]. destruct (is_continuation c) eqn:E; cbn [negb].
    + destruct (IH n) as [rest [Hcs [Hrest Hlen]]].
      exists rest. split; [cbn; now rewrite <- Hcs|]. split; [exact Hrest|].
      cbn [filter]. rewrite E. exact Hlen.
    + destruct n as [|n].
      * exists (c :: cs). repeat split. exact E.
      * destruct (IH n) as [rest [Hcs [Hrest Hlen]]].
        exists rest. split; [cbn; now rewrite <- Hcs|]. split; [exact Hrest|].
        cbn [filter length]. rewrite E. cbn [negb length]. intros H.
        rewrite Hlen; [reflexivity | lia].
Qed.

(** X11. The description of the embed of a post.  A content of more than
    200 characters becomes its first 200 characters followed by three
    dots; a content of at most 200 characters is passed on as it is; an
    empty content is replaced by a placeholder.  So the description is
    never empty and has at most 203 characters.  The embed has a [Posted]
    field exactly when the post has a timestamp. *)
Theorem format_embed_description post thread_name :
  exists description fields,
    DiscordNotifier._format_embed post thread_name
    = PDict [("title", PStr ("New Reply in " ++ thread_name)%string);
             ("description", PStr description);
             ("color", PInt 5793266);
             ("url", PStr (p_url post));
             ("fields", PList fields);
             ("footer", DiscordNotifier.footer)]
    /\ ((200 < str_len (p_content post))%nat ->
        exists first rest,
          p_content post = (first ++ rest)%string
          /\ str_len first = 200%nat
          /\ match rest with
             | String c _ => is_continuation c = false
             | EmptyString => True
             end
          /\ description = (first ++ "...")%string)
    /\ ((str_len (p_content post) <= 200)%nat ->
        p_content post <> EmptyString -> description = p_content post)
    /\ (p_content post = EmptyString ->
        description = "*No content preview available*")
    /\ description <> EmptyString
    /\ (str_len description <= 203)%nat
    /\ fields
       = DiscordNotifier.field "Author" (p_author post)
         :: (if String.eqb (p_timestamp post) EmptyString then []
             else [DiscordNotifier.field "Posted" (p_timestamp post)]).
Proof.
  unfold DiscordNotifier._format_embed. eexists _, _.
  split; [reflexivity|].
  destruct (Nat.ltb_spec 200 (str_len (p_content post))) as [Hlong|Hshort].
  - assert (Hne : (str_slice_to (p_content post) 200 ++ "...")%string
                  <> EmptyString).
    { intros E. apply (f_equal str_len) in E.
      rewrite str_len_append in E. cbn in E. lia. }
    apply String.eqb_neq in Hne. rewrite Hne. cbn [negb].
    split.
    { intros _.
      destruct (take_chars_first 200 (list_ascii_of_string (p_content post)))
        as [rest [Hcs [Hrest Hlen]]].
      exists (str_slice_to (p_content post) 200), (string_of_list_ascii rest).
      split.
      - unfold str_slice_to. rewrite <- string_of_list_ascii_append, <- Hcs.
        now rewrite string_of_list_ascii_of_string.
      - split.
        + unfold str_len, str_slice_to.
          rewrite list_ascii_of_string_of_list_ascii. now apply Hlen.
        + split; [|reflexivity]. now destruct rest. }
    split; [intros; lia|].
    split.
    { intros E. rewrite E in Hlong. cbn in Hlong. lia. }
    split; [now apply String.eqb_neq|]. split.
    + rewrite str_len_append.
      pose proof (str_slice_to_len (p_content post) 200).
      change (str_len "...") with 3%nat. lia.
    + now destruct (String.eqb (p_timestamp post) _).
  - split; [intros; lia|].
    destruct (String.eqb_spec (p_content post) EmptyString) as [E|Hne];
      cbn [negb].
    + split; [intros _ H; now destruct H|].
      split; [reflexivity|].
      split; [discriminate|]. split; [cbn; lia|].
      now destruct (String.eqb (p_timestamp post) _).
    + split; [reflexivity|]. split; [intros E; now destruct Hne|].
      split; [exact Hne|]. split; [lia|].
      now destruct (String.eqb (p_timestamp post) _).
Qed.

(** ** One request, and its retry *)

(** X12. [send_error_notification] never raises, whatever the webhook
    does: it posts the error embed once and nothing else, leaves the
    cursor store as it is, and returns whether the answer was a 204. *)
Theorem send_error_notification_posts_once env url msg name w :
  exists ok,
    fst (DiscordNotifier.send_error_notification env url msg name w) = Ok ok
    /\ events_of (DiscordNotifier.send_error_notification env url msg name) w
       = [EvPost url (ErrorEmbed msg name)]
    /\ w_state (snd (DiscordNotifier.send_error_notification env url msg name w))
       = w_state w
    /\ (ok = true <->
        exists r,
          requests_post env (w_clock w) url (ErrorEmbed msg name)
          = Response 204 r).
Proof.
  destruct (send_error_notification_run env url msg name w)
    as [ok [out [E Hok]]].
  exists ok. split; [now rewrite E|].
  split; [apply events_of_trace; now rewrite E|].
  split; [now rewrite E | exact Hok].
Qed.

Lemma time_sleep_run env seconds w :
  (sleepable env seconds
   /\ DiscordNotifier.time_sleep env seconds w
      = (Ok tt, mkWorld (w_state w) (w_file w) (w_out w)
                        (w_trace w ++ [EvSleep seconds]) (w_clock w)))
  \/ (~ sleepable env seconds
      /\ exists e, DiscordNotifier.time_sleep env seconds w = (Raise e, w)).
Proof.
  unfold DiscordNotifier.time_sleep, sleepable, RunMonad.emit, RunMonad.raise.
  destruct (sleep_outcome env seconds) as [[]|e].
  - left. split; reflexivity.
  - right. split; [discriminate | now exists e].
Qed.

Ltac world_facts :=
  cbn [fst snd w_clock w_state w_file w_out w_trace filter is_post length];
  rewrite <- ?app_assoc; cbn [app];
  repeat match goal with
    | |- _ = _ /\ _ => split; [first [reflexivity | lia]|]
    end.

Lemma send_run env url body sent w :
  exists r evs,
    fst (DiscordNotifier.send env url body sent w) = r
    /\ w_state (snd (DiscordNotifier.send env url body sent w)) = w_state w
    /\ w_file (snd (DiscordNotifier.send env url body sent w)) = w_file w
    /\ w_trace (snd (DiscordNotifier.send env url body sent w))
       = w_trace w ++ evs
    /\ w_clock (snd (DiscordNotifier.send env url body sent w))
       = (w_clock w + length (filter is_post evs))%nat
    /\ (evs = [EvPost url body]
        \/ exists seconds,
             sleepable env seconds
             /\ requests_post env (w_clock w) url body
                = Response 429 (Ok seconds)
             /\ evs = [EvPost url body; EvSleep seconds; EvPost url body])
    /\ (r = Ok true <->
        (exists a, requests_post env (w_clock w) url body = Response 204 a)
        \/ (exists seconds a,
              requests_post env (w_clock w) url body
              = Response 429 (Ok seconds)
              /\ sleepable env seconds
              /\ requests_post env (S (w_clock w)) url body = Response 204 a))
    /\ (forall e, r = Raise e -> e <> RequestException).
Proof.
  unfold DiscordNotifier.send, DiscordNotifier.post, RunMonad.try_except,
    RunMonad.bind, RunMonad.tick, RunMonad.emit, RunMonad.ret,
    RunMonad.raise, RunMonad.print, RunMonad.lift.
  cbn [w_clock w_state w_file w_out w_trace fst snd].
  destruct (requests_post env (w_clock w) url body) as [status retry|e] eqn:E1.
  - destruct (Z.eqb_spec status 204) as [->|H204].
    { eexists _, [EvPost url body]. world_facts. split; [now left|].
      split; [|discriminate]. split; [intros _; left; eauto | reflexivity]. }
    destruct (Z.eqb_spec status 429) as [->|H429].
    2:{ eexists _, [EvPost url body]. world_facts. split; [now left|].
        split; [|discriminate]. split; [discriminate|].
        intros [[a [= -> _]]|[seconds [a [[= -> _] _]]]]; contradiction. }
    destruct retry as [seconds|e].
    2:{ destruct e;
          (eexists _, [EvPost url body]; world_facts; split; [now left|];
           split; [|intros e' [= <-]; discriminate];
           split; [discriminate|];
           intros [[a [=]]|[seconds [a [[=] _]]]]). }
    cbn [w_clock w_state w_file w_out w_trace fst snd].
    match goal with
    | |- context [DiscordNotifier.time_sleep env seconds ?w1] =>
        destruct (time_sleep_run env seconds w1) as [[Hs ->]|[Hs [e ->]]]
    end; cbn [w_clock w_state w_file w_out w_trace fst snd].
    2:{ destruct e;
          (eexists _, [EvPost url body]; world_facts; split; [now left|];
           split; [|intros e' [= <-]; discriminate];
           split; [discriminate|];
           intros [[a [=]]|[s [a [[= <-] [Hs' _]]]]]; contradiction). }
    destruct (requests_post env (S (w_clock w)) url body)
      as [status2 retry2|e2] eqn:E2.
    + eexists _, [EvPost url body; EvSleep seconds; EvPost url body].
      world_facts. split; [right; eauto|].
      split; [|discriminate]. split.
      * intros [= H]. apply Z.eqb_eq in H. subst. right. eauto.
      * intros [[a [=]]|[s [a [_ [_ [= -> _]]]]]]. reflexivity.
    + destruct e2;
        (eexists _, [EvPost url body; EvSleep seconds; EvPost url body];
         world_facts; split; [right; eauto|];
         split; [|intros e' [= <-]; discriminate];
         split; [discriminate|];
         intros [[a [=]]|[s [a [_ [_ [=]]]]]]).
  - destruct e;
      (eexists _, [EvPost url body]; world_facts; split; [now left|];
       split; [|intros e' [= <-]; discriminate];
       split; [discriminate|];
       intros [[a [=]]|[seconds [a [[=] _]]]]).
Qed.

Lemma send_delay_refused env url body sent w seconds e :
  requests_post env (w_clock w) url body = Response 429 (Ok seconds) ->
  sleep_outcome env seconds = Raise e ->
  e <> RequestException ->
  DiscordNotifier.send env url body sent w
  = (Raise e,
     mkWorld (w_state w) (w_file w)
             (w_out w ++ [LMonitor "Discord rate limit hit, waiting "])
             (w_trace w ++ [EvPost url body]) (S (w_clock w))).
Proof.
  intros E Hs He.
  unfold DiscordNotifier.send, DiscordNotifier.post, RunMonad.try_except,
    RunMonad.bind, RunMonad.tick, RunMonad.emit, RunMonad.ret,
    RunMonad.raise, RunMonad.print, RunMonad.lift,
    DiscordNotifier.time_sleep.
  cbn [w_clock w_state w_file w_out w_trace fst snd]. rewrite E.
  cbn [Z.eqb Pos.eqb w_clock w_state w_file w_out w_trace fst snd].
  rewrite Hs. unfold RunMonad.raise.
  destruct e; try reflexivity. contradiction.
Qed.

(** X13. One notification succeeds exactly when the webhook answers 204,
    or answers 429 with a delay [time.sleep] accepts and then answers the
    one retry with 204.  The request is made once, or twice around that
    delay; when [time.sleep] refuses the delay, as it does a negative
    one, its exception leaves the method after the one request.  The
    cursor store is not touched, and [RequestException] never leaves the
    method. *)
Theorem send_succeeds_exactly_when env url body sent w :
  (fst (DiscordNotifier.send env url body sent w) = Ok true <->
   (exists a, requests_post env (w_clock w) url body = Response 204 a)
   \/ (exists seconds a,
         requests_post env (w_clock w) url body = Response 429 (Ok seconds)
         /\ sleepable env seconds
         /\ requests_post env (S (w_clock w)) url body = Response 204 a))
  /\ (events_of (DiscordNotifier.send env url body sent) w = [EvPost url body]
      \/ exists seconds,
           sleepable env seconds
           /\ requests_post env (w_clock w) url body
              = Response 429 (Ok seconds)
           /\ events_of (DiscordNotifier.send env url body sent) w
              = [EvPost url body; EvSleep seconds; EvPost url body])
  /\ (forall seconds e,
        requests_post env (w_clock w) url body = Response 429 (Ok seconds) ->
        sleep_outcome env seconds = Raise e ->
        e <> RequestException ->
        fst (DiscordNotifier.send env url body sent w) = Raise e
        /\ events_of (DiscordNotifier.send env url body sent) w
           = [EvPost url body])
  /\ (forall z,
        (- max_seconds <= z < 0)%Z ->
        sleep_outcome env (PInt z) = Raise ValueError)
  /\ sleep_outcome env (PFloat "-1.5") = Raise ValueError
  /\ w_state (snd (DiscordNotifier.send env url body sent w)) = w_state w
  /\ (forall e, fst (DiscordNotifier.send env url body sent w) = Raise e ->
                e <> RequestException).
Proof.
  destruct (send_run env url body sent w)
    as [r [evs [Hr [Hstate [_ [Htrace [_ [Hevs [Hok Hraise]]]]]]]]].
  apply events_of_trace in Htrace. rewrite Hr, Htrace.
  split; [exact Hok|].
  split.
  { destruct Hevs as [->|[seconds [Hs [E ->]]]]; [now left | right; eauto]. }
  split.
  { intros seconds e E Hs He. rewrite <- Hr, <- Htrace.
    split; [now rewrite (send_delay_refused _ _ _ _ _ _ _ E Hs He)|].
    apply events_of_trace.
    now rewrite (send_delay_refused _ _ _ _ _ _ _ E Hs He). }
  split.
  { intros z Hz. unfold sleep_outcome, sleep_verdict.
    destruct (Z.ltb_spec z (- max_seconds)); [lia|].
    destruct (Z.ltb_spec max_seconds z); [unfold max_seconds in *; lia|].
    cbn [orb]. destruct (Z.ltb_spec z 0); [reflexivity | lia]. }
  split; [reflexivity|].
  split; [exact Hstate | exact Hraise].
Qed.

Lemma send_succeeds_exactly_when_witness :
  fst (DiscordNotifier.send (rate_limiting_env (Ok (PFloat "-1.5")))
         "https://discord.test/hook" (PostEmbed (sample_post "p2") "Charla")
         "Discord notification sent for post " sample_world)
  = Raise ValueError.
Proof.
  refine (proj1 (proj1 (proj2 (proj2
            (send_succeeds_exactly_when (rate_limiting_env (Ok (PFloat "-1.5")))
               "https://discord.test/hook"
               (PostEmbed (sample_post "p2") "Charla")
               "Discord notification sent for post " sample_world)))
            (PFloat "-1.5") ValueError eq_refl eq_refl _)).
  discriminate.
Defined.

(** ** A batch *)

Lemma send_each_run env url {A} (mk : A -> payload) sent total :
  forall items i c w,
    exists evs,
      w_trace (snd (DiscordNotifier.send_each env
                      (fun x => DiscordNotifier.send env url (mk x) sent)
                      total i items c w))
      = w_trace w ++ evs
      /\ (length (filter is_post evs) <= 2 * length items)%nat
      /\ forall count,
           fst (DiscordNotifier.send_each env
                  (fun x => DiscordNotifier.send env url (mk x) sent)
                  total i items c w) = Ok count ->
           (c <= count <= c + length items)%nat
           /\ (length items <= length (filter is_post evs))%nat.
Proof.
  induction items as [|x rest IH]; intros i c w.
  - exists []. cbn. rewrite app_nil_r. split; [reflexivity|].
    split; [lia|]. intros count [= <-]. lia.
  - cbn [DiscordNotifier.send_each]. rewrite run_bind_eq.
    destruct (send_run env url (mk x) sent w)
      as [r [evs1 [Hr [_ [_ [Htrace [_ [Hevs _]]]]]]]].
    assert (Hposts : (1 <= length (filter is_post evs1) <= 2)%nat).
    { destruct Hevs as [->|[seconds [_ [_ ->]]]]; cbn; lia. }
    destruct (DiscordNotifier.send env url (mk x) sent w) as [r1 w1].
    cbn [fst snd] in *. subst r1. destruct r as [ok|e].
    2:{ exists evs1. cbn [fst snd length]. split; [exact Htrace|].
        split; [lia | discriminate]. }
    rewrite run_bind_eq.
    set (pause := (_ && _)%bool).
    assert (Hpause : exists w2 evs2,
               (if pause
                then RunMonad.bind (RunMonad.print "Sent ")
                       (fun _ => DiscordNotifier.time_sleep env (PInt 2))
                else RunMonad.ret tt) w1 = (Ok tt, w2)
               /\ w_trace w2 = w_trace w1 ++ evs2
               /\ filter is_post evs2 = []).
    { destruct pause.
      - eexists _, [EvSleep (PInt 2)]. split; [reflexivity|].
        split; reflexivity.
      - exists w1, []. split; [reflexivity|]. rewrite app_nil_r.
        split; reflexivity. }
    destruct Hpause as [w2 [evs2 [-> [Htrace2 Hnone]]]].
    destruct (IH (i + 1)%nat (if ok then S c else c) w2)
      as [evs3 [Htrace3 [Hbound Hcount]]].
    exists (evs1 ++ evs2 ++ evs3).
    rewrite Htrace3, Htrace2, Htrace, <- !app_assoc.
    split; [reflexivity|].
    rewrite !filter_app, !length_app, Hnone. cbn [length].
    split; [lia|]. intros count Hc. specialize (Hcount count Hc).
    destruct ok; lia.
Qed.

Lemma send_batch_run env url {A} (mk : A -> payload) sent items w :
  exists evs,
    w_trace (snd (DiscordNotifier.send_batch env
                    (fun x => DiscordNotifier.send env url (mk x) sent)
                    items w))
    = w_trace w ++ evs
    /\ (length (filter is_post evs) <= 2 * length items)%nat
    /\ forall count,
         fst (DiscordNotifier.send_batch env
                (fun x => DiscordNotifier.send env url (mk x) sent)
                items w) = Ok count ->
         (count <= length items)%nat
         /\ (length items <= length (filter is_post evs))%nat.
Proof.
  unfold DiscordNotifier.send_batch. destruct items as [|x rest].
  - exists []. cbn. rewrite app_nil_r. split; [reflexivity|]. split; [lia|].
    intros count [= <-]. lia.
  - destruct (send_each_run env url mk sent (length (x :: rest)) (x :: rest)
                0%nat 0%nat w) as [evs [Htrace [Hbound Hcount]]].
    exists evs. unfold RunMonad.bind.
    destruct (DiscordNotifier.send_each _ _ _ _ _ _ w) as [[count|e] w1];
      cbn [fst snd RunMonad.print RunMonad.ret w_trace] in *.
    + split; [exact Htrace|]. split; [exact Hbound|].
      intros count' [= <-]. specialize (Hcount count eq_refl). lia.
    + split; [exact Htrace|]. split; [exact Hbound | discriminate].
Qed.

(** X14. A batch of [n] posts or threads makes at most [2 n] requests,
    whatever the webhook answers and even when the batch is cut short by
    an exception; when it returns, it has made at least one request for
    each item and the count it returns is at most [n]. *)
Theorem batch_requests_bounded env url name posts threads w :
  (length (filter is_post
             (events_of (DiscordNotifier.send_batch_notifications
                           env url posts name) w))
   <= 2 * length posts)%nat
  /\ (length (filter is_post
                (events_of (DiscordNotifier.send_batch_thread_notifications
                              env url threads name) w))
      <= 2 * length threads)%nat
  /\ (forall count,
        fst (DiscordNotifier.send_batch_notifications env url posts name w)
        = Ok count ->
        (count <= length posts
         <= length (filter is_post
                      (events_of (DiscordNotifier.send_batch_notifications
                                    env url posts name) w)))%nat)
  /\ (forall count,
        fst (DiscordNotifier.send_batch_thread_notifications
               env url threads name w) = Ok count ->
        (count <= length threads
         <= length (filter is_post
                      (events_of
                         (DiscordNotifier.send_batch_thread_notifications
                            env url threads name) w)))%nat).
Proof.
  unfold DiscordNotifier.send_batch_notifications,
    DiscordNotifier.send_batch_thread_notifications,
    DiscordNotifier.send_notification,
    DiscordNotifier.send_thread_notification.
  destruct (send_batch_run env url (fun p => PostEmbed p name)
              "Discord notification sent for post " posts w)
    as [evs [Htrace [Hbound Hcount]]].
  destruct (send_batch_run env url (fun t => ThreadEmbed t name)
              "Discord notification sent for new thread " threads w)
    as [evs' [Htrace' [Hbound' Hcount']]].
  apply events_of_trace in Htrace, Htrace'. rewrite Htrace, Htrace'.
  split; [exact Hbound|]. split; [exact Hbound'|].
  split; [exact Hcount | exact Hcount'].
Qed.

(** ** The pauses of a batch *)

Lemma send_accepted env url body sent w :
  webhook_accepts env ->
  DiscordNotifier.send env url body sent w
  = (Ok true,
     mkWorld (w_state w) (w_file w) (w_out w ++ [LMonitor sent])
             (w_trace w ++ [EvPost url body]) (S (w_clock w))).
Proof.
  intros Hweb. destruct (Hweb (w_clock w) url body) as [r E].
  unfold DiscordNotifier.send, DiscordNotifier.post, RunMonad.try_except,
    RunMonad.bind, RunMonad.tick, RunMonad.emit, RunMonad.ret,
    RunMonad.print.
  cbn [w_clock w_state w_file w_out w_trace fst snd]. rewrite E.
  reflexivity.
Qed.

Lemma quarter_step i :
  (((i + 1) mod 4 =? 0) = true -> (i + 1) / 4 = S (i / 4))%nat
  /\ (((i + 1) mod 4 =? 0) = false -> (i + 1) / 4 = i / 4)%nat.
Proof.
  pose proof (Nat.div_mod_eq i 4) as Hi.
  pose proof (Nat.mod_upper_bound i 4) as Hi'.
  pose proof (Nat.div_mod_eq (i + 1) 4) as Hj.
  pose proof (Nat.mod_upper_bound (i + 1) 4) as Hj'.
  split; intros H;
    [apply Nat.eqb_eq in H | apply Nat.eqb_neq in H]; lia.
Qed.

Lemma quarter_mono i j : (i <= j -> i / 4 <= j / 4)%nat.
Proof.
  intros H. apply Nat.Div0.div_le_mono. exact H.
Qed.

Lemma send_each_paced env url {A} (mk : A -> payload) sent :
  webhook_accepts env ->
  forall items i c w,
    exists w' evs pauses,
      DiscordNotifier.send_each env
        (fun x => DiscordNotifier.send env url (mk x) sent)
        (i + length items) i items c w
      = (Ok (c + length items)%nat, w')
      /\ w_trace w' = w_trace w ++ evs
      /\ filter is_post evs = map (fun x => EvPost url (mk x)) items
      /\ filter is_sleep evs = repeat (EvSleep (PInt 2)) pauses
      /\ (pauses + i / 4 = (i + length items - 1) / 4
          \/ items = [] /\ pauses = 0)%nat.
Proof.
  intros Hweb. induction items as [|x rest IH]; intros i c w.
  - exists w, [], 0%nat. cbn. rewrite app_nil_r, Nat.add_0_r.
    repeat split; auto.
  - cbn [DiscordNotifier.send_each length]. rewrite run_bind_eq.
    rewrite send_accepted by exact Hweb. rewrite run_bind_eq.
    replace (i + S (length rest))%nat with (i + 1 + length rest)%nat by lia.
    destruct (quarter_step i) as [Hyes Hno].
    destruct (((i + 1) mod 4 =? 0)%nat) eqn:Emod; cbn [andb].
    + destruct (Nat.ltb_spec (i + 1) (i + 1 + length rest)) as [Hlt|Hge].
      * cbn [RunMonad.bind RunMonad.print
               w_clock w_state w_file w_out w_trace fst snd].
        rewrite time_sleep_two.
        cbn [w_clock w_state w_file w_out w_trace fst snd].
        match goal with
        | |- context [DiscordNotifier.send_each _ _ _ _ _ _ ?w2] =>
            destruct (IH (i + 1)%nat (S c) w2)
              as [w' [evs [pauses [E [Htrace [Hposts [Hsleeps Hn]]]]]]]
        end.
        cbn [w_clock w_state w_file w_out w_trace fst snd] in *.
        rewrite E.
        exists w', (EvPost url (mk x) :: EvSleep (PInt 2) :: evs), (S pauses).
        split; [f_equal; f_equal; lia|].
        split; [rewrite Htrace, <- !app_assoc; reflexivity|].
        split; [cbn; now rewrite Hposts|].
        split; [cbn; now rewrite Hsleeps|].
        left. specialize (Hyes eq_refl).
        destruct Hn as [Hn|[-> _]]; [|cbn in Hlt; lia].
        replace (i + 1 + length rest - 1)%nat with (i + 1 + length rest - 1)%nat
          in * by lia.
        lia.
      * assert (rest = []) as -> by (destruct rest; [reflexivity | cbn in Hge; lia]).
        cbn [DiscordNotifier.send_each length RunMonad.ret].
        eexists _, [EvPost url (mk x)], 0%nat.
        split; [rewrite Nat.add_1_r; reflexivity|].
        split; [reflexivity|]. split; [reflexivity|]. split; [reflexivity|].
        left. rewrite Nat.add_0_r, Nat.add_sub. reflexivity.
    + cbn [RunMonad.ret w_clock w_state w_file w_out w_trace fst snd].
      match goal with
      | |- context [DiscordNotifier.send_each _ _ _ _ _ _ ?w2] =>
          destruct (IH (i + 1)%nat (S c) w2)
            as [w' [evs [pauses [E [Htrace [Hposts [Hsleeps Hn]]]]]]]
      end.
      cbn [w_clock w_state w_file w_out w_trace fst snd] in *.
      rewrite E.
      exists w', (EvPost url (mk x) :: evs), pauses.
      split; [f_equal; f_equal; lia|].
      split; [rewrite Htrace, <- !app_assoc; reflexivity|].
      split; [cbn; now rewrite Hposts|].
      split; [cbn; exact Hsleeps|].
      left. specialize (Hno eq_refl).
      destruct Hn as [Hn|[-> ->]].
      * lia.
      * cbn [length]. rewrite Nat.add_0_r, Nat.add_sub. reflexivity.
Qed.

Lemma mod4_offset k j : (j < 4)%nat -> ((4 * k + j) mod 4 = j)%nat.
Proof.
  intros H. rewrite Nat.add_comm, Nat.mul_comm, Nat.Div0.mod_add.
  now apply Nat.mod_small.
Qed.

Lemma groups_of_four_nonempty {A} (x : A) items :
  groups_of_four (x :: items) <> [].
Proof. destruct items as [|b [|c [|d [|e r]]]]; discriminate. Qed.

Lemma groups_of_four_step {A} (a b c d e : A) rest :
  groups_of_four (a :: b :: c :: d :: e :: rest)
  = [a; b; c; d] :: groups_of_four (e :: rest).
Proof. reflexivity. Qed.

Lemma separated_cons {A} (pause g : list A) groups :
  groups <> [] ->
  separated pause (g :: groups) = g ++ pause ++ separated pause groups.
Proof. destruct groups; [contradiction | reflexivity]. Qed.

(** One turn of the loop with a webhook that accepts. *)
Lemma send_each_accepted env url {A} (mk : A -> payload) sent total i x rest
    c w (pause : bool) :
  webhook_accepts env ->
  ((i + 1) mod 4 =? 0)%nat && (i + 1 <? total)%nat = pause ->
  DiscordNotifier.send_each env
    (fun x => DiscordNotifier.send env url (mk x) sent) total i (x :: rest)
    c w
  = DiscordNotifier.send_each env
      (fun x => DiscordNotifier.send env url (mk x) sent) total (i + 1) rest
      (S c)
      (mkWorld (w_state w) (w_file w)
               (if pause
                then (w_out w ++ [LMonitor sent]) ++ [LMonitor "Sent "]
                else w_out w ++ [LMonitor sent])
               (if pause
                then (w_trace w ++ [EvPost url (mk x)]) ++ [EvSleep (PInt 2)]
                else w_trace w ++ [EvPost url (mk x)])
               (S (w_clock w))).
Proof.
  intros Hweb Hpause. cbn [DiscordNotifier.send_each].
  rewrite run_bind_eq, send_accepted by exact Hweb.
  rewrite run_bind_eq, Hpause. destruct pause.
  - rewrite run_bind_eq. cbn [RunMonad.print]. rewrite time_sleep_two.
    reflexivity.
  - reflexivity.
Qed.

Lemma send_each_groups env url {A} (mk : A -> payload) sent :
  webhook_accepts env ->
  forall n items, (length items <= n)%nat ->
  forall k c w,
    exists w',
      DiscordNotifier.send_each env
        (fun x => DiscordNotifier.send env url (mk x) sent)
        (4 * k + length items) (4 * k) items c w
      = (Ok (c + length items)%nat, w')
      /\ w_trace w'
         = w_trace w
           ++ separated [EvSleep (PInt 2)]
                (groups_of_four (map (fun x => EvPost url (mk x)) items)).
Proof.
  intros Hweb. induction n as [|n IH]; intros items Hn k c w.
  { destruct items; [|cbn in Hn; lia].
    exists w. cbn. now rewrite Nat.add_0_r, app_nil_r. }
  assert (H1 : forall t, ((4 * k + 1) mod 4 =? 0)%nat && t = false).
  { intros t. now rewrite mod4_offset by lia. }
  assert (H2 : forall t, ((4 * k + 1 + 1) mod 4 =? 0)%nat && t = false).
  { intros t. replace (4 * k + 1 + 1)%nat with (4 * k + 2)%nat by lia.
    now rewrite mod4_offset by lia. }
  assert (H3 : forall t, ((4 * k + 1 + 1 + 1) mod 4 =? 0)%nat && t = false).
  { intros t. replace (4 * k + 1 + 1 + 1)%nat with (4 * k + 3)%nat by lia.
    now rewrite mod4_offset by lia. }
  assert (H4 : forall m,
            ((4 * k + 1 + 1 + 1 + 1) mod 4 =? 0)%nat
            && (4 * k + 1 + 1 + 1 + 1 <? 4 * k + m)%nat = (4 <? m)%nat).
  { intros m.
    replace (4 * k + 1 + 1 + 1 + 1)%nat with (4 * (k + 1) + 0)%nat by lia.
    rewrite mod4_offset by lia. cbn [Nat.eqb andb].
    destruct (Nat.ltb_spec (4 * (k + 1) + 0) (4 * k + m)),
      (Nat.ltb_spec 4 m); try reflexivity; lia. }
  destruct items as [|x1 [|x2 [|x3 [|x4 [|x5 rest]]]]].
  - exists w. cbn. now rewrite Nat.add_0_r, app_nil_r.
  - rewrite (send_each_accepted env url mk sent _ _ _ _ _ _ false Hweb (H1 _)).
    eexists. cbn [DiscordNotifier.send_each length map groups_of_four
                    separated].
    unfold RunMonad.ret. rewrite ?Nat.add_succ_r, ?Nat.add_0_r.
    split; [reflexivity | reflexivity].
  - rewrite (send_each_accepted env url mk sent _ _ _ _ _ _ false Hweb (H1 _)).
    rewrite (send_each_accepted env url mk sent _ _ _ _ _ _ false Hweb (H2 _)).
    eexists. cbn [DiscordNotifier.send_each length map groups_of_four
                    separated].
    unfold RunMonad.ret. rewrite ?Nat.add_succ_r, ?Nat.add_0_r.
    split; [reflexivity | cbn [w_trace]; now rewrite <- !app_assoc].
  - rewrite (send_each_accepted env url mk sent _ _ _ _ _ _ false Hweb (H1 _)).
    rewrite (send_each_accepted env url mk sent _ _ _ _ _ _ false Hweb (H2 _)).
    rewrite (send_each_accepted env url mk sent _ _ _ _ _ _ false Hweb (H3 _)).
    eexists. cbn [DiscordNotifier.send_each length map groups_of_four
                    separated].
    unfold RunMonad.ret. rewrite ?Nat.add_succ_r, ?Nat.add_0_r.
    split; [reflexivity | cbn [w_trace]; now rewrite <- !app_assoc].
  - rewrite (send_each_accepted env url mk sent _ _ _ _ _ _ false Hweb (H1 _)).
    rewrite (send_each_accepted env url mk sent _ _ _ _ _ _ false Hweb (H2 _)).
    rewrite (send_each_accepted env url mk sent _ _ _ _ _ _ false Hweb (H3 _)).
    rewrite (send_each_accepted env url mk sent _ _ _ _ _ _ false Hweb
               (H4 (length [x1; x2; x3; x4]))).
    eexists. cbn [DiscordNotifier.send_each length map groups_of_four
                    separated].
    unfold RunMonad.ret. rewrite ?Nat.add_succ_r, ?Nat.add_0_r.
    split; [reflexivity | cbn [w_trace]; now rewrite <- !app_assoc].
  - rewrite (send_each_accepted env url mk sent _ _ _ _ _ _ false Hweb (H1 _)).
    rewrite (send_each_accepted env url mk sent _ _ _ _ _ _ false Hweb (H2 _)).
    rewrite (send_each_accepted env url mk sent _ _ _ _ _ _ false Hweb (H3 _)).
    rewrite (send_each_accepted env url mk sent _ _ _ _ _ _ true Hweb
               (H4 (length (x1 :: x2 :: x3 :: x4 :: x5 :: rest)))).
    replace (4 * k + 1 + 1 + 1 + 1)%nat with (4 * (k + 1))%nat by lia.
    replace (4 * k + length (x1 :: x2 :: x3 :: x4 :: x5 :: rest))%nat
      with (4 * (k + 1) + length (x5 :: rest))%nat by (cbn [length]; lia).
    match goal with
    | |- context [DiscordNotifier.send_each _ _ _ _ _ ?c' ?w2] =>
        destruct (IH (x5 :: rest) ltac:(cbn [length] in *; lia) (k + 1)%nat
                    c' w2) as [w' [E Htrace]]
    end.
    exists w'. rewrite E. split; [f_equal; f_equal; cbn [length]; lia|].
    rewrite Htrace. cbn [w_trace map].
    rewrite groups_of_four_step, separated_cons
      by apply groups_of_four_nonempty.
    rewrite <- !app_assoc. reflexivity.
Qed.

(** X15. With a webhook that accepts every request, a batch of [n]
    posts returns [n] and makes one request for each post, in the order
    of the posts, with a pause of two seconds after every fourth request
    that is not the last: its trace is the requests in groups of four
    with one pause between two groups, which makes [(n - 1) / 4]
    pauses. *)
Theorem batch_pauses env url name posts w :
  webhook_accepts env ->
  fst (DiscordNotifier.send_batch_notifications env url posts name w)
  = Ok (length posts)
  /\ events_of (DiscordNotifier.send_batch_notifications env url posts name)
               w
     = separated [EvSleep (PInt 2)]
         (groups_of_four (map (fun p => EvPost url (PostEmbed p name)) posts))
  /\ filter is_post
       (events_of (DiscordNotifier.send_batch_notifications
                     env url posts name) w)
     = map (fun p => EvPost url (PostEmbed p name)) posts
  /\ filter is_sleep
       (events_of (DiscordNotifier.send_batch_notifications
                     env url posts name) w)
     = repeat (EvSleep (PInt 2)) ((length posts - 1) / 4).
Proof.
  intros Hweb.
  unfold DiscordNotifier.send_batch_notifications,
    DiscordNotifier.send_batch, DiscordNotifier.send_notification.
  destruct posts as [|p rest].
  { assert (E : events_of (@RunMonad.ret nat 0%nat) w = []).
    { apply events_of_trace. cbn. now rewrite app_nil_r. }
    rewrite E. repeat split. }
  destruct (send_each_paced env url (fun p => PostEmbed p name)
              "Discord notification sent for post " Hweb (p :: rest)
              0%nat 0%nat w)
    as [w' [evs [pauses [E [Htrace [Hposts [Hsleeps Hn]]]]]]].
  destruct (send_each_groups env url (fun p => PostEmbed p name)
              "Discord notification sent for post " Hweb
              (length (p :: rest)) (p :: rest) (le_n _) 0%nat 0%nat w)
    as [w'' [E' Hgroups]].
  change (4 * 0)%nat with 0%nat in E'. rewrite E in E'.
  injection E' as <-.
  rewrite Htrace in Hgroups. apply app_inv_head in Hgroups.
  assert (Hev : events_of
                  (RunMonad.bind
                     (DiscordNotifier.send_each env
                        (fun post => DiscordNotifier.send env url
                                       (PostEmbed post name)
                                       "Discord notification sent for post ")
                        (length (p :: rest)) 0 (p :: rest) 0)
                     (fun success_count =>
                        RunMonad.bind (RunMonad.print "Sent ")
                          (fun _ => RunMonad.ret success_count))) w
                = evs).
  { apply events_of_trace. rewrite run_bind_eq.
    change (length (p :: rest)) with (0 + length (p :: rest))%nat.
    rewrite E. cbn. exact Htrace. }
  rewrite Hev. rewrite run_bind_eq.
  change (length (p :: rest)) with (0 + length (p :: rest))%nat at 1.
  rewrite E. cbn [fst RunMonad.bind RunMonad.print RunMonad.ret].
  split; [reflexivity|]. split; [exact Hgroups|]. split; [exact Hposts|].
  rewrite Hsleeps. f_equal.
  destruct Hn as [Hn|[Hn _]]; [|discriminate Hn].
  cbn [Nat.div] in Hn. change (0 / 4)%nat with 0%nat in Hn.
  rewrite Nat.add_0_r in Hn. exact Hn.
Qed.

Lemma batch_pauses_witness :
  webhook_accepts (sample_env 204)
  /\ events_of (DiscordNotifier.send_batch_notifications
                  (sample_env 204) "https://discord.test/hook"
                  (map sample_post ["p1"; "p2"; "p3"; "p4"; "p5"])
                  "Charla")
               sample_world
     = map (fun id => EvPost "https://discord.test/hook"
                             (PostEmbed (sample_post id) "Charla"))
           ["p1"; "p2"; "p3"; "p4"]
       ++ EvSleep (PInt 2)
          :: [EvPost "https://discord.test/hook"
                     (PostEmbed (sample_post "p5") "Charla")].
Proof.
  assert (H : webhook_accepts (sample_env 204)).
  { intros n url body. now exists (Ok (PInt 1)). }
  split; [exact H|].
  exact (proj1 (proj2 (batch_pauses (sample_env 204)
                         "https://discord.test/hook" "Charla"
                         (map sample_post ["p1"; "p2"; "p3"; "p4"; "p5"])
                         sample_world H))).
Defined.

(** * Further properties of the orchestrator *)

(** ** A monitor that does not reach the forum *)

Lemma runnable_parts env monitor_config :
  runnable env monitor_config = true ->
  ForoactivoMonitor.truthy (cfg_id monitor_config) = true
  /\ ForoactivoMonitor.truthy (cfg_forum_url monitor_config) = true
  /\ String.eqb (webhook_env_of monitor_config) EmptyString = false
  /\ ForoactivoMonitor.truthy (page_of monitor_config) = true
  /\ ForoactivoMonitor.truthy (getenv env (webhook_env_of monitor_config))
     = true.
Proof.
  unfold runnable. intros H.
  repeat match type of H with
    | (_ && _)%bool = true => apply andb_prop in H; destruct H as [H ?]
    end.
  repeat split; try assumption. now apply negb_true_iff.
Qed.

(** X16. A monitor whose configuration is incomplete, or whose webhook
    variable is not set, is skipped: [_process_monitor] returns 0 without
    logging in, fetching or posting, and leaves the cursor store, the
    state file and the clock as they are. *)
Theorem incomplete_monitor_is_skipped env monitor_config w :
  runnable env monitor_config = false ->
  fst (ForoactivoMonitor._process_monitor env monitor_config w) = Ok 0%nat
  /\ events_of (ForoactivoMonitor._process_monitor env monitor_config) w = []
  /\ w_state (snd (ForoactivoMonitor._process_monitor env monitor_config w))
     = w_state w
  /\ w_file (snd (ForoactivoMonitor._process_monitor env monitor_config w))
     = w_file w
  /\ w_clock (snd (ForoactivoMonitor._process_monitor env monitor_config w))
     = w_clock w.
Proof.
  intros H.
  assert (E : exists out,
             ForoactivoMonitor._process_monitor env monitor_config w
             = (Ok 0%nat,
                mkWorld (w_state w) (w_file w) (w_out w ++ out) (w_trace w)
                        (w_clock w))).
  { unfold runnable, page_of, is_forum, webhook_env_of in H.
    unfold ForoactivoMonitor._process_monitor,
      ForoactivoMonitor._process_forum_monitor,
      ForoactivoMonitor._process_thread_monitor.
    rewrite run_bind_eq. cbn [RunMonad.print].
    destruct (ForoactivoMonitor.truthy (cfg_id monitor_config));
      [|eexists; cbn; rewrite <- app_assoc; reflexivity].
    destruct (ForoactivoMonitor.truthy (cfg_forum_url monitor_config));
      [|eexists; cbn; rewrite <- app_assoc; reflexivity].
    destruct (String.eqb (ForoactivoMonitor.get_or
                            (cfg_discord_webhook_env monitor_config)
                            "DISCORD_WEBHOOK_URL") EmptyString);
      [eexists; cbn; rewrite <- app_assoc; reflexivity|].
    cbn [andb negb] in *.
    destruct (String.eqb (ForoactivoMonitor.get_or (cfg_type monitor_config)
                            "thread") "forum").
    - destruct (ForoactivoMonitor.truthy (cfg_section_url monitor_config));
        [|eexists; cbn; rewrite <- app_assoc; reflexivity].
      cbn [andb negb] in *. rewrite H.
      eexists; cbn; rewrite <- app_assoc; reflexivity.
    - destruct (ForoactivoMonitor.truthy (cfg_thread_url monitor_config));
        [|eexists; cbn; rewrite <- app_assoc; reflexivity].
      cbn [andb negb] in *. rewrite H.
      eexists; cbn; rewrite <- app_assoc; reflexivity. }
  destruct E as [out E].
  split; [now rewrite E|].
  split; [apply events_of_trace; rewrite E; cbn; now rewrite app_nil_r|].
  rewrite E. repeat split.
Qed.

Lemma incomplete_monitor_is_skipped_witness :
  runnable (sample_env 204)
    (mkConfig (Some "t7") None None (Some "https://foro.test") None None
              None None) = false
  /\ events_of (ForoactivoMonitor._process_monitor (sample_env 204)
                  (mkConfig (Some "t7") None None (Some "https://foro.test")
                            None None None None)) sample_world = [].
Proof.
  split; [reflexivity|].
  exact (proj1 (proj2 (incomplete_monitor_is_skipped (sample_env 204)
                         (mkConfig (Some "t7") None None
                                   (Some "https://foro.test") None None None
                                   None)
                         sample_world eq_refl))).
Defined.

(** ** A monitor that cannot log in, or finds nothing *)

Ltac enter_monitor H :=
  destruct (runnable_parts _ _ H) as [Hid [Hforum [Hname [Hpage Hgetenv]]]];
  unfold ForoactivoMonitor._process_monitor;
  rewrite run_bind_eq; cbn [RunMonad.print];
  unfold webhook_env_of in Hname, Hgetenv;
  rewrite Hid, Hforum, Hname; cbn [andb negb];
  unfold name_of, webhook_url_of, forum_url_of, fetch_of, fetches_nothing,
    page_of, is_forum, webhook_env_of in *;
  destruct (String.eqb (ForoactivoMonitor.get_or _ "thread") "forum");
  [unfold ForoactivoMonitor._process_forum_monitor
  |unfold ForoactivoMonitor._process_thread_monitor];
  rewrite Hpage, Hgetenv; cbn [negb];
  unfold RunMonad.try_except, RunMonad.bind, RunMonad.print, RunMonad.tick,
    RunMonad.emit, RunMonad.lift, RunMonad.ret, RunMonad.reading;
  cbn [w_clock w_state w_file w_out w_trace fst snd].

Lemma login_refused_run env monitor_config w :
  runnable env monitor_config = true ->
  client_login env (w_clock w) (forum_url_of monitor_config) <> Ok true ->
  exists error_message out,
    ForoactivoMonitor._process_monitor env monitor_config w
    = (Ok 0%nat,
       mkWorld (w_state w) (w_file w) (w_out w ++ out)
               (w_trace w
                ++ [EvLogin (forum_url_of monitor_config);
                    EvPost (webhook_url_of env monitor_config)
                           (ErrorEmbed error_message
                                       (name_of monitor_config))])
               (S (S (w_clock w)))).
Proof.
  intros Hrun Hlogin. enter_monitor Hrun.
  - destruct (client_login env (w_clock w) _) as [[|]|e];
      [contradiction| |];
      cbn [negb w_clock w_state w_file w_out w_trace fst snd].
    + match goal with
      | |- context [DiscordNotifier.send_error_notification ?e ?u ?m ?n ?w1] =>
          destruct (send_error_notification_run e u m n w1) as [ok [out [E _]]]
      end.
      rewrite E. cbn [w_clock w_state w_file w_out w_trace].
      eexists _, _. rewrite <- !app_assoc. reflexivity.
    + match goal with
      | |- context [ForoactivoMonitor.report_error ?e ?v ?n ?w1] =>
          destruct (report_error_run e v n w1 Hgetenv) as [out E]
      end.
      rewrite E. cbn [w_clock w_state w_file w_out w_trace].
      eexists _, _. rewrite <- !app_assoc. reflexivity.
  - destruct (client_login env (w_clock w) _) as [[|]|e];
      [contradiction| |];
      cbn [negb w_clock w_state w_file w_out w_trace fst snd].
    + match goal with
      | |- context [DiscordNotifier.send_error_notification ?e ?u ?m ?n ?w1] =>
          destruct (send_error_notification_run e u m n w1) as [ok [out [E _]]]
      end.
      rewrite E. cbn [w_clock w_state w_file w_out w_trace].
      eexists _, _. rewrite <- !app_assoc. reflexivity.
    + match goal with
      | |- context [ForoactivoMonitor.report_error ?e ?v ?n ?w1] =>
          destruct (report_error_run e v n w1 Hgetenv) as [out E]
      end.
      rewrite E. cbn [w_clock w_state w_file w_out w_trace].
      eexists _, _. rewrite <- !app_assoc. reflexivity.
Qed.

(** X17. When the login at the forum does not return true, be it false
    or an exception, the monitor fetches nothing: it posts one error
    embed to its webhook, returns 0 and leaves the cursor store as it is,
    whatever the webhook answers. *)
Theorem login_refused_reports_once env monitor_config w :
  runnable env monitor_config = true ->
  client_login env (w_clock w) (forum_url_of monitor_config) <> Ok true ->
  fst (ForoactivoMonitor._process_monitor env monitor_config w) = Ok 0%nat
  /\ (exists error_message,
        events_of (ForoactivoMonitor._process_monitor env monitor_config) w
        = [EvLogin (forum_url_of monitor_config);
           EvPost (webhook_url_of env monitor_config)
                  (ErrorEmbed error_message (name_of monitor_config))])
  /\ w_state (snd (ForoactivoMonitor._process_monitor env monitor_config w))
     = w_state w.
Proof.
  intros Hrun Hlogin.
  destruct (login_refused_run env monitor_config w Hrun Hlogin)
    as [msg [out E]].
  split; [now rewrite E|].
  split; [exists msg; apply events_of_trace; now rewrite E | now rewrite E].
Qed.

Lemma login_refused_reports_once_witness :
  fst (ForoactivoMonitor._process_monitor
         (mkEnv (fun _ => Some "https://discord.test/hook")
                (fun _ _ => Ok false)
                (fun _ _ => Ok [])
                (fun _ _ => Ok [])
                (fun _ _ _ => PostRaises OSError)
                (fun _ => "2024-05-01T10:00:00Z")
                (fun _ => Written)
                (fun _ => Raise OverflowError))
         sample_thread_config sample_world) = Ok 0%nat.
Proof.
  refine (proj1 (login_refused_reports_once
                   (mkEnv (fun _ => Some "https://discord.test/hook")
                          (fun _ _ => Ok false)
                          (fun _ _ => Ok [])
                          (fun _ _ => Ok [])
                          (fun _ _ _ => PostRaises OSError)
                          (fun _ => "2024-05-01T10:00:00Z")
                          (fun _ => Written)
                          (fun _ => Raise OverflowError))
                   sample_thread_config sample_world eq_refl _)).
  discriminate.
Defined.

(** X18. When the page of a monitor has nothing on it, nothing happens:
    after the login and the fetch the monitor returns 0, without a
    request to the webhook and without touching the cursor store. *)
Theorem empty_page_changes_nothing env monitor_config w :
  runnable env monitor_config = true ->
  client_login env (w_clock w) (forum_url_of monitor_config) = Ok true ->
  fetches_nothing env monitor_config (S (w_clock w)) ->
  fst (ForoactivoMonitor._process_monitor env monitor_config w) = Ok 0%nat
  /\ events_of (ForoactivoMonitor._process_monitor env monitor_config) w
     = [EvLogin (forum_url_of monitor_config); fetch_of monitor_config]
  /\ w_state (snd (ForoactivoMonitor._process_monitor env monitor_config w))
     = w_state w.
Proof.
  intros Hrun Hlogin Hfetch.
  assert (E : exists out,
             ForoactivoMonitor._process_monitor env monitor_config w
             = (Ok 0%nat,
                mkWorld (w_state w) (w_file w) (w_out w ++ out)
                        (w_trace w ++ [EvLogin (forum_url_of monitor_config);
                                       fetch_of monitor_config])
                        (S (S (w_clock w))))).
  { enter_monitor Hrun.
    - rewrite Hlogin. cbn [negb w_clock w_state w_file w_out w_trace fst snd].
      rewrite Hfetch. cbn [w_clock w_state w_file w_out w_trace fst snd].
      eexists. rewrite <- !app_assoc. reflexivity.
    - rewrite Hlogin. cbn [negb w_clock w_state w_file w_out w_trace fst snd].
      rewrite Hfetch. cbn [w_clock w_state w_file w_out w_trace fst snd].
      eexists. rewrite <- !app_assoc. reflexivity. }
  destruct E as [out E].
  split; [now rewrite E|].
  split; [apply events_of_trace; now rewrite E | now rewrite E].
Qed.

Lemma empty_page_changes_nothing_witness :
  events_of (ForoactivoMonitor._process_monitor
               (mkEnv (fun _ => Some "https://discord.test/hook")
                      (fun _ _ => Ok true)
                      (fun _ _ => Ok [])
                      (fun _ _ => Ok [])
                      (fun _ _ _ => PostRaises OSError)
                      (fun _ => "2024-05-01T10:00:00Z")
                      (fun _ => Written)
                      (fun _ => Raise OverflowError))
               sample_forum_config) sample_world
  = [EvLogin "https://foro.test"; EvFetchThreads "https://foro.test/f13-s"].
Proof.
  exact (proj1 (proj2 (empty_page_changes_nothing
                         (mkEnv (fun _ => Some "https://discord.test/hook")
                                (fun _ _ => Ok true)
                                (fun _ _ => Ok [])
                                (fun _ _ => Ok [])
                                (fun _ _ _ => PostRaises OSError)
                                (fun _ => "2024-05-01T10:00:00Z")
                                (fun _ => Written)
                                (fun _ => Raise OverflowError))
                         sample_forum_config sample_world
                         eq_refl eq_refl eq_refl))).
Defined.

(** ** The entries a monitor leaves alone *)

Lemma changes_only_keeps monitor_id {A} (m : Run A) :
  keeps_state m -> changes_only monitor_id m.
Proof. intros H w k _. now rewrite H. Qed.

Lemma changes_only_bind monitor_id {A B} (m : Run A) (k : A -> Run B) :
  changes_only monitor_id m -> (forall a, changes_only monitor_id (k a)) ->
  changes_only monitor_id (RunMonad.bind m k).
Proof.
  intros Hm Hk w key Hkey. rewrite run_bind_eq. specialize (Hm w key Hkey).
  destruct (m w) as [[a|e] w1]; cbn [snd] in *; [|exact Hm].
  now rewrite Hk.
Qed.

Lemma changes_only_try_except monitor_id {A} (m : Run A) handler :
  changes_only monitor_id m -> (forall e, changes_only monitor_id (handler e)) ->
  changes_only monitor_id (RunMonad.try_except m handler).
Proof.
  intros Hm Hh w key Hkey. unfold RunMonad.try_except.
  specialize (Hm w key Hkey).
  destruct (m w) as [[a|e] w1]; cbn [snd] in *; [exact Hm|].
  now rewrite Hh.
Qed.

Lemma keeps_state_reading {A} (method : pyval -> Out A) :
  keeps_state (RunMonad.reading method).
Proof.
  intros w. unfold RunMonad.reading. now destruct (method (w_state w)).
Qed.

Lemma changes_only_update_thread_state env thread_id last_post_id total :
  changes_only thread_id
    (ForoactivoMonitor.update_thread_state env thread_id last_post_id total).
Proof.
  intros w k Hk.
  unfold ForoactivoMonitor.update_thread_state, RunMonad.bind, RunMonad.tick,
    RunMonad.writing, RunMonad.emit.
  cbn [w_clock w_state w_file w_out w_trace fst snd].
  destruct (w_state w) as [| | | | | |d]; try reflexivity.
  rewrite update_thread_state_run.
  cbn [w_clock w_state w_file w_out w_trace fst snd entry].
  now apply dict_get_set_other.
Qed.

Lemma changes_only_update_forum_state env forum_id thread_ids :
  changes_only forum_id
    (ForoactivoMonitor.update_forum_state env forum_id thread_ids).
Proof.
  intros w k Hk.
  unfold ForoactivoMonitor.update_forum_state, RunMonad.bind, RunMonad.tick,
    RunMonad.writing, RunMonad.emit.
  cbn [w_clock w_state w_file w_out w_trace fst snd].
  destruct (w_state w) as [| | | | | |d]; try reflexivity.
  rewrite update_forum_state_run.
  cbn [w_clock w_state w_file w_out w_trace fst snd entry].
  now apply dict_get_set_other.
Qed.

Ltac changes_step :=
  first
    [ apply changes_only_update_thread_state
    | apply changes_only_update_forum_state
    | apply changes_only_keeps;
      first [ solve [auto with keeps]
            | apply keeps_state_reading
            | apply keeps_state_report_error
            | apply keeps_state_send_batch; intro; apply keeps_state_send
            | unfold DiscordNotifier.send_error_notification,
                DiscordNotifier.post; solve [keeps] ]
    | apply changes_only_bind; [|intro]
    | apply changes_only_try_except; [|intro]
    | match goal with
      | |- changes_only _ (match ?x with _ => _ end) => destruct x
      end ].

Lemma changes_only_process_monitor env monitor_config :
  changes_only (ForoactivoMonitor.id_of monitor_config)
    (ForoactivoMonitor._process_monitor env monitor_config).
Proof.
  unfold ForoactivoMonitor._process_monitor,
    ForoactivoMonitor._process_forum_monitor,
    ForoactivoMonitor._process_thread_monitor,
    DiscordNotifier.send_batch_notifications,
    DiscordNotifier.send_batch_thread_notifications,
    DiscordNotifier.send_notification,
    DiscordNotifier.send_thread_notification.
  repeat changes_step.
Qed.

(** X19. A monitor changes no entry of the cursor store but its own:
    whatever the forum and the webhook do, and whatever the store holds,
    the entry of every other id is after [_process_monitor] what it was
    before. *)
Theorem monitor_changes_only_its_entry env monitor_config w k :
  k <> ForoactivoMonitor.id_of monitor_config ->
  entry (w_state (snd (ForoactivoMonitor._process_monitor env monitor_config w)))
        k
  = entry (w_state w) k.
Proof. apply changes_only_process_monitor. Qed.

Lemma monitor_changes_only_its_entry_witness :
  entry (w_state (snd (ForoactivoMonitor._process_monitor (sample_env 204)
                         sample_thread_config
                         (mkWorld (PDict [("f13", forum_cursor ["t1"] "now")])
                                  Missing [] [] 0))))
        "f13"
  = Some (forum_cursor ["t1"] "now").
Proof.
  refine (monitor_changes_only_its_entry (sample_env 204) sample_thread_config
            (mkWorld (PDict [("f13", forum_cursor ["t1"] "now")])
                     Missing [] [] 0) "f13" _).
  discriminate.
Defined.

(** ** The run, the exit code and the file *)

Lemma run_unfolded env monitors w :
  exists state w2 total ok out,
    outcome (StateManager.load_state (w_file w)) = Ok state
    /\ ForoactivoMonitor.process_all env
         (filter (fun m => match cfg_enabled m with
                           | Some enabled => enabled
                           | None => true
                           end) monitors) 0
         (mkWorld state (w_file w)
                  (((w_out w ++ [LMonitor "Foroactivo Discord Monitor - Starting"])
                    ++ output (StateManager.load_state (w_file w)))
                   ++ [LMonitor "Processing "])
                  (w_trace w ++ [EvLoad]) (w_clock w))
       = (Ok total, w2)
    /\ ok = match disk env (w_clock w2) with Written => true | _ => false end
    /\ ForoactivoMonitor.run env monitors w
       = (Ok 0%Z,
          mkWorld (w_state w2)
                  (snd (StateManager.save_state (disk env (w_clock w2))
                          (w_state w2) (w_file w2)))
                  out (w_trace w2 ++ [EvSave ok]) (S (w_clock w2))).
Proof.
  unfold ForoactivoMonitor.run, RunMonad.try_except.
  rewrite run_bind_eq. cbn [RunMonad.print]. rewrite run_bind_eq.
  unfold ForoactivoMonitor.load_state at 1.
  cbn [w_clock w_state w_file w_out w_trace fst snd].
  destruct (load_state_never_raises (w_file w)) as [state Hload].
  unfold output. destruct (StateManager.load_state (w_file w)) as [o r].
  cbn in Hload. subst r. cbn [fst].
  rewrite run_bind_eq. cbn [RunMonad.print]. rewrite run_bind_eq.
  cbn [w_clock w_state w_file w_out w_trace fst snd].
  exists state.
  match goal with
  | |- context [ForoactivoMonitor.process_all env ?l 0 ?w1] =>
      destruct (returns_process_all env l 0 w1) as [total Htotal];
      destruct (ForoactivoMonitor.process_all env l 0 w1) as [r w2]
  end.
  cbn in Htotal. subst r.
  unfold RunMonad.bind, ForoactivoMonitor.save_state, RunMonad.print,
    RunMonad.ret.
  exists w2, total.
  destruct (disk env (w_clock w2)); cbn; eexists _, _;
    (split; [reflexivity|]); (split; [reflexivity|]); split; reflexivity.
Qed.

Lemma loaded_world w :
  exists state,
    outcome (StateManager.load_state (w_file w)) = Ok state
    /\ loaded w
       = mkWorld state (w_file w)
           (((w_out w ++ [LMonitor "Foroactivo Discord Monitor - Starting"])
             ++ output (StateManager.load_state (w_file w)))
            ++ [LMonitor "Processing "])
           (w_trace w ++ [EvLoad]) (w_clock w).
Proof.
  unfold loaded. rewrite run_bind_eq. cbn [RunMonad.print].
  rewrite run_bind_eq. unfold ForoactivoMonitor.load_state at 1.
  cbn [w_clock w_state w_file w_out w_trace fst snd].
  destruct (load_state_never_raises (w_file w)) as [state Hload].
  unfold output. destruct (StateManager.load_state (w_file w)) as [o r].
  cbn in Hload. subst r. exists state. split; reflexivity.
Qed.

(** X20. The result of saving does not reach the exit code.  When the
    loop over the enabled monitors returns, [run] attempts to save the
    store as its last action and exits with code 0, whether or not the
    attempt succeeds; the store is the one the loop left; the attempt
    succeeds exactly when the write goes through, and the file then holds
    the serialized store (stated for a store without floats). *)
Theorem run_exits_zero env monitors w total w2 :
  ForoactivoMonitor.process_all env (enabled monitors) 0 (loaded w)
  = (Ok total, w2) ->
  exists ok w',
    ForoactivoMonitor.run env monitors w = (Ok 0%Z, w')
    /\ w_state w' = w_state w2
    /\ w_trace w' = w_trace w2 ++ [EvSave ok]
    /\ (ok = true <-> disk env (w_clock w2) = Written)
    /\ (ok = true -> json_shaped (w_state w2) = true ->
        w_file w' = Contents (Json.dumps (w_state w2))).
Proof.
  intros Hloop.
  destruct (run_unfolded env monitors w)
    as [state [w2' [total' [ok [out [Hload [Hall [Hok E]]]]]]]].
  destruct (loaded_world w) as [state' [Hload' Hloaded]].
  rewrite Hload in Hload'. injection Hload' as <-.
  unfold enabled in Hloop. rewrite Hloaded, Hall in Hloop.
  injection Hloop as <- <-.
  rewrite E. exists ok. eexists. split; [reflexivity|].
  cbn [w_trace w_clock w_file w_state]. split; [reflexivity|].
  split; [reflexivity|]. subst ok.
  destruct (disk env (w_clock w2')); cbn.
  - split; [tauto | reflexivity].
  - split; [split; discriminate | discriminate].
  - split; [split; discriminate | discriminate].
Qed.

Lemma run_exits_zero_witness :
  exists ok w',
    ForoactivoMonitor.run (sample_env 204) [] sample_world = (Ok 0%Z, w')
    /\ w_trace w' = [EvLoad; EvSave ok].
Proof.
  destruct (run_exits_zero (sample_env 204) [] sample_world 0%nat
              (loaded sample_world) eq_refl)
    as [ok [w' [Hrun [_ [Htrace _]]]]].
  exists ok, w'. split; [exact Hrun | exact Htrace].
Defined.

Lemma process_all_frame env k :
  forall enabled_monitors total w,
    (forall m, In m enabled_monitors -> ForoactivoMonitor.id_of m <> k) ->
    entry (w_state (snd (ForoactivoMonitor.process_all env enabled_monitors
                           total w))) k
    = entry (w_state w) k.
Proof.
  induction enabled_monitors as [|m rest IH]; intros total w Hids;
    [reflexivity|].
  cbn [ForoactivoMonitor.process_all]. rewrite run_bind_eq.
  pose proof (changes_only_process_monitor env m w k) as Hm.
  destruct (ForoactivoMonitor._process_monitor env m w) as [[n|e] w1];
    cbn [snd] in *.
  - rewrite IH by (intros m' Hm'; apply Hids; now right).
    apply Hm. intros ->. now apply (Hids m); [left|].
  - apply Hm. intros ->. now apply (Hids m); [left|].
Qed.

(** X21. [run] leaves what it loaded under every id that belongs to no
    enabled monitor: neither is such an entry changed nor is it dropped
    from the store. *)
Theorem run_keeps_other_entries env monitors w k state :
  outcome (StateManager.load_state (w_file w)) = Ok state ->
  (forall m, In m monitors -> cfg_enabled m <> Some false ->
             ForoactivoMonitor.id_of m <> k) ->
  entry (w_state (snd (ForoactivoMonitor.run env monitors w))) k
  = entry state k.
Proof.
  intros Hload Hids.
  destruct (run_unfolded env monitors w)
    as [state' [w2 [total [ok [out [Hload' [Hall [_ E]]]]]]]].
  rewrite Hload in Hload'. injection Hload' as <-.
  rewrite E. cbn [snd w_state].
  match type of Hall with
  | ForoactivoMonitor.process_all env ?l 0 ?w1 = _ =>
      pose proof (process_all_frame env k l 0%nat w1) as Hframe
  end.
  rewrite Hall in Hframe. cbn [snd w_state] in Hframe. apply Hframe.
  intros m Hm. apply filter_In in Hm. destruct Hm as [Hin Hen].
  apply Hids; [exact Hin|]. intros Hoff. rewrite Hoff in Hen. discriminate.
Qed.

Lemma run_keeps_other_entries_witness :
  entry (w_state (snd (ForoactivoMonitor.run (sample_env 204)
                         [sample_thread_config]
                         (mkWorld (PDict [])
                                  (Contents (Json.dumps
                                     (PDict [("f13", forum_cursor ["t1"] "now")])))
                                  [] [] 0))))
        "f13"
  = Some (forum_cursor ["t1"] "now").
Proof.
  refine (run_keeps_other_entries (sample_env 204) [sample_thread_config]
            (mkWorld (PDict [])
                     (Contents (Json.dumps
                        (PDict [("f13", forum_cursor ["t1"] "now")])))
                     [] [] 0)
            "f13" (PDict [("f13", forum_cursor ["t1"] "now")]) _ _).
  - vm_compute. reflexivity.
  - intros m [<-|[]] _. discriminate.
Defined.

(** ** A second pass over the same page *)

Lemma process_monitor_thread env monitor_config w :
  runnable env monitor_config = true ->
  is_forum monitor_config = false ->
  ForoactivoMonitor.truthy (cfg_thread_url monitor_config) = true
  /\ ForoactivoMonitor._process_monitor env monitor_config w
     = ForoactivoMonitor._process_thread_monitor env monitor_config
         (mkWorld (w_state w) (w_file w)
                  (w_out w ++ [LMonitor "--- Processing: "])
                  (w_trace w) (w_clock w)).
Proof.
  intros Hrun Hkind.
  destruct (runnable_parts _ _ Hrun) as [Hid [Hforum [Hname [Hpage _]]]].
  unfold page_of in Hpage. rewrite Hkind in Hpage. split; [exact Hpage|].
  unfold ForoactivoMonitor._process_monitor. rewrite run_bind_eq.
  cbn [RunMonad.print]. unfold webhook_env_of in Hname.
  rewrite Hid, Hforum, Hname. cbn [andb negb].
  unfold is_forum in Hkind. now rewrite Hkind.
Qed.


Lemma thread_monitor_quiet env monitor_config w d earlier latest o :
  ForoactivoMonitor.truthy (cfg_thread_url monitor_config) = true ->
  ForoactivoMonitor.truthy (getenv env (webhook_env_of monitor_config))
  = true ->
  client_login env (w_clock w) (forum_url_of monitor_config) = Ok true ->
  client_get_thread_posts env (S (w_clock w))
    (ForoactivoMonitor.get_or (cfg_thread_url monitor_config) EmptyString)
  = Ok (earlier ++ [latest]) ->
  w_state w = PDict d ->
  StateManager.get_new_posts (PDict d) (ForoactivoMonitor.id_of monitor_config)
    (earlier ++ [latest]) = (o, Ok []) ->
  fst (ForoactivoMonitor._process_thread_monitor env monitor_config w)
  = Ok 0%nat
  /\ w_trace (snd (ForoactivoMonitor._process_thread_monitor env
                     monitor_config w))
     = w_trace w
       ++ [EvLogin (forum_url_of monitor_config);
           EvFetchPosts (ForoactivoMonitor.get_or
                           (cfg_thread_url monitor_config) EmptyString);
           EvSetCursor (ForoactivoMonitor.id_of monitor_config)].
Proof.
  unfold webhook_env_of, forum_url_of.
  intros Hurl Henv Hlogin Hfetch Hstate Hnew.
  unfold ForoactivoMonitor._process_thread_monitor.
  rewrite Hurl, Henv. cbn [negb].
  assert (Hposts : earlier ++ [latest] <> [])
    by (destruct earlier; discriminate).
  unfold RunMonad.try_except, RunMonad.bind, RunMonad.print, RunMonad.tick,
    RunMonad.emit, RunMonad.lift, RunMonad.ret, RunMonad.reading.
  cbn [w_clock w_state w_file w_out w_trace fst snd].
  rewrite Hlogin. cbn [negb w_clock w_state w_file w_out w_trace fst snd].
  rewrite Hfetch. cbn [negb w_clock w_state w_file w_out w_trace fst snd].
  rewrite (match_nonempty _ _ _ Hposts).
  cbn [negb w_clock w_state w_file w_out w_trace fst snd].
  rewrite Hstate, Hnew, py_last_app.
  unfold ForoactivoMonitor.update_thread_state, RunMonad.bind, RunMonad.tick,
    RunMonad.writing, RunMonad.emit, RunMonad.ret.
  cbn [w_clock w_state w_file w_out w_trace fst snd].
  rewrite update_thread_state_run.
  cbn [w_clock w_state w_file w_out w_trace fst snd].
  split; [reflexivity|]. now rewrite <- !app_assoc.
Qed.

Lemma get_new_posts_caught_up d thread_id earlier latest now total :
  (forall p, In p earlier -> p_id p <> p_id latest) ->
  StateManager.get_new_posts
    (PDict (dict_set d thread_id (thread_cursor (p_id latest) now total)))
    thread_id (earlier ++ [latest])
  = ([LNoNewPosts thread_id], Ok []).
Proof.
  intros Hfresh.
  rewrite (get_new_posts_from_index _ thread_id (p_id latest)
             (earlier ++ [latest]) (length earlier) latest).
  - replace (S (length earlier)) with (length (earlier ++ [latest]))
      by (rewrite length_app; cbn; lia).
    now rewrite skipn_all.
  - unfold get_last_post_id, thread_cursor. cbn [py_get].
    now rewrite dict_get_set_same.
  - now rewrite nth_error_app2, Nat.sub_diag by lia.
  - reflexivity.
  - intros j q Hj Hq. rewrite nth_error_app1 in Hq by exact Hj.
    apply Hfresh. now apply nth_error_In in Hq.
Qed.

(** X22. A thread monitor that runs a second time over the same posts
    sends nothing: with a webhook that answers, a store whose entry of the
    thread is a cursor or missing, and a last post whose id no earlier
    post carries, the second run logs in, fetches, assigns the cursor
    again and returns 0 without a request to the webhook. *)
Theorem thread_monitor_second_pass env monitor_config w d earlier latest :
  let first := ForoactivoMonitor._process_monitor env monitor_config w in
  runnable env monitor_config = true ->
  is_forum monitor_config = false ->
  webhook_answers env ->
  w_state w = PDict d ->
  thread_cursor_ok d (ForoactivoMonitor.id_of monitor_config) ->
  (forall p, In p earlier -> p_id p <> p_id latest) ->
  (forall n, n = w_clock w \/ n = w_clock (snd first) ->
     client_login env n (forum_url_of monitor_config) = Ok true
     /\ client_get_thread_posts env (S n)
          (ForoactivoMonitor.get_or (page_of monitor_config) EmptyString)
        = Ok (earlier ++ [latest])) ->
  fst (ForoactivoMonitor._process_monitor env monitor_config (snd first))
  = Ok 0%nat
  /\ events_of (ForoactivoMonitor._process_monitor env monitor_config)
               (snd first)
     = [EvLogin (forum_url_of monitor_config); fetch_of monitor_config;
        EvSetCursor (ForoactivoMonitor.id_of monitor_config)].
Proof.
  intros first Hrun Hkind Hweb Hstate Hok Hfresh Hsite. subst first.
  destruct (runnable_parts _ _ Hrun) as [_ [_ [_ [_ Hgetenv]]]].
  unfold fetch_of, page_of in *. rewrite Hkind in *.
  destruct (process_monitor_thread env monitor_config w Hrun Hkind)
    as [Hurl E1].
  rewrite E1 in *.
  destruct (Hsite (w_clock w) (or_introl eq_refl)) as [Hlogin1 Hfetch1].
  destruct (thread_monitor_run env monitor_config
              (mkWorld (w_state w) (w_file w)
                       (w_out w ++ [LMonitor "--- Processing: "])
                       (w_trace w) (w_clock w))
              d earlier latest Hurl Hgetenv Hlogin1 Hfetch1 Hstate Hok Hweb)
    as [count [w1 [now [E2 Hstate1]]]].
  rewrite E2 in *. cbn [snd] in *.
  destruct (Hsite (w_clock w1) (or_intror eq_refl)) as [Hlogin2 Hfetch2].
  destruct (process_monitor_thread env monitor_config w1 Hrun Hkind)
    as [_ E3].
  destruct (thread_monitor_quiet env monitor_config
              (mkWorld (w_state w1) (w_file w1)
                       (w_out w1 ++ [LMonitor "--- Processing: "])
                       (w_trace w1) (w_clock w1))
              _ earlier latest _ Hurl Hgetenv Hlogin2 Hfetch2 Hstate1
              (get_new_posts_caught_up d _ earlier latest now _ Hfresh))
    as [Hret Htrace].
  split; [now rewrite E3|].
  apply events_of_trace. rewrite E3. exact Htrace.
Qed.

Lemma thread_monitor_second_pass_witness :
  events_of (ForoactivoMonitor._process_monitor (sample_env 204)
               sample_thread_config)
            (snd (ForoactivoMonitor._process_monitor (sample_env 204)
                    sample_thread_config sample_world))
  = [EvLogin "https://foro.test"; EvFetchPosts "https://foro.test/t7-charla";
     EvSetCursor "t7"].
Proof.
  refine (proj2 (thread_monitor_second_pass (sample_env 204)
                   sample_thread_config sample_world []
                   [sample_post "p1"] (sample_post "p2")
                   eq_refl eq_refl (sample_webhook_answers 204 _) eq_refl I
                   _ _)).
  - discriminate.
  - intros p [<-|[]]. discriminate.
  - intros n _. split; reflexivity.
Defined.






(** ** A notifier that raises *)

Lemma send_raises env url body sent w e :
  requests_post env (w_clock w) url body = PostRaises e ->
  e <> RequestException ->
  DiscordNotifier.send env url body sent w
  = (Raise e,
     mkWorld (w_state w) (w_file w) (w_out w)
             (w_trace w ++ [EvPost url body]) (S (w_clock w))).
Proof.
  intros E He.
  unfold DiscordNotifier.send, DiscordNotifier.post, RunMonad.try_except,
    RunMonad.bind, RunMonad.tick, RunMonad.emit, RunMonad.ret,
    RunMonad.raise, RunMonad.print.
  cbn [w_clock w_state w_file w_out w_trace fst snd]. rewrite E.
  destruct e; try reflexivity. contradiction.
Qed.

Lemma get_new_posts_untracked d thread_id earlier latest :
  dict_get d thread_id = None ->
  StateManager.get_new_posts (PDict d) thread_id (earlier ++ [latest])
  = ([LFirstTime thread_id], Ok [latest]).
Proof.
  intros Hnone. unfold get_new_posts.
  assert (Hposts : earlier ++ [latest] <> [])
    by (destruct earlier; discriminate).
  rewrite (match_nonempty _ _ _ Hposts).
  unfold get_last_post_id. cbn [py_get]. rewrite Hnone. cbn [py_get dict_get].
  rewrite bind_lift_Ok, py_last_app. reflexivity.
Qed.

(** X24. When the request for a notification raises something other
    than [RequestException], a thread monitor does not assign the cursor:
    at the first run of a thread it posts the last post, then one error
    embed, returns 0, and leaves the cursor store as it was, so that the
    same post is new again at the next run. *)
Theorem notifier_exception_keeps_cursor env monitor_config w d earlier latest
    e :
  runnable env monitor_config = true ->
  is_forum monitor_config = false ->
  w_state w = PDict d ->
  dict_get d (ForoactivoMonitor.id_of monitor_config) = None ->
  client_login env (w_clock w) (forum_url_of monitor_config) = Ok true ->
  client_get_thread_posts env (S (w_clock w))
    (ForoactivoMonitor.get_or (page_of monitor_config) EmptyString)
  = Ok (earlier ++ [latest]) ->
  requests_post env (S (S (w_clock w))) (webhook_url_of env monitor_config)
    (PostEmbed latest (name_of monitor_config)) = PostRaises e ->
  e <> RequestException ->
  fst (ForoactivoMonitor._process_monitor env monitor_config w) = Ok 0%nat
  /\ (exists error_message,
        events_of (ForoactivoMonitor._process_monitor env monitor_config) w
        = [EvLogin (forum_url_of monitor_config); fetch_of monitor_config;
           EvPost (webhook_url_of env monitor_config)
                  (PostEmbed latest (name_of monitor_config));
           EvPost (webhook_url_of env monitor_config)
                  (ErrorEmbed error_message (name_of monitor_config))])
  /\ w_state (snd (ForoactivoMonitor._process_monitor env monitor_config w))
     = PDict d.
Proof.
  intros Hrun Hkind Hstate Hnone Hlogin Hfetch Hpost He.
  assert (E : exists out,
             ForoactivoMonitor._process_monitor env monitor_config w
             = (Ok 0%nat,
                mkWorld (PDict d) (w_file w) (w_out w ++ out)
                  (w_trace w
                   ++ [EvLogin (forum_url_of monitor_config);
                       fetch_of monitor_config;
                       EvPost (webhook_url_of env monitor_config)
                              (PostEmbed latest (name_of monitor_config));
                       EvPost (webhook_url_of env monitor_config)
                              (ErrorEmbed "Error processing monitor"
                                          (name_of monitor_config))])
                  (S (S (S (S (w_clock w))))))).
  { enter_monitor Hrun; [discriminate Hkind|].
    assert (Hposts : earlier ++ [latest] <> [])
      by (destruct earlier; discriminate).
    rewrite Hlogin. cbn [negb w_clock w_state w_file w_out w_trace fst snd].
    rewrite Hfetch. cbn [negb w_clock w_state w_file w_out w_trace fst snd].
    rewrite (match_nonempty _ _ _ Hposts).
    cbn [negb w_clock w_state w_file w_out w_trace fst snd].
    rewrite Hstate, (get_new_posts_untracked d _ earlier latest Hnone).
    unfold DiscordNotifier.send_batch_notifications,
      DiscordNotifier.send_batch, DiscordNotifier.send_notification.
    cbn [DiscordNotifier.send_each]. rewrite !run_bind_eq.
    rewrite (send_raises _ _ _ _ _ e) by assumption.
    match goal with
    | |- context [ForoactivoMonitor.report_error ?e ?v ?n ?w1] =>
        destruct (report_error_run e v n w1 Hgetenv) as [out E]
    end.
    rewrite E. cbn [w_clock w_state w_file w_out w_trace].
    eexists. rewrite <- !app_assoc. reflexivity. }
  destruct E as [out E].
  split; [now rewrite E|].
  split; [eexists; apply events_of_trace; now rewrite E | now rewrite E].
Qed.

Lemma notifier_exception_keeps_cursor_witness :
  w_state (snd (ForoactivoMonitor._process_monitor
                  (mkEnv (fun _ => Some "https://discord.test/hook")
                         (fun _ _ => Ok true)
                         (fun _ _ => Ok [])
                         (fun _ _ => Ok [sample_post "p1"; sample_post "p2"])
                         (fun _ _ _ => PostRaises OSError)
                         (fun _ => "2024-05-01T10:00:00Z")
                         (fun _ => Written)
                         (fun _ => Raise OverflowError))
                  sample_thread_config sample_world))
  = PDict [].
Proof.
  refine (proj2 (proj2 (notifier_exception_keeps_cursor
                   (mkEnv (fun _ => Some "https://discord.test/hook")
                          (fun _ _ => Ok true)
                          (fun _ _ => Ok [])
                          (fun _ _ => Ok [sample_post "p1"; sample_post "p2"])
                          (fun _ _ _ => PostRaises OSError)
                          (fun _ => "2024-05-01T10:00:00Z")
                          (fun _ => Written)
                          (fun _ => Raise OverflowError))
                   sample_thread_config sample_world []
                   [sample_post "p1"] (sample_post "p2") OSError
                   eq_refl eq_refl eq_refl eq_refl eq_refl eq_refl eq_refl
                   _))).
  discriminate.
Defined.

(** * The configuration file *)

Lemma load_config_contents data :
  Configuration._load_config (Contents data)
  = match Json.loads data with
    | Ok (PDict d) =>
        match dict_get d "monitors" with
        | Some monitors =>
            match py_len monitors with
            | Ok _ =>
                ([LMonitor "Loaded configuration with "], Ok (PDict d))
            | Raise e => ([], Raise e)
            end
        | None => ([], Raise ValueError)
        end
    | Ok (PList xs) =>
        ([], Raise (if py_in "monitors" xs then TypeError else ValueError))
    | Ok (PStr s) =>
        ([], Raise (match String.index 0 "monitors" s with
                    | Some _ => TypeError
                    | None => ValueError
                    end))
    | Ok _ => ([], Raise TypeError)
    | Raise _ => ([], Raise ValueError)
    end.
Proof.
  unfold Configuration._load_config. rewrite bind_lift_Ok.
  destruct (loads_decodes data) as [[config E]|E]; rewrite E;
    [|reflexivity].
  rewrite bind_lift_Ok.
  destruct config as [| | | |s|xs|d]; try reflexivity.
  - cbn [Configuration.py_contains].
    destruct (String.index 0 "monitors" s); reflexivity.
  - cbn [Configuration.py_contains].
    destruct (py_in "monitors" xs); reflexivity.
  - cbn [Configuration.py_contains Configuration.py_getitem py_get].
    destruct (dict_get d "monitors") as [monitors|]; [|reflexivity].
    rewrite bind_lift_Ok. cbn [negb]. rewrite bind_lift_Ok.
    destruct monitors; reflexivity.
Qed.

(** X25. [_load_config] returns a configuration exactly when the file
    holds one JSON object that has a [monitors] entry of which [len] can
    be taken, and then it returns that object: it never returns a
    document that is not an object, nor an object without [monitors]. *)
Theorem load_config_returns_exactly f config :
  outcome (Configuration._load_config f) = Ok config <->
  exists data d monitors n,
    f = Contents data
    /\ Json.loads data = Ok config
    /\ config = PDict d
    /\ dict_get d "monitors" = Some monitors
    /\ py_len monitors = Ok n.
Proof.
  split.
  - destruct f as [|e|data]; [discriminate| |].
    + unfold Configuration._load_config. rewrite bind_lift_Raise.
      now destruct e.
    + rewrite load_config_contents.
      destruct (Json.loads data) as [[| | | |s|xs|d]|e] eqn:El;
        try discriminate.
      destruct (dict_get d "monitors") as [monitors|] eqn:Em;
        [|discriminate].
      destruct (py_len monitors) as [n|e] eqn:En; [|discriminate].
      intros [= <-]. now exists data, d, monitors, n.
  - intros [data [d [monitors [n [-> [Hl [-> [Hm Hn]]]]]]]].
    now rewrite load_config_contents, Hl, Hm, Hn.
Qed.

(** X26. How [_load_config] fails.  A missing file raises at once; a
    file that is not JSON, and an object without [monitors], raise
    [ValueError]; a list that has the string [monitors] among its
    elements passes the test for the key and then raises [TypeError], as
    does an object whose [monitors] is a number, a boolean or [null]. *)
Theorem load_config_failures data :
  Configuration._load_config Missing = ([], Raise OSError)
  /\ (Json.loads data = Raise JSONDecodeError ->
      outcome (Configuration._load_config (Contents data)) = Raise ValueError)
  /\ (forall d,
        Json.loads data = Ok (PDict d) -> dict_get d "monitors" = None ->
        outcome (Configuration._load_config (Contents data))
        = Raise ValueError)
  /\ (forall xs,
        Json.loads data = Ok (PList xs) -> In (PStr "monitors") xs ->
        outcome (Configuration._load_config (Contents data))
        = Raise TypeError)
  /\ (forall d monitors,
        Json.loads data = Ok (PDict d) ->
        dict_get d "monitors" = Some monitors ->
        py_len monitors = Raise TypeError ->
        outcome (Configuration._load_config (Contents data))
        = Raise TypeError).
Proof.
  split; [reflexivity|].
  split; [intros E; now rewrite load_config_contents, E|].
  split; [intros d E Hm; now rewrite load_config_contents, E, Hm|].
  split.
  - intros xs E Hin. apply py_in_In in Hin.
    now rewrite load_config_contents, E, Hin.
  - intros d monitors E Hm Hn.
    now rewrite load_config_contents, E, Hm, Hn.
Qed.

Lemma load_config_returns_exactly_witness :
  outcome (Configuration._load_config
             (Contents (Json.dumps (PDict [("monitors", PList [])]))))
  = Ok (PDict [("monitors", PList [])]).
Proof.
  apply (proj2 (load_config_returns_exactly
                  (Contents (Json.dumps (PDict [("monitors", PList [])])))
                  (PDict [("monitors", PList [])]))).
  exists (Json.dumps (PDict [("monitors", PList [])])),
    [("monitors", PList [])], (PList []), 0%nat.
  split; [reflexivity|]. split; [vm_compute; reflexivity|].
  repeat split.
Defined.

Lemma load_config_failures_witness :
  outcome (Configuration._load_config
             (Contents (Json.dumps (PList [PStr "monitors"]))))
  = Raise TypeError.
Proof.
  refine (proj1 (proj2 (proj2 (proj2
            (load_config_failures (Json.dumps (PList [PStr "monitors"])))))) 
            [PStr "monitors"] _ _).
  - vm_compute. reflexivity.
  - now left.
Defined.

(** * The first run of a monitor *)

Lemma get_new_threads_untracked d forum_id all_threads :
  dict_get d forum_id = None ->
  all_threads <> [] ->
  StateManager.get_new_threads (PDict d) forum_id all_threads
  = ([LFoundNewThreads (length all_threads) forum_id], Ok all_threads).
Proof.
  intros Hnone Hne.
  rewrite get_new_threads_unfold;
    [|unfold forum_cursor_ok; now rewrite Hnone | exact Hne].
  cbv zeta. unfold stored_seen_thread_ids. rewrite Hnone.
  assert (Hall : filter (fun t : ThreadRecord => negb (py_in (t_id t) []))
                   all_threads = all_threads).
  { clear. induction all_threads as [|t ts IH]; [reflexivity|].
    cbn [filter]. change (negb (py_in (t_id t) [])) with true.
    cbv iota. now rewrite IH. }
  rewrite Hall. destruct all_threads; [contradiction | reflexivity].
Qed.

(** X27. The first run of a thread monitor sends one notification,
    however many posts the thread has: with a webhook that accepts, a
    thread not tracked before is logged in to and fetched, the last post
    alone is posted, the cursor is assigned to that post with the number
    of posts fetched, and the monitor returns 1. *)
Theorem thread_monitor_first_run env monitor_config w d earlier latest :
  runnable env monitor_config = true ->
  is_forum monitor_config = false ->
  webhook_accepts env ->
  w_state w = PDict d ->
  dict_get d (ForoactivoMonitor.id_of monitor_config) = None ->
  client_login env (w_clock w) (forum_url_of monitor_config) = Ok true ->
  client_get_thread_posts env (S (w_clock w))
    (ForoactivoMonitor.get_or (page_of monitor_config) EmptyString)
  = Ok (earlier ++ [latest]) ->
  fst (ForoactivoMonitor._process_monitor env monitor_config w) = Ok 1%nat
  /\ events_of (ForoactivoMonitor._process_monitor env monitor_config) w
     = [EvLogin (forum_url_of monitor_config); fetch_of monitor_config;
        EvPost (webhook_url_of env monitor_config)
               (PostEmbed latest (name_of monitor_config));
        EvSetCursor (ForoactivoMonitor.id_of monitor_config)]
  /\ exists now,
       w_state (snd (ForoactivoMonitor._process_monitor env monitor_config w))
       = PDict (dict_set d (ForoactivoMonitor.id_of monitor_config)
                  (thread_cursor (p_id latest) now
                     (Z.of_nat (length (earlier ++ [latest]))))).
Proof.
  intros Hrun Hkind Hweb Hstate Hnone Hlogin Hfetch.
  assert (E : exists out now,
             ForoactivoMonitor._process_monitor env monitor_config w
             = (Ok 1%nat,
                mkWorld
                  (PDict (dict_set d (ForoactivoMonitor.id_of monitor_config)
                            (thread_cursor (p_id latest) now
                               (Z.of_nat (length (earlier ++ [latest]))))))
                  (w_file w) (w_out w ++ out)
                  (w_trace w
                   ++ [EvLogin (forum_url_of monitor_config);
                       fetch_of monitor_config;
                       EvPost (webhook_url_of env monitor_config)
                              (PostEmbed latest (name_of monitor_config));
                       EvSetCursor (ForoactivoMonitor.id_of monitor_config)])
                  (S (S (S (S (w_clock w))))))).
  { enter_monitor Hrun; [discriminate Hkind|].
    assert (Hposts : earlier ++ [latest] <> [])
      by (destruct earlier; discriminate).
    rewrite Hlogin. cbn [negb w_clock w_state w_file w_out w_trace fst snd].
    rewrite Hfetch. cbn [negb w_clock w_state w_file w_out w_trace fst snd].
    rewrite (match_nonempty _ _ _ Hposts).
    cbn [negb w_clock w_state w_file w_out w_trace fst snd].
    rewrite Hstate, (get_new_posts_untracked d _ earlier latest Hnone).
    unfold DiscordNotifier.send_batch_notifications,
      DiscordNotifier.send_batch, DiscordNotifier.send_notification.
    cbn [DiscordNotifier.send_each length]. rewrite !run_bind_eq.
    rewrite send_accepted by exact Hweb.
    change (((0 + 1) mod 4 =? 0)%nat) with false. cbn [andb].
    cbn [RunMonad.ret RunMonad.print RunMonad.bind RunMonad.lift
           w_clock w_state w_file w_out w_trace fst snd].
    rewrite py_last_app.
    unfold ForoactivoMonitor.update_thread_state, RunMonad.bind,
      RunMonad.tick, RunMonad.writing, RunMonad.emit, RunMonad.ret.
    cbn [w_clock w_state w_file w_out w_trace fst snd].
    rewrite update_thread_state_run.
    cbn [w_clock w_state w_file w_out w_trace fst snd].
    eexists _, _. unfold thread_cursor. rewrite <- !app_assoc. reflexivity. }
  destruct E as [out [now E]].
  split; [now rewrite E|].
  split; [apply events_of_trace; now rewrite E|].
  exists now. now rewrite E.
Qed.

Lemma thread_monitor_first_run_witness :
  fst (ForoactivoMonitor._process_monitor (sample_env 204)
         sample_thread_config sample_world) = Ok 1%nat.
Proof.
  refine (proj1 (thread_monitor_first_run (sample_env 204)
                   sample_thread_config sample_world []
                   [sample_post "p1"] (sample_post "p2")
                   eq_refl eq_refl _ eq_refl eq_refl eq_refl eq_refl)).
  intros n url body. now exists (Ok (PInt 1)).
Defined.

Lemma send_batch_paced env url {A} (mk : A -> payload) sent items w :
  webhook_accepts env ->
  exists w' evs,
    DiscordNotifier.send_batch env
      (fun x => DiscordNotifier.send env url (mk x) sent) items w
    = (Ok (length items), w')
    /\ w_state w' = w_state w
    /\ w_trace w' = w_trace w ++ evs
    /\ filter is_post evs = map (fun x => EvPost url (mk x)) items
    /\ filter is_sleep evs
       = repeat (EvSleep (PInt 2)) ((length items - 1) / 4).
Proof.
  intros Hweb. unfold DiscordNotifier.send_batch.
  destruct items as [|x rest].
  { exists w, []. cbn. rewrite app_nil_r. repeat split. }
  destruct (send_each_paced env url mk sent Hweb (x :: rest) 0%nat 0%nat w)
    as [w' [evs [pauses [E [Htrace [Hposts [Hsleeps Hn]]]]]]].
  pose proof (keeps_state_send_each env
                (fun x => DiscordNotifier.send env url (mk x) sent)
                (length (x :: rest)) (x :: rest)
                (fun item => keeps_state_send env url (mk item) sent)
                0%nat 0%nat w) as Hkeep.
  rewrite run_bind_eq.
  change (length (x :: rest)) with (0 + length (x :: rest))%nat in Hkeep |- * at 1.
  rewrite E in *. cbn [snd] in Hkeep.
  cbn [RunMonad.bind RunMonad.print RunMonad.ret w_state w_trace].
  eexists _, evs. split; [reflexivity|].
  cbn [w_state w_trace]. split; [exact Hkeep|]. split; [exact Htrace|].
  split; [exact Hposts|]. rewrite Hsleeps. f_equal.
  destruct Hn as [Hn|[Hn _]]; [|discriminate Hn].
  change (0 / 4)%nat with 0%nat in Hn. rewrite Nat.add_0_r in Hn. exact Hn.
Qed.

(** X28. The first run of a forum monitor notifies of every thread on
    the page: with a webhook that accepts, a section not tracked before
    is logged in to and fetched, the cursor is assigned, and then one
    request is made for each thread, in the order of the page, with a
    pause after every fourth that is not the last; the monitor returns
    the number of threads. *)
Theorem forum_monitor_first_run env monitor_config w d all_threads :
  runnable env monitor_config = true ->
  is_forum monitor_config = true ->
  webhook_accepts env ->
  w_state w = PDict d ->
  dict_get d (ForoactivoMonitor.id_of monitor_config) = None ->
  client_login env (w_clock w) (forum_url_of monitor_config) = Ok true ->
  client_get_forum_threads env (S (w_clock w))
    (ForoactivoMonitor.get_or (page_of monitor_config) EmptyString)
  = Ok all_threads ->
  all_threads <> [] ->
  fst (ForoactivoMonitor._process_monitor env monitor_config w)
  = Ok (length all_threads)
  /\ exists evs,
       events_of (ForoactivoMonitor._process_monitor env monitor_config) w
       = [EvLogin (forum_url_of monitor_config); fetch_of monitor_config;
          EvSetCursor (ForoactivoMonitor.id_of monitor_config)] ++ evs
       /\ filter is_post evs
          = map (fun t => EvPost (webhook_url_of env monitor_config)
                                 (ThreadEmbed t (name_of monitor_config)))
                all_threads
       /\ filter is_sleep evs
          = repeat (EvSleep (PInt 2)) ((length all_threads - 1) / 4).
Proof.
  intros Hrun Hkind Hweb Hstate Hnone Hlogin Hfetch Hne.
  assert (E : exists w' evs,
             ForoactivoMonitor._process_monitor env monitor_config w
             = (Ok (length all_threads), w')
             /\ w_trace w'
                = w_trace w
                  ++ [EvLogin (forum_url_of monitor_config);
                      fetch_of monitor_config;
                      EvSetCursor (ForoactivoMonitor.id_of monitor_config)]
                  ++ evs
             /\ filter is_post evs
                = map (fun t => EvPost (webhook_url_of env monitor_config)
                                       (ThreadEmbed t (name_of monitor_config)))
                      all_threads
             /\ filter is_sleep evs
                = repeat (EvSleep (PInt 2)) ((length all_threads - 1) / 4)).
  { enter_monitor Hrun; [|discriminate Hkind].
    rewrite Hlogin. cbn [negb w_clock w_state w_file w_out w_trace fst snd].
    rewrite Hfetch. cbn [negb w_clock w_state w_file w_out w_trace fst snd].
    rewrite (match_nonempty _ _ _ Hne).
    cbn [negb w_clock w_state w_file w_out w_trace fst snd].
    rewrite Hstate, (get_new_threads_untracked d _ all_threads Hnone Hne).
    unfold ForoactivoMonitor.update_forum_state, RunMonad.bind,
      RunMonad.tick, RunMonad.writing, RunMonad.emit, RunMonad.ret.
    cbn [w_clock w_state w_file w_out w_trace fst snd].
    rewrite update_forum_state_run.
    cbn [w_clock w_state w_file w_out w_trace fst snd].
    rewrite (match_nonempty _ _ _ Hne).
    unfold DiscordNotifier.send_batch_thread_notifications,
      DiscordNotifier.send_thread_notification.
    match goal with
    | |- context [DiscordNotifier.send_batch _ ?f all_threads ?w1] =>
        destruct (send_batch_paced env
                    (ForoactivoMonitor.get_or
                       (getenv env
                          (ForoactivoMonitor.get_or
                             (cfg_discord_webhook_env monitor_config)
                             "DISCORD_WEBHOOK_URL")) EmptyString)
                    (fun t => ThreadEmbed t
                                (ForoactivoMonitor.get_or
                                   (cfg_name monitor_config) "Forum"))
                    "Discord notification sent for new thread "
                    all_threads w1 Hweb)
          as [w' [evs [Eb [_ [Htrace [Hposts Hsleeps]]]]]]
    end.
    rewrite Eb. exists w', evs. split; [reflexivity|].
    split; [|split; assumption].
    rewrite Htrace. cbn [w_trace]. now rewrite <- !app_assoc. }
  destruct E as [w' [evs [E [Htrace Hrest]]]].
  split; [now rewrite E|].
  exists evs. split; [|exact Hrest].
  apply events_of_trace. rewrite E. exact Htrace.
Qed.

Lemma forum_monitor_first_run_witness :
  fst (ForoactivoMonitor._process_monitor (sample_env 204)
         sample_forum_config sample_world) = Ok 1%nat.
Proof.
  refine (proj1 (forum_monitor_first_run (sample_env 204)
                   sample_forum_config sample_world []
                   [sample_thread "t1"]
                   eq_refl eq_refl _ eq_refl eq_refl eq_refl eq_refl _)).
  - intros n url body. now exists (Ok (PInt 1)).
  - discriminate.
Defined.
